(** * The certificate issuance orchestrator of lego (certificate/certificates.go)

    A shallow embedding of the [Certifier]: [Obtain], [ObtainForCSR],
    [getForOrder], [getForCSR], [checkResponse], [RenewWithOptions], [Get],
    [hasPreferredChain], [checkOrderStatus] and [sanitizeDomain].

    The ACME API core, the challenge solver, certcrypto, idna and the Go
    runtime's map iteration order are collaborators of the orchestrator: they
    are fields of the records [Lib] (pure functions) and [Env] (calls that
    change the outside world).  Every call that leaves the orchestrator is
    written to a trace of [Event]s, so that statements such as "without
    contacting the CA" can be made about a run. *)

From Stdlib Require Import ZArith Ascii String List Lia.
From stdpp Require Import base option list gmap strings.

Local Open Scope string_scope.
Local Open Scope list_scope.
Set Warnings "-register-all".

(** ** Go data *)

(** A Go [[]byte]: [None] is the nil slice. *)
Abbreviation bytes := (option (list Byte.byte)).

Definition len_bytes (b : bytes) : nat :=
  match b with
  | None => 0
  | Some l => length l
  end.

Definition bytes_of (s : string) : bytes := Some (list_byte_of_string s).

(** [time.Duration] and [time.Time] are 64-bit integers. *)
Abbreviation Duration := Z.
Abbreviation Time := Z.

Module time.
Definition Nanosecond : Z := 1.
Definition Second : Z := 1000000000 * Nanosecond.
End time.

(** [crypto.PrivateKey] is an opaque value for the orchestrator. *)
Inductive crypto_PrivateKey := KeyHandle (id : N).

Module x509.
(** The fields of [x509.Certificate] the orchestrator reads. *)
Record Certificate := {
  IsCA : bool;
  Issuer_CommonName : string;
  Subject_CommonName : string;
  DNSNames : list string;
  Raw : bytes
}.

Record CertificateRequest := {
  CSR_CommonName : string;
  CSR_DNSNames : list string;
  CSR_Raw : bytes
}.
End x509.

Module acme.
Definition StatusPending : string := "pending".
Definition StatusReady : string := "ready".
Definition StatusProcessing : string := "processing".
Definition StatusValid : string := "valid".
Definition StatusInvalid : string := "invalid".

Record Identifier := { Type_ : string; Value : string }.

Record ProblemDetails := {
  ProblemType : string;
  Detail : string;
  HTTPStatus : Z
}.

Record Authorization := {
  AuthzStatus : string;
  AuthzIdentifier : Identifier;
  Wildcard : bool
}.

Record ExtendedOrder := {
  Status : string;
  Identifiers : list Identifier;
  Authorizations : list string;
  Finalize : string;
  Certificate : string;
  Error : option ProblemDetails;
  Location : string
}.

Record RawCertificate := { Cert : bytes; Issuer : bytes }.

(** The zero value, which a Go map lookup gives for a missing key.  The API
    core's [Certificates.GetAll] is taken, as in section 6 of the spec, to
    return a map from URL to \{cert, issuer\} values. *)
Definition RawCertificate_zero : RawCertificate :=
  {| Cert := None; Issuer := None |}.
End acme.

(** Go's [error] values, as far as the orchestrator builds or forwards them. *)
Inductive error :=
| errors_New (msg : string)
| Errorf_w (msg : string) (cause : option error)
| ProblemError (p : acme.ProblemDetails)
| TimeLimitExceeded (msg : string)
| obtainError_data (data : list (string * error)).

Inductive result (A : Type) :=
| Ok (a : A)
| Err (e : error).
Arguments Ok {A} a.
Arguments Err {A} e.

(** [order.Err()] *)
Definition order_Err (order : acme.ExtendedOrder) : option error :=
  match acme.Error order with
  | Some p => Some (ProblemError p)
  | None => None
  end.

Module api.
Record OrderOptions := {
  NotBefore : Time;
  NotAfter : Time;
  Profile : string;
  ReplacesCertID : string
}.
End api.

Module certcrypto.
Record CSROptions := {
  Domain : string;
  SAN : list string;
  MustStaple : bool;
  EmailAddresses : list string
}.
End certcrypto.

(** ** The structs of certificates.go *)

Record Resource := {
  Domain : string;
  CertURL : string;
  CertStableURL : string;
  PrivateKey : bytes;
  Certificate : bytes;
  IssuerCertificate : bytes;
  CSR : bytes
}.

Module ObtainRequest.
Record t := {
  Domains : list string;
  PrivateKey : option crypto_PrivateKey;
  MustStaple : bool;
  EmailAddresses : list string;
  NotBefore : Time;
  NotAfter : Time;
  Bundle : bool;
  PreferredChain : string;
  Profile : string;
  AlwaysDeactivateAuthorizations : bool;
  ReplacesCertID : string
}.
End ObtainRequest.

Module ObtainForCSRRequest.
Record t := {
  CSR : option x509.CertificateRequest;
  PrivateKey : option crypto_PrivateKey;
  NotBefore : Time;
  NotAfter : Time;
  Bundle : bool;
  PreferredChain : string;
  Profile : string;
  AlwaysDeactivateAuthorizations : bool;
  ReplacesCertID : string
}.
End ObtainForCSRRequest.

Module RenewOptions.
Record t := {
  NotBefore : Time;
  NotAfter : Time;
  Bundle : bool;
  PreferredChain : string;
  Profile : string;
  AlwaysDeactivateAuthorizations : bool;
  MustStaple : bool;
  EmailAddresses : list string
}.
End RenewOptions.

Record CertifierOptions := {
  KeyType : string;
  Timeout : Duration;
  OverallRequestLimit : Z;
  DisableCommonName : bool
}.

(** The [api.OrderOptions] literal of Obtain and of ObtainForCSR. *)
Definition Obtain_orderOpts (request : ObtainRequest.t) : api.OrderOptions :=
  {| api.NotBefore := ObtainRequest.NotBefore request;
     api.NotAfter := ObtainRequest.NotAfter request;
     api.Profile := ObtainRequest.Profile request;
     api.ReplacesCertID := ObtainRequest.ReplacesCertID request |}.

Definition ObtainForCSR_orderOpts (request : ObtainForCSRRequest.t)
  : api.OrderOptions :=
  {| api.NotBefore := ObtainForCSRRequest.NotBefore request;
     api.NotAfter := ObtainForCSRRequest.NotAfter request;
     api.Profile := ObtainForCSRRequest.Profile request;
     api.ReplacesCertID := ObtainForCSRRequest.ReplacesCertID request |}.

(** ** Calls that leave the orchestrator *)

Inductive Event :=
| EvNewOrder (domains : list string) (opts : api.OrderOptions)
| EvGetAuthorizations (order : acme.ExtendedOrder)
| EvSolve (authz : list acme.Authorization)
| EvDeactivate (authzURL : string)
| EvGeneratePrivateKey (keyType : string)
| EvCreateCSR (key : crypto_PrivateKey) (opts : certcrypto.CSROptions)
| EvUpdateForCSR (finalize : string) (csr : bytes)
| EvWaitFor (msg : string) (timeout interval : Duration)
| EvOrdersGet (location : string)
| EvCertificatesGetAll (url : string) (bundle : bool)
| EvCertificatesGet (url : string) (bundle : bool).

(** The pure functions of certcrypto, idna and challenge.  [certcrypto.PEMEncode]
    is applied to private keys and to certificate requests: it is split in
    two here. *)
Record Lib := {
  idna_ToASCII : string -> result string;
  ParsePEMBundle : bytes -> result (list x509.Certificate);
  ParsePEMPrivateKey : bytes -> result crypto_PrivateKey;
  PemDecodeTox509CSR : bytes -> result x509.CertificateRequest;
  PEMEncode : crypto_PrivateKey -> bytes;
  PEMEncodeCSR : x509.CertificateRequest -> bytes;
  ExtractDomains : x509.Certificate -> list string;
  ExtractDomainsCSR : x509.CertificateRequest -> list string;
  GetCertificateMainDomain : x509.Certificate -> result string;
  GetTargetedDomain : acme.Authorization -> string
}.

(** ** sanitizeDomain *)

Section Sanitize.
Variable L : Lib.

(** One turn of the [for _, domain := range domains] loop: a domain that
    does not convert is logged and skipped, the others are appended. *)
Definition sanitize_step (sanitizedDomains : list string) (domain : string)
  : list string :=
  match idna_ToASCII L domain with
  | Err _ => sanitizedDomains
  | Ok sanitizedDomain => sanitizedDomains ++ [sanitizedDomain]
  end.

(** certificates.go, lines 723-734. *)
Definition sanitizeDomain (domains : list string) : list string :=
  fold_left sanitize_step domains [].

(** The conversion seen as a partial function. *)
Definition toASCII_opt (domain : string) : option string :=
  match idna_ToASCII L domain with
  | Ok s => Some s
  | Err _ => None
  end.

Definition converts (domain : string) : bool :=
  match idna_ToASCII L domain with
  | Ok _ => true
  | Err _ => false
  end.
End Sanitize.

(** ** The outside world *)

(** The collaborators whose calls change the world [W]: the ACME API core
    ([c.core]), the challenge solver ([c.resolver]), key and CSR generation,
    the clock of the wait primitive and the order in which the Go runtime
    walks a map. *)
Record Env (W : Type) := {
  Orders_NewWithOptions :
    list string -> api.OrderOptions -> W -> result acme.ExtendedOrder * W;
  Orders_UpdateForCSR : string -> bytes -> W -> result acme.ExtendedOrder * W;
  Orders_Get : string -> W -> result acme.ExtendedOrder * W;
  Certificates_GetAll :
    string -> bool -> W -> result (gmap string acme.RawCertificate) * W;
  Certificates_Get : string -> bool -> W -> result (bytes * bytes) * W;
  Authorizations_Deactivate : string -> W -> unit * W;
  core_getAuthorizations :
    acme.ExtendedOrder -> W -> result (list acme.Authorization) * W;
  resolver_Solve : list acme.Authorization -> W -> option error * W;
  GeneratePrivateKey : string -> W -> result crypto_PrivateKey * W;
  CreateCSR :
    crypto_PrivateKey -> certcrypto.CSROptions -> W -> result bytes * W;
  (* how many samples the wait primitive takes before its time is up *)
  wait_samples : Duration -> Duration -> W -> nat;
  (* the order of a [range] over a map: any order, each entry once *)
  map_range :
    W -> gmap string acme.RawCertificate -> list (string * acme.RawCertificate);
  map_range_perm : forall w m, map_range w m ≡ₚ map_to_list m
}.
Arguments Orders_NewWithOptions {W} _.
Arguments Orders_UpdateForCSR {W} _.
Arguments Orders_Get {W} _.
Arguments Certificates_GetAll {W} _.
Arguments Certificates_Get {W} _.
Arguments Authorizations_Deactivate {W} _.
Arguments core_getAuthorizations {W} _.
Arguments resolver_Solve {W} _.
Arguments GeneratePrivateKey {W} _.
Arguments CreateCSR {W} _.
Arguments wait_samples {W} _.
Arguments map_range {W} _.
Arguments map_range_perm {W} _.

(** Where a Go run can panic. *)
Inductive PanicSite :=
| Panic_getForOrder_domains0
| Panic_getForCSR_domains0
| Panic_hasPreferredChain_top
| Panic_Renew_certificates0
| Panic_Get_x509Certs0.

Inductive Outcome (A : Type) :=
| Ret (a : A)
| Panic (site : PanicSite).
Arguments Ret {A} a.
Arguments Panic {A} site.

Record State (W : Type) := { world : W; trace : list Event }.
Arguments world {W} _.
Arguments trace {W} _.

(** State passing with panics. *)
Definition M (W A : Type) : Type := State W -> Outcome A * State W.

Definition ret {W A} (a : A) : M W A := fun s => (Ret a, s).

Definition bind {W A B} (m : M W A) (k : A -> M W B) : M W B :=
  fun s =>
    match m s with
    | (Ret a, s') => k a s'
    | (Panic site, s') => (Panic site, s')
    end.

Definition panic {W A} (site : PanicSite) : M W A := fun s => (Panic site, s).

(** A call to a collaborator: the event is recorded, the world moves on. *)
Definition call {W A} (ev : Event) (f : W -> A * W) : M W A :=
  fun s =>
    let '(a, w') := f (world s) in
    (Ret a, {| world := w'; trace := trace s ++ [ev] |}).

(** Reading the world without a call. *)
Definition peek {W A} (f : W -> A) : M W A := fun s => (Ret (f (world s)), s).

Notation "x <- m ; k" := (bind m (fun x => k))
  (at level 20, m at level 100, k at level 200, only parsing).
Notation "' p <- m ; k" := (bind m (fun x => match x with p => k end))
  (at level 20, p pattern, m at level 100, k at level 200, only parsing).

(** Setters for the fields the code assigns through [*Resource]. *)
Definition set_chain (certRes : Resource) (issuer cert : bytes) (url : string)
  : Resource :=
  {| Domain := Domain certRes;
     CertURL := url;
     CertStableURL := url;
     PrivateKey := PrivateKey certRes;
     Certificate := cert;
     IssuerCertificate := issuer;
     CSR := CSR certRes |}.

Definition set_CSR (certRes : Resource) (csr : bytes) : Resource :=
  {| Domain := Domain certRes;
     CertURL := CertURL certRes;
     CertStableURL := CertStableURL certRes;
     PrivateKey := PrivateKey certRes;
     Certificate := Certificate certRes;
     IssuerCertificate := IssuerCertificate certRes;
     CSR := csr |}.

(** ** The error aggregator *)

(** Modelled from the spec: certificate/errors.go ([obtainError]) is not among
    the sources.  Section 4.5: it "accumulates zero or more (domain, error)
    pairs"; "joining zero entries yields no error (nil)", "joining one or more
    entries yields a single composite error" that "enumerates every affected
    domain and its cause". *)
Definition newObtainError : list (string * error) := [].

Definition obtainError_Add (failures : list (string * error))
  (domain : string) (err : error) : list (string * error) :=
  failures ++ [(domain, err)].

Definition obtainError_Join (failures : list (string * error)) : option error :=
  match failures with
  | [] => None
  | _ :: _ => Some (obtainError_data failures)
  end.

(** ** Pure parts of the orchestrator *)

(** certificates.go, lines 707-716. *)
Definition checkOrderStatus (order : acme.ExtendedOrder) : bool * option error :=
  if String.eqb (acme.Status order) acme.StatusValid then (true, None)
  else if String.eqb (acme.Status order) acme.StatusInvalid then
    (false, Some (Errorf_w "invalid order" (order_Err order)))
  else (false, None).

(** [timeout] and [timeout/60] of getForCSR (lines 366-371); Go's [/]
    truncates. *)
Definition poll_timeout (options : CertifierOptions) : Duration :=
  if (Timeout options <=? 0)%Z then (30 * time.Second)%Z else Timeout options.

Definition poll_interval (options : CertifierOptions) : Duration :=
  (poll_timeout options ÷ 60)%Z.

(** [commonName] of getForOrder (lines 304-307), given [domains[0]]. *)
Definition commonName_of (options : CertifierOptions) (domain0 : string)
  : string :=
  if (String.length domain0 <=? 64)%nat && negb (DisableCommonName options)
  then domain0 else "".

(** One turn of [for _, auth := range order.Identifiers] (lines 321-325),
    and the SAN list built from [commonName] (lines 316-325). *)
Definition san_step (commonName : string) (san : list string)
  (auth : acme.Identifier) : list string :=
  if String.eqb (acme.Value auth) commonName then san
  else san ++ [acme.Value auth].

Definition san_of (commonName : string) (identifiers : list acme.Identifier)
  : list string :=
  fold_left (san_step commonName) identifiers
    (if String.eqb commonName "" then [] else [commonName]).

(** [&Resource{Domain: domains[0], CertURL: respOrder.Certificate,
    PrivateKey: privateKeyPem}] of getForCSR. *)
Definition new_Resource (domain0 : string) (respOrder : acme.ExtendedOrder)
  (privateKeyPem : bytes) : Resource :=
  {| Domain := domain0;
     CertURL := acme.Certificate respOrder;
     CertStableURL := "";
     PrivateKey := privateKeyPem;
     Certificate := None;
     IssuerCertificate := None;
     CSR := None |}.

(** ** The Certifier *)

Section Certifier.
Context {W : Type}.
Variable L : Lib.
Variable E : Env W.
Variable options : CertifierOptions.

(** Modelled from the spec: certificate/authorization.go
    ([deactivateAuthorizations]) is not among the sources.  Section 4.2, step
    5: an error "triggers authorization deactivation (if requested)"; section
    7: authorizations are "best-effort deactivated per caller flag".  When
    [force] is set, every authorization of the order is deactivated through
    the API core and failures are ignored; otherwise nothing is done. *)
Fixpoint deactivate_each (authzURLs : list string) : M W unit :=
  match authzURLs with
  | [] => ret tt
  | authzURL :: rest =>
      u <- call (EvDeactivate authzURL) (Authorizations_Deactivate E authzURL) ;
      deactivate_each rest
  end.

Definition deactivateAuthorizations (order : acme.ExtendedOrder) (force : bool)
  : M W unit :=
  if force then deactivate_each (acme.Authorizations order) else ret tt.

(** [c.getAuthorizations] (certificate/authorization.go) is a call into the
    API core: it is taken from the environment. *)
Definition getAuthorizations (order : acme.ExtendedOrder)
  : M W (result (list acme.Authorization)) :=
  call (EvGetAuthorizations order) (core_getAuthorizations E order).

(** Modelled from the spec: platform/wait ([wait.For]) is not among the
    sources.  Section 4.3: the order is fetched repeatedly; a step that is
    done ends the wait with success, a failing step is a "terminal fatal
    failure", any other step means "not yet terminal, continue waiting", and
    "timeout expiry without reaching valid is a fatal, reportable failure".
    The closure's captured variable is the loop state [S]. *)
Fixpoint wait_loop {S : Type} (samples : nat) (msg : string)
  (f : S -> M W (S * (bool * option error))) (s : S) : M W (S * option error) :=
  match samples with
  | O => ret (s, Some (TimeLimitExceeded msg))
  | Datatypes.S samples' =>
      '(s', (stop, err)) <- f s ;
      if stop then ret (s', None)
      else match err with
           | Some e => ret (s', Some e)
           | None => wait_loop samples' msg f s'
           end
  end.

Definition wait_For {S : Type} (msg : string) (timeout interval : Duration)
  (f : S -> M W (S * (bool * option error))) (s : S) : M W (S * option error) :=
  samples <- call (EvWaitFor msg timeout interval)
               (fun w => (wait_samples E timeout interval w, w)) ;
  wait_loop samples msg f s.

(** certificates.go, lines 692-705; [certs[len(certs)-1]] panics on an empty
    slice. *)
Definition hasPreferredChain (issuer : bytes) (preferredChain : string)
  : M W (bool * option error) :=
  match ParsePEMBundle L issuer with
  | Err err => ret (false, Some err)
  | Ok certs =>
      match last certs with
      | None => panic Panic_hasPreferredChain_top
      | Some topCert =>
          if String.eqb (x509.Issuer_CommonName topCert) preferredChain
          then ret (true, None)
          else ret (false, None)
      end
  end.

(** [for link, cert := range certs] of checkResponse (lines 419-435), over
    the entries in the order the runtime yields them. *)
Fixpoint checkResponse_range (entries : list (string * acme.RawCertificate))
  (certRes : Resource) (preferredChain : string)
  : M W (Resource * (bool * option error)) :=
  match entries with
  | [] => ret (certRes, (true, None))
  | (link, cert) :: rest =>
      '(ok, err) <- hasPreferredChain (acme.Issuer cert) preferredChain ;
      match err with
      | Some e => ret (certRes, (false, Some e))
      | None =>
          if ok
          then ret (set_chain certRes (acme.Issuer cert) (acme.Cert cert) link,
                    (true, None))
          else checkResponse_range rest certRes preferredChain
      end
  end.

(** [certs[order.Certificate]] *)
Definition default_entry (certs : gmap string acme.RawCertificate)
  (url : string) : acme.RawCertificate :=
  match certs !! url with
  | Some c => c
  | None => acme.RawCertificate_zero
  end.

(** certificates.go, lines 396-440.  The pointer [certRes] is passed in and
    the Resource it points to is handed back next to the results. *)
Definition checkResponse (order : acme.ExtendedOrder) (certRes : Resource)
  (bundle : bool) (preferredChain : string)
  : M W (Resource * (bool * option error)) :=
  let '(valid, err) := checkOrderStatus order in
  match err with
  | Some e => ret (certRes, (valid, err))
  | None =>
      if negb valid then ret (certRes, (valid, err))
      else
        r <- call (EvCertificatesGetAll (acme.Certificate order) bundle)
               (Certificates_GetAll E (acme.Certificate order) bundle) ;
        match r with
        | Err e => ret (certRes, (false, Some e))
        | Ok certs =>
            let dflt := default_entry certs (acme.Certificate order) in
            let certRes :=
              set_chain certRes (acme.Issuer dflt) (acme.Cert dflt)
                (acme.Certificate order) in
            if String.eqb preferredChain "" then ret (certRes, (true, None))
            else
              entries <- peek (fun w => map_range E w certs) ;
              checkResponse_range entries certRes preferredChain
        end
  end.

(** The function polled by getForCSR (lines 371-383). *)
Definition poll_step (order : acme.ExtendedOrder) (bundle : bool)
  (preferredChain : string) (certRes : Resource)
  : M W (Resource * (bool * option error)) :=
  r <- call (EvOrdersGet (acme.Location order))
         (Orders_Get E (acme.Location order)) ;
  match r with
  | Err errW => ret (certRes, (false, Some errW))
  | Ok ord =>
      '(certRes', (done, errW)) <- checkResponse ord certRes bundle preferredChain ;
      match errW with
      | Some e => ret (certRes', (false, Some e))
      | None => ret (certRes', (done, None))
      end
  end.

(** certificates.go, lines 342-386. *)
Definition getForCSR (domains : list string) (order : acme.ExtendedOrder)
  (bundle : bool) (csr privateKeyPem : bytes) (preferredChain : string)
  : M W (option Resource * option error) :=
  r <- call (EvUpdateForCSR (acme.Finalize order) csr)
         (Orders_UpdateForCSR E (acme.Finalize order) csr) ;
  match r with
  | Err err => ret (None, Some err)
  | Ok respOrder =>
      match domains with
      | [] => panic Panic_getForCSR_domains0
      | domain0 :: _ =>
          let certRes := new_Resource domain0 respOrder privateKeyPem in
          let poll (certRes : Resource) :=
            let timeout := poll_timeout options in
            '(certRes', err) <- wait_For "certificate" timeout (timeout ÷ 60)%Z
                                  (poll_step order bundle preferredChain) certRes ;
            ret (Some certRes', err) in
          if String.eqb (acme.Status respOrder) acme.StatusValid then
            '(certRes', (ok, errR)) <-
               checkResponse respOrder certRes bundle preferredChain ;
            match errR with
            | Some e => ret (None, Some e)
            | None => if ok then ret (Some certRes', None) else poll certRes'
            end
          else poll certRes
      end
  end.

(** certificates.go, lines 293-340. *)
Definition getForOrder (domains : list string) (order : acme.ExtendedOrder)
  (request : ObtainRequest.t) : M W (option Resource * option error) :=
  k <- match ObtainRequest.PrivateKey request with
       | Some privateKey => ret (Ok privateKey)
       | None => call (EvGeneratePrivateKey (KeyType options))
                   (GeneratePrivateKey E (KeyType options))
       end ;
  match k with
  | Err err => ret (None, Some err)
  | Ok privateKey =>
      match domains with
      | [] => panic Panic_getForOrder_domains0
      | domain0 :: _ =>
          let commonName := commonName_of options domain0 in
          let san := san_of commonName (acme.Identifiers order) in
          let csrOptions :=
            {| certcrypto.Domain := commonName;
               certcrypto.SAN := san;
               certcrypto.MustStaple := ObtainRequest.MustStaple request;
               certcrypto.EmailAddresses :=
                 ObtainRequest.EmailAddresses request |} in
          r <- call (EvCreateCSR privateKey csrOptions)
                 (CreateCSR E privateKey csrOptions) ;
          match r with
          | Err err => ret (None, Some err)
          | Ok csr =>
              getForCSR domains order (ObtainRequest.Bundle request) csr
                (PEMEncode L privateKey) (ObtainRequest.PreferredChain request)
          end
      end
  end.

(** [for _, auth := range authz { failures.Add(GetTargetedDomain(auth), err) }] *)
Definition add_failures (authz : list acme.Authorization) (err : option error)
  : list (string * error) :=
  match err with
  | Some e =>
      fold_left (fun failures auth =>
                   obtainError_Add failures (GetTargetedDomain L auth) e)
        authz newObtainError
  | None => newObtainError
  end.

(** certificates.go, lines 159-213; the log lines are left out. *)
Definition Obtain (request : ObtainRequest.t)
  : M W (option Resource * option error) :=
  if (length (ObtainRequest.Domains request) =? 0)%nat then
    ret (None, Some (errors_New "no domains to obtain a certificate for"))
  else
    let domains := sanitizeDomain L (ObtainRequest.Domains request) in
    let orderOpts := Obtain_orderOpts request in
    o <- call (EvNewOrder domains orderOpts)
           (Orders_NewWithOptions E domains orderOpts) ;
    match o with
    | Err err => ret (None, Some err)
    | Ok order =>
        a <- getAuthorizations order ;
        match a with
        | Err err =>
            u <- deactivateAuthorizations order
                   (ObtainRequest.AlwaysDeactivateAuthorizations request) ;
            ret (None, Some err)
        | Ok authz =>
            s <- call (EvSolve authz) (resolver_Solve E authz) ;
            match s with
            | Some err =>
                u <- deactivateAuthorizations order
                       (ObtainRequest.AlwaysDeactivateAuthorizations request) ;
                ret (None, Some err)
            | None =>
                '(cert, err) <- getForOrder domains order request ;
                let failures := add_failures authz err in
                u <- (if ObtainRequest.AlwaysDeactivateAuthorizations request
                      then deactivateAuthorizations order true
                      else ret tt) ;
                ret (cert, obtainError_Join failures)
            end
        end
    end.

(** certificates.go, lines 224-291. *)
Definition ObtainForCSR (request : ObtainForCSRRequest.t)
  : M W (option Resource * option error) :=
  match ObtainForCSRRequest.CSR request with
  | None =>
      ret (None,
           Some (errors_New "cannot obtain resource for CSR: CSR is missing"))
  | Some csr =>
      let domains := ExtractDomainsCSR L csr in
      let orderOpts := ObtainForCSR_orderOpts request in
      o <- call (EvNewOrder domains orderOpts)
             (Orders_NewWithOptions E domains orderOpts) ;
      match o with
      | Err err => ret (None, Some err)
      | Ok order =>
          a <- getAuthorizations order ;
          match a with
          | Err err =>
              u <- deactivateAuthorizations order
                     (ObtainForCSRRequest.AlwaysDeactivateAuthorizations request) ;
              ret (None, Some err)
          | Ok authz =>
              s <- call (EvSolve authz) (resolver_Solve E authz) ;
              match s with
              | Some err =>
                  u <- deactivateAuthorizations order
                         (ObtainForCSRRequest.AlwaysDeactivateAuthorizations
                            request) ;
                  ret (None, Some err)
              | None =>
                  let privateKey :=
                    match ObtainForCSRRequest.PrivateKey request with
                    | Some key => PEMEncode L key
                    | None => None
                    end in
                  '(cert, err) <-
                     getForCSR domains order (ObtainForCSRRequest.Bundle request)
                       (x509.CSR_Raw csr) privateKey
                       (ObtainForCSRRequest.PreferredChain request) ;
                  let failures := add_failures authz err in
                  u <- (if ObtainForCSRRequest.AlwaysDeactivateAuthorizations
                             request
                        then deactivateAuthorizations order true
                        else ret tt) ;
                  let cert :=
                    match cert with
                    | Some certRes => Some (set_CSR certRes (PEMEncodeCSR L csr))
                    | None => None
                    end in
                  ret (cert, obtainError_Join failures)
              end
          end
      end
  end.

(** The requests RenewWithOptions builds; [options] may be a nil pointer. *)
Definition renew_csr_request (csr : x509.CertificateRequest)
  (ropts : option RenewOptions.t) : ObtainForCSRRequest.t :=
  match ropts with
  | None =>
      {| ObtainForCSRRequest.CSR := Some csr;
         ObtainForCSRRequest.PrivateKey := None;
         ObtainForCSRRequest.NotBefore := 0%Z;
         ObtainForCSRRequest.NotAfter := 0%Z;
         ObtainForCSRRequest.Bundle := false;
         ObtainForCSRRequest.PreferredChain := "";
         ObtainForCSRRequest.Profile := "";
         ObtainForCSRRequest.AlwaysDeactivateAuthorizations := false;
         ObtainForCSRRequest.ReplacesCertID := "" |}
  | Some o =>
      {| ObtainForCSRRequest.CSR := Some csr;
         ObtainForCSRRequest.PrivateKey := None;
         ObtainForCSRRequest.NotBefore := RenewOptions.NotBefore o;
         ObtainForCSRRequest.NotAfter := RenewOptions.NotAfter o;
         ObtainForCSRRequest.Bundle := RenewOptions.Bundle o;
         ObtainForCSRRequest.PreferredChain := RenewOptions.PreferredChain o;
         ObtainForCSRRequest.Profile := RenewOptions.Profile o;
         ObtainForCSRRequest.AlwaysDeactivateAuthorizations :=
           RenewOptions.AlwaysDeactivateAuthorizations o;
         ObtainForCSRRequest.ReplacesCertID := "" |}
  end.

Definition renew_request (domains : list string)
  (privateKey : option crypto_PrivateKey) (ropts : option RenewOptions.t)
  : ObtainRequest.t :=
  match ropts with
  | None =>
      {| ObtainRequest.Domains := domains;
         ObtainRequest.PrivateKey := privateKey;
         ObtainRequest.MustStaple := false;
         ObtainRequest.EmailAddresses := [];
         ObtainRequest.NotBefore := 0%Z;
         ObtainRequest.NotAfter := 0%Z;
         ObtainRequest.Bundle := false;
         ObtainRequest.PreferredChain := "";
         ObtainRequest.Profile := "";
         ObtainRequest.AlwaysDeactivateAuthorizations := false;
         ObtainRequest.ReplacesCertID := "" |}
  | Some o =>
      {| ObtainRequest.Domains := domains;
         ObtainRequest.PrivateKey := privateKey;
         ObtainRequest.MustStaple := RenewOptions.MustStaple o;
         ObtainRequest.EmailAddresses := RenewOptions.EmailAddresses o;
         ObtainRequest.NotBefore := RenewOptions.NotBefore o;
         ObtainRequest.NotAfter := RenewOptions.NotAfter o;
         ObtainRequest.Bundle := RenewOptions.Bundle o;
         ObtainRequest.PreferredChain := RenewOptions.PreferredChain o;
         ObtainRequest.Profile := RenewOptions.Profile o;
         ObtainRequest.AlwaysDeactivateAuthorizations :=
           RenewOptions.AlwaysDeactivateAuthorizations o;
         ObtainRequest.ReplacesCertID := "" |}
  end.

(** certificates.go, lines 512-578; [timeLeft] is only logged. *)
Definition RenewWithOptions (certRes : Resource) (ropts : option RenewOptions.t)
  : M W (option Resource * option error) :=
  match ParsePEMBundle L (Certificate certRes) with
  | Err err => ret (None, Some err)
  | Ok certificates =>
      match certificates with
      | [] => panic Panic_Renew_certificates0
      | x509Cert :: _ =>
          if x509.IsCA x509Cert then
            ret (None,
                 Some (errors_New
                         ("[" ++ Domain certRes
                          ++ "] Certificate bundle starts with a CA certificate")))
          else if (0 <? len_bytes (CSR certRes))%nat then
            match PemDecodeTox509CSR L (CSR certRes) with
            | Err errP => ret (None, Some errP)
            | Ok csr => ObtainForCSR (renew_csr_request csr ropts)
            end
          else
            match
              match PrivateKey certRes with
              | Some _ =>
                  match ParsePEMPrivateKey L (PrivateKey certRes) with
                  | Ok key => Ok (Some key)
                  | Err err => Err err
                  end
              | None => Ok None
              end
            with
            | Err err => ret (None, Some err)
            | Ok privateKey =>
                Obtain (renew_request (ExtractDomains L x509Cert) privateKey ropts)
            end
      end
  end.

(** certificates.go, lines 666-690. *)
Definition Get (url : string) (bundle : bool)
  : M W (option Resource * option error) :=
  r <- call (EvCertificatesGet url bundle) (Certificates_Get E url bundle) ;
  match r with
  | Err err => ret (None, Some err)
  | Ok (cert, issuer) =>
      match ParsePEMBundle L cert with
      | Err err => ret (None, Some err)
      | Ok x509Certs =>
          match x509Certs with
          | [] => panic Panic_Get_x509Certs0
          | x509Cert0 :: _ =>
              match GetCertificateMainDomain L x509Cert0 with
              | Err err => ret (None, Some err)
              | Ok domain =>
                  ret (Some {| Domain := domain;
                               CertURL := url;
                               CertStableURL := url;
                               PrivateKey := None;
                               Certificate := cert;
                               IssuerCertificate := issuer;
                               CSR := None |},
                       None)
              end
          end
      end
  end.

End Certifier.

Arguments deactivateAuthorizations {W} E order force.
Arguments getAuthorizations {W} E order.
Arguments wait_loop {W S} samples msg f s.
Arguments wait_For {W} E {S} msg timeout interval f s.
Arguments hasPreferredChain {W} L issuer preferredChain.
Arguments checkResponse_range {W} L entries certRes preferredChain.
Arguments checkResponse {W} L E order certRes bundle preferredChain.
Arguments poll_step {W} L E order bundle preferredChain certRes.
Arguments getForCSR {W} L E options domains order bundle csr privateKeyPem
  preferredChain.
Arguments getForOrder {W} L E options domains order request.
Arguments Obtain {W} L E options request.
Arguments ObtainForCSR {W} L E options request.
Arguments RenewWithOptions {W} L E options certRes ropts.
Arguments Get {W} L E url bundle.

(** ** A scripted CA, for running the orchestrator on concrete inputs *)

Module Sim.

Fixpoint list_byte_eqb (a b : list Byte.byte) : bool :=
  match a, b with
  | [], [] => true
  | x :: a', y :: b' => Byte.eqb x y && list_byte_eqb a' b'
  | _, _ => false
  end.

Definition bytes_eqb (a b : bytes) : bool :=
  match a, b with
  | None, None => true
  | Some x, Some y => list_byte_eqb x y
  | _, _ => false
  end.

Fixpoint lookup_pem {A : Type} (table : list (string * A)) (pem : bytes)
  : option A :=
  match table with
  | [] => None
  | (name, a) :: rest =>
      if bytes_eqb (bytes_of name) pem then Some a else lookup_pem rest pem
  end.

Fixpoint has_space (s : string) : bool :=
  match s with
  | EmptyString => false
  | String c rest => Ascii.eqb c " "%char || has_space rest
  end.

(** A library whose PEM decoders read fixed tables; a name with a blank in
    it has no ASCII form. *)
Definition lib (bundles : list (string * list x509.Certificate))
  (keys : list (string * crypto_PrivateKey))
  (csrs : list (string * x509.CertificateRequest)) : Lib :=
  {| idna_ToASCII := fun d =>
       if has_space d then Err (errors_New "idna: disallowed rune") else Ok d;
     ParsePEMBundle := fun b =>
       match lookup_pem bundles b with
       | Some certs => Ok certs
       | None => Err (errors_New "no certificates were found")
       end;
     ParsePEMPrivateKey := fun b =>
       match lookup_pem keys b with
       | Some k => Ok k
       | None => Err (errors_New "unknown PEM block for a private key")
       end;
     PemDecodeTox509CSR := fun b =>
       match lookup_pem csrs b with
       | Some c => Ok c
       | None => Err (errors_New "PEM block is not a certificate request")
       end;
     PEMEncode := fun k => match k with KeyHandle _ => bytes_of "KEY" end;
     PEMEncodeCSR := fun c => x509.CSR_Raw c;
     ExtractDomains := fun c =>
       x509.Subject_CommonName c
       :: List.filter
            (fun d => negb (String.eqb d (x509.Subject_CommonName c)))
            (x509.DNSNames c);
     ExtractDomainsCSR := fun c => x509.CSR_CommonName c :: x509.CSR_DNSNames c;
     GetCertificateMainDomain := fun c => Ok (x509.Subject_CommonName c);
     GetTargetedDomain := fun a => acme.Value (acme.AuthzIdentifier a) |}.

(** What the scripted CA answers.  The world is the list of answers still to
    be given to [Orders.Get]; once it is used up the order stays as
    [stalled]. *)
Record Script := {
  newOrder : list string -> result acme.ExtendedOrder;
  authz : result (list acme.Authorization);
  solve : option error;
  key : result crypto_PrivateKey;
  csr : result bytes;
  finalize : result acme.ExtendedOrder;
  stalled : result acme.ExtendedOrder;
  chains : result (gmap string acme.RawCertificate);
  fetched : result (bytes * bytes);
  samples : nat;
  backwards : bool
}.

Abbreviation World := (list (result acme.ExtendedOrder)).

Definition range_of (backwards : bool) (m : gmap string acme.RawCertificate)
  : list (string * acme.RawCertificate) :=
  if backwards then rev (map_to_list m) else map_to_list m.

Definition env (sc : Script) : Env World :=
  {| Orders_NewWithOptions := fun domains _ w => (newOrder sc domains, w);
     Orders_UpdateForCSR := fun _ _ w => (finalize sc, w);
     Orders_Get := fun _ w =>
       match w with
       | [] => (stalled sc, [])
       | answer :: w' => (answer, w')
       end;
     Certificates_GetAll := fun _ _ w => (chains sc, w);
     Certificates_Get := fun _ _ w => (fetched sc, w);
     Authorizations_Deactivate := fun _ w => (tt, w);
     core_getAuthorizations := fun _ w => (authz sc, w);
     resolver_Solve := fun _ w => (solve sc, w);
     GeneratePrivateKey := fun _ w => (key sc, w);
     CreateCSR := fun _ _ w => (csr sc, w);
     wait_samples := fun _ _ _ => samples sc;
     map_range := fun _ m => range_of (backwards sc) m;
     map_range_perm := fun _ m =>
       if backwards sc as b return (range_of b m ≡ₚ map_to_list m)
       then Permutation_sym (Permutation_rev (map_to_list m))
       else Permutation_refl (map_to_list m) |}.

Definition start (polls : World) : State World :=
  {| world := polls; trace := [] |}.

Definition identifier (d : string) : acme.Identifier :=
  {| acme.Type_ := "dns"; acme.Value := d |}.

Definition authorization (d : string) : acme.Authorization :=
  {| acme.AuthzStatus := acme.StatusPending;
     acme.AuthzIdentifier := identifier d;
     acme.Wildcard := false |}.

(** An order for [domains] in the given [status]. *)
Definition order (status : string) (domains : list string)
  (problem : option acme.ProblemDetails) : acme.ExtendedOrder :=
  {| acme.Status := status;
     acme.Identifiers := map identifier domains;
     acme.Authorizations := map (fun d => ("https://ca.test/authz/" ++ d)%string) domains;
     acme.Finalize := "https://ca.test/finalize/1";
     acme.Certificate :=
       if String.eqb status acme.StatusValid then "https://ca.test/cert/1"
       else "";
     acme.Error := problem;
     acme.Location := "https://ca.test/order/1" |}.

Definition request (domains : list string) (preferredChain : string)
  (deactivate : bool) : ObtainRequest.t :=
  {| ObtainRequest.Domains := domains;
     ObtainRequest.PrivateKey := None;
     ObtainRequest.MustStaple := false;
     ObtainRequest.EmailAddresses := [];
     ObtainRequest.NotBefore := 0%Z;
     ObtainRequest.NotAfter := 0%Z;
     ObtainRequest.Bundle := true;
     ObtainRequest.PreferredChain := preferredChain;
     ObtainRequest.Profile := "";
     ObtainRequest.AlwaysDeactivateAuthorizations := deactivate;
     ObtainRequest.ReplacesCertID := "" |}.

Definition options (timeout : Duration) : CertifierOptions :=
  {| KeyType := "EC256";
     Timeout := timeout;
     OverallRequestLimit := 18%Z;
     DisableCommonName := false |}.

Definition root (issuer : string) : x509.Certificate :=
  {| x509.IsCA := true;
     x509.Issuer_CommonName := issuer;
     x509.Subject_CommonName := issuer;
     x509.DNSNames := [];
     x509.Raw := bytes_of issuer |}.

Definition leaf (domains : list string) : x509.Certificate :=
  {| x509.IsCA := false;
     x509.Issuer_CommonName := "Intermediate R1";
     x509.Subject_CommonName := hd "" domains;
     x509.DNSNames := domains;
     x509.Raw := bytes_of "LEAF-DER" |}.

Definition problem : acme.ProblemDetails :=
  {| acme.ProblemType := "urn:ietf:params:acme:error:caa";
     acme.Detail := "CAA record forbids issuance";
     acme.HTTPStatus := 403%Z |}.

(** Two chains for one certificate: the default one under "Root X1" and an
    alternate one under "Root X2". *)
Definition two_chains : gmap string acme.RawCertificate :=
  <["https://ca.test/cert/1" :=
      {| acme.Cert := bytes_of "LEAF+X1"; acme.Issuer := bytes_of "CHAIN-X1" |}]>
  (<["https://ca.test/cert/1/alt" :=
      {| acme.Cert := bytes_of "LEAF+X2"; acme.Issuer := bytes_of "CHAIN-X2" |}]>
   ∅).

Definition the_lib : Lib :=
  lib [("CHAIN-X1", [root "Root X1"]); ("CHAIN-X2", [root "Root X2"]);
       ("LEAF+X1", [leaf ["example.com"; "www.example.com"]; root "Root X1"]);
       ("ROOT-ONLY", [root "Root X1"])]
      [("KEY", KeyHandle 7)]
      [("CSR", {| x509.CSR_CommonName := "example.com";
                  x509.CSR_DNSNames := ["www.example.com"];
                  x509.CSR_Raw := bytes_of "CSR-DER" |})].

(** A CA that issues at the second poll. *)
Definition happy : Script :=
  {| newOrder := fun domains => Ok (order acme.StatusPending domains None);
     authz := Ok [authorization "example.com"; authorization "www.example.com"];
     solve := None;
     key := Ok (KeyHandle 7);
     csr := Ok (bytes_of "CSR-DER");
     finalize := Ok (order acme.StatusProcessing
                       ["example.com"; "www.example.com"] None);
     stalled := Ok (order acme.StatusProcessing
                      ["example.com"; "www.example.com"] None);
     chains := Ok two_chains;
     fetched := Ok (bytes_of "LEAF+X1", bytes_of "CHAIN-X1");
     samples := 60;
     backwards := false |}.

Definition happy_polls : World :=
  [Ok (order acme.StatusProcessing ["example.com"; "www.example.com"] None);
   Ok (order acme.StatusValid ["example.com"; "www.example.com"] None)].

(** The solver refuses the challenge of one of the two domains. *)
Definition refusal : error := errors_New "www.example.com: challenge failed".

Definition solver_refuses : Script :=
  {| newOrder := newOrder happy;
     authz := authz happy;
     solve := Some refusal;
     key := key happy;
     csr := csr happy;
     finalize := finalize happy;
     stalled := stalled happy;
     chains := chains happy;
     fetched := fetched happy;
     samples := samples happy;
     backwards := backwards happy |}.

Definition csr_request (deactivate : bool) : ObtainForCSRRequest.t :=
  {| ObtainForCSRRequest.CSR :=
       Some {| x509.CSR_CommonName := "example.com";
               x509.CSR_DNSNames := ["www.example.com"];
               x509.CSR_Raw := bytes_of "CSR-DER" |};
     ObtainForCSRRequest.PrivateKey := None;
     ObtainForCSRRequest.NotBefore := 0%Z;
     ObtainForCSRRequest.NotAfter := 0%Z;
     ObtainForCSRRequest.Bundle := true;
     ObtainForCSRRequest.PreferredChain := "";
     ObtainForCSRRequest.Profile := "";
     ObtainForCSRRequest.AlwaysDeactivateAuthorizations := deactivate;
     ObtainForCSRRequest.ReplacesCertID := "" |}.

Definition two_domains : list string := ["example.com"; "www.example.com"].



(** The alternate chain comes without issuer certificates: its issuer bytes
    do not parse. *)
Definition bare_alternate : gmap string acme.RawCertificate :=
  <["https://ca.test/cert/1" :=
      {| acme.Cert := bytes_of "LEAF+X1"; acme.Issuer := bytes_of "CHAIN-X1" |}]>
  (<["https://ca.test/cert/1/alt" :=
      {| acme.Cert := bytes_of "LEAF"; acme.Issuer := bytes_of "" |}]>
   ∅).

Definition alternate_is_bare (backwards : bool) : Script :=
  {| newOrder := newOrder happy;
     authz := authz happy;
     solve := None;
     key := key happy;
     csr := csr happy;
     finalize := finalize happy;
     stalled := stalled happy;
     chains := Ok bare_alternate;
     fetched := fetched happy;
     samples := samples happy;
     backwards := backwards |}.

Definition parse_error : error := errors_New "no certificates were found".




(** The order after the CA has refused it. *)
Definition rejected : acme.ExtendedOrder :=
  order acme.StatusInvalid two_domains (Some problem).

Definition waiting : acme.ExtendedOrder :=
  order acme.StatusPending two_domains None.

(** A stored Resource: issued from a fresh key, issued from a CSR, and one
    whose bundle starts with a CA certificate. *)
Definition stored (certificate : string) (privateKey csr : bytes) : Resource :=
  {| Domain := "example.com";
     CertURL := "https://ca.test/cert/1";
     CertStableURL := "https://ca.test/cert/1";
     PrivateKey := privateKey;
     Certificate := bytes_of certificate;
     IssuerCertificate := bytes_of "CHAIN-X1";
     CSR := csr |}.

Definition renew_options (mustStaple : bool) : RenewOptions.t :=
  {| RenewOptions.NotBefore := 0%Z;
     RenewOptions.NotAfter := 0%Z;
     RenewOptions.Bundle := true;
     RenewOptions.PreferredChain := "";
     RenewOptions.Profile := "";
     RenewOptions.AlwaysDeactivateAuthorizations := false;
     RenewOptions.MustStaple := mustStaple;
     RenewOptions.EmailAddresses := [] |}.

(** A request whose only name has no ASCII form. *)
Definition unusable : list string := ["bad name"].

(** A valid order and the Resource under construction for it. *)
Definition issued : acme.ExtendedOrder :=
  order acme.StatusValid two_domains None.

Definition pending_Resource : Resource :=
  new_Resource "example.com" (order acme.StatusProcessing two_domains None)
    (bytes_of "KEY").

End Sim.

(** ** The rest of certificates.go: NewCertifier, Renew, Revoke, GetOCSP *)

Definition DefaultOverallRequestLimit : Z := 18.

(** [maxBodySize], line 37. *)
Definition maxBodySize : Z := 1024 * 1024.

(** The fields NewCertifier computes (lines 140-153); [core] and [resolver]
    are the [Env]. *)
Record Certifier := {
  certifier_options : CertifierOptions;
  overallRequestLimit : Z
}.

Definition NewCertifier (options : CertifierOptions) : Certifier :=
  {| certifier_options := options;
     overallRequestLimit :=
       if (OverallRequestLimit options <=? 0)%Z
       then DefaultOverallRequestLimit
       else OverallRequestLimit options |}.

(** certificates.go, lines 494-500: the deprecated wrapper. *)
Definition Renew {W : Type} (L : Lib) (E : Env W) (options : CertifierOptions)
  (certRes : Resource) (bundle mustStaple : bool) (preferredChain : string)
  : M W (option Resource * option error) :=
  RenewWithOptions L E options certRes
    (Some {| RenewOptions.NotBefore := 0%Z;
             RenewOptions.NotAfter := 0%Z;
             RenewOptions.Bundle := bundle;
             RenewOptions.PreferredChain := preferredChain;
             RenewOptions.Profile := "";
             RenewOptions.AlwaysDeactivateAuthorizations := false;
             RenewOptions.MustStaple := mustStaple;
             RenewOptions.EmailAddresses := [] |}).

(** [acme.RevokeCertMessage]; [Reason] is a [*uint]. *)
Record RevokeCertMessage := {
  Revoke_Certificate : string;
  Revoke_Reason : option Z
}.

(** An HTTP response, as far as GetOCSP reads it: the bytes its body
    delivers and the error, if any, that ends the body early. *)
Record http_Response := {
  Body_data : list Byte.byte;
  Body_failure : option error
}.

(** [io.ReadAll(http.MaxBytesReader(nil, resp.Body, maxBodySize))]: a body
    of more than [maxBodySize] bytes is an error, and so is a body that
    fails before its end; the slice returned is never nil. *)
Definition read_body (resp : http_Response) : result bytes :=
  if (maxBodySize <? Z.of_nat (length (Body_data resp)))%Z
  then Err (errors_New "http: request body too large")
  else match Body_failure resp with
       | Some e => Err e
       | None => Ok (Some (Body_data resp))
       end.

(** [ocsp.Response] is opaque here. *)
Inductive ocsp_Response := OCSPResponse (status : Z) (serial : N).

(** The calls Revoke and GetOCSP make. *)
Inductive NetCall :=
| CallRevoke (msg : RevokeCertMessage)
| CallHTTPGet (url : string)
| CallHTTPPost (url contentType : string) (body : bytes).

(** [c.core.Certificates.Revoke] and [c.core.HTTPClient]. *)
Record NetEnv (W : Type) := {
  Certificates_Revoke : RevokeCertMessage -> W -> option error * W;
  HTTPClient_Get : string -> W -> result http_Response * W;
  HTTPClient_Post : string -> string -> bytes -> W -> result http_Response * W
}.
Arguments Certificates_Revoke {W} _.
Arguments HTTPClient_Get {W} _.
Arguments HTTPClient_Post {W} _.

(** The pure functions of encoding/base64, crypto/x509 and x/crypto/ocsp,
    and the two URL lists GetOCSP reads in an [x509.Certificate]. *)
Record OCSPLib := {
  base64_RawURLEncoding_EncodeToString : bytes -> string;
  OCSPServer : x509.Certificate -> list string;
  IssuingCertificateURL : x509.Certificate -> list string;
  x509_ParseCertificate : bytes -> result x509.Certificate;
  ocsp_CreateRequest :
    x509.Certificate -> x509.Certificate -> result bytes;
  ocsp_ParseResponse : bytes -> x509.Certificate -> result ocsp_Response
}.

Inductive NetPanic :=
| Panic_Revoke_certificates0
| Panic_GetOCSP_certificates0
| Panic_GetOCSP_certificates1.

Inductive NetOutcome (A : Type) :=
| Done (a : A)
| Crash (site : NetPanic).
Arguments Done {A} a.
Arguments Crash {A} site.

Record NetState (W : Type) := { net_world : W; net_calls : list NetCall }.
Arguments net_world {W} _.
Arguments net_calls {W} _.

(** State passing for Revoke and GetOCSP: the world and the calls made. *)
Definition NetM (W A : Type) : Type := NetState W -> NetOutcome A * NetState W.

Definition net_ret {W A} (a : A) : NetM W A := fun s => (Done a, s).

Definition net_panic {W A} (site : NetPanic) : NetM W A :=
  fun s => (Crash site, s).

Definition net_bind {W A B} (m : NetM W A) (k : A -> NetM W B) : NetM W B :=
  fun s =>
    match m s with
    | (Done a, s') => k a s'
    | (Crash site, s') => (Crash site, s')
    end.

Definition net_call {W A} (c : NetCall) (f : W -> A * W) : NetM W A :=
  fun s =>
    let '(a, w') := f (net_world s) in
    (Done a, {| net_world := w'; net_calls := net_calls s ++ [c] |}).

Section Net.
Context {W : Type}.
Variable L : Lib.
Variable O : OCSPLib.
Variable N : NetEnv W.

(** certificates.go, lines 448-465. *)
Definition RevokeWithReason (cert : bytes) (reason : option Z)
  : NetM W (option error) :=
  match ParsePEMBundle L cert with
  | Err err => net_ret (Some err)
  | Ok certificates =>
      match certificates with
      | [] => net_panic Panic_Revoke_certificates0
      | x509Cert :: _ =>
          if x509.IsCA x509Cert then
            net_ret
              (Some (errors_New "certificate bundle starts with a CA certificate"))
          else
            let revokeMsg :=
              {| Revoke_Certificate :=
                   base64_RawURLEncoding_EncodeToString O (x509.Raw x509Cert);
                 Revoke_Reason := reason |} in
            net_call (CallRevoke revokeMsg) (Certificates_Revoke N revokeMsg)
      end
  end.

(** certificates.go, lines 443-445. *)
Definition Revoke (cert : bytes) : NetM W (option error) :=
  RevokeWithReason cert None.

(** The block under [if len(certificates) == 1] of GetOCSP (lines 606-631):
    the certificates with the fetched issuer appended, or the error that
    makes GetOCSP return. *)
Definition fetch_issuer (issuedCert : x509.Certificate)
  (certificates : list x509.Certificate)
  : NetM W (result (list x509.Certificate)) :=
  match IssuingCertificateURL O issuedCert with
  | [] => net_ret (Err (errors_New "no issuing certificate URL"))
  | url0 :: _ =>
      net_bind (net_call (CallHTTPGet url0) (HTTPClient_Get N url0))
        (fun r =>
           match r with
           | Err errC => net_ret (Err errC)
           | Ok resp =>
               match read_body resp with
               | Err errC => net_ret (Err errC)
               | Ok issuerBytes =>
                   match x509_ParseCertificate O issuerBytes with
                   | Err errC => net_ret (Err errC)
                   | Ok issuerCert => net_ret (Ok (certificates ++ [issuerCert]))
                   end
               end
           end)
  end.

(** certificates.go, lines 588-658.  The results are the raw response, the
    parsed response and the error. *)
Definition GetOCSP (bundle : bytes)
  : NetM W (bytes * option ocsp_Response * option error) :=
  match ParsePEMBundle L bundle with
  | Err err => net_ret (None, None, Some err)
  | Ok certificates =>
      match certificates with
      | [] => net_panic Panic_GetOCSP_certificates0
      | issuedCert :: _ =>
          match OCSPServer O issuedCert with
          | [] =>
              net_ret (None, None,
                       Some (errors_New "no OCSP server specified in cert"))
          | ocspServer0 :: _ =>
              net_bind
                (if (length certificates =? 1)%nat
                 then fetch_issuer issuedCert certificates
                 else net_ret (Ok certificates))
                (fun r =>
                   match r with
                   | Err err => net_ret (None, None, Some err)
                   | Ok certificates =>
                       match nth_error certificates 1 with
                       | None => net_panic Panic_GetOCSP_certificates1
                       | Some issuerCert =>
                           match ocsp_CreateRequest O issuedCert issuerCert with
                           | Err err => net_ret (None, None, Some err)
                           | Ok ocspReq =>
                               net_bind
                                 (net_call
                                    (CallHTTPPost ocspServer0
                                       "application/ocsp-request" ocspReq)
                                    (HTTPClient_Post N ocspServer0
                                       "application/ocsp-request" ocspReq))
                                 (fun p =>
                                    match p with
                                    | Err err => net_ret (None, None, Some err)
                                    | Ok resp =>
                                        match read_body resp with
                                        | Err err =>
                                            net_ret (None, None, Some err)
                                        | Ok ocspResBytes =>
                                            match ocsp_ParseResponse O
                                                    ocspResBytes issuerCert with
                                            | Err err =>
                                                net_ret (None, None, Some err)
                                            | Ok ocspRes =>
                                                net_ret (ocspResBytes,
                                                         Some ocspRes, None)
                                            end
                                        end
                                    end)
                           end
                       end
                   end)
          end
      end
  end.

End Net.

Arguments RevokeWithReason {W} L O N cert reason.
Arguments Revoke {W} L O N cert.
Arguments fetch_issuer {W} O N issuedCert certificates.
Arguments GetOCSP {W} L O N bundle.

(** A scripted responder and revocation endpoint. *)
Module SimNet.

(** Leaf certificates name a responder and an issuer URL; CA certificates
    name neither.  The certificate "orphan.example.com" names a responder
    only. *)
Definition ocsp_lib : OCSPLib :=
  {| base64_RawURLEncoding_EncodeToString := fun b =>
       match b with
       | Some l => ("b64:" ++ string_of_list_byte l)%string
       | None => ""
       end;
     OCSPServer := fun c =>
       if x509.IsCA c then [] else ["http://ocsp.ca.test"];
     IssuingCertificateURL := fun c =>
       if x509.IsCA c then []
       else if String.eqb (x509.Subject_CommonName c) "orphan.example.com"
            then []
            else ["http://ca.test/issuer.der"];
     x509_ParseCertificate := fun b =>
       if Sim.bytes_eqb b (bytes_of "ISSUER-DER") then Ok (Sim.root "Root X1")
       else Err (errors_New "x509: malformed certificate");
     ocsp_CreateRequest := fun leaf issuer =>
       if x509.IsCA issuer then Ok (bytes_of "OCSP-REQ")
       else Err (errors_New "ocsp: issuer is not a CA");
     ocsp_ParseResponse := fun b issuer =>
       if Sim.bytes_eqb b (bytes_of "OCSP-GOOD") then Ok (OCSPResponse 0 1)
       else Err (errors_New "ocsp: malformed response") |}.

Definition body (s : string) : http_Response :=
  {| Body_data := list_byte_of_string s; Body_failure := None |}.

(** The world counts the calls answered. *)
Definition net : NetEnv nat :=
  {| Certificates_Revoke := fun _ w => (None, S w);
     HTTPClient_Get := fun _ w => (Ok (body "ISSUER-DER"), S w);
     HTTPClient_Post := fun _ _ _ w => (Ok (body "OCSP-GOOD"), S w) |}.

Definition start : NetState nat := {| net_world := 0; net_calls := [] |}.

Definition the_lib : Lib :=
  Sim.lib [("LEAF", [Sim.leaf Sim.two_domains]);
           ("LEAF+X1", [Sim.leaf Sim.two_domains; Sim.root "Root X1"]);
           ("ROOT-ONLY", [Sim.root "Root X1"]);
           ("ORPHAN", [Sim.leaf ["orphan.example.com"]])]
          [] [].

End SimNet.

(** More scripts for the CA of [Sim]. *)
Module Sim2.

Definition no_csr_request : ObtainForCSRRequest.t :=
  {| ObtainForCSRRequest.CSR := None;
     ObtainForCSRRequest.PrivateKey := None;
     ObtainForCSRRequest.NotBefore := 0%Z;
     ObtainForCSRRequest.NotAfter := 0%Z;
     ObtainForCSRRequest.Bundle := true;
     ObtainForCSRRequest.PreferredChain := "";
     ObtainForCSRRequest.Profile := "";
     ObtainForCSRRequest.AlwaysDeactivateAuthorizations := true;
     ObtainForCSRRequest.ReplacesCertID := "" |}.

Definition unavailable : error := errors_New "authz: service unavailable".

(** The authorizations cannot be fetched. *)
Definition authz_unavailable : Sim.Script :=
  {| Sim.newOrder := Sim.newOrder Sim.happy;
     Sim.authz := Err unavailable;
     Sim.solve := None;
     Sim.key := Sim.key Sim.happy;
     Sim.csr := Sim.csr Sim.happy;
     Sim.finalize := Sim.finalize Sim.happy;
     Sim.stalled := Sim.stalled Sim.happy;
     Sim.chains := Sim.chains Sim.happy;
     Sim.fetched := Sim.fetched Sim.happy;
     Sim.samples := Sim.samples Sim.happy;
     Sim.backwards := false |}.


(** A request that brings its own key. *)
Definition request_with_key (deactivate : bool) : ObtainRequest.t :=
  {| ObtainRequest.Domains := Sim.two_domains;
     ObtainRequest.PrivateKey := Some (KeyHandle 9);
     ObtainRequest.MustStaple := false;
     ObtainRequest.EmailAddresses := [];
     ObtainRequest.NotBefore := 0%Z;
     ObtainRequest.NotAfter := 0%Z;
     ObtainRequest.Bundle := true;
     ObtainRequest.PreferredChain := "";
     ObtainRequest.Profile := "";
     ObtainRequest.AlwaysDeactivateAuthorizations := deactivate;
     ObtainRequest.ReplacesCertID := "" |}.

(** A CSR that names no domain. *)
Definition nameless_csr : x509.CertificateRequest :=
  {| x509.CSR_CommonName := "";
     x509.CSR_DNSNames := [];
     x509.CSR_Raw := bytes_of "CSR-DER" |}.

(** A library whose CSR reader skips an empty common name. *)
Definition strict_lib : Lib :=
  {| idna_ToASCII := idna_ToASCII Sim.the_lib;
     ParsePEMBundle := ParsePEMBundle Sim.the_lib;
     ParsePEMPrivateKey := ParsePEMPrivateKey Sim.the_lib;
     PemDecodeTox509CSR := PemDecodeTox509CSR Sim.the_lib;
     PEMEncode := PEMEncode Sim.the_lib;
     PEMEncodeCSR := PEMEncodeCSR Sim.the_lib;
     ExtractDomains := ExtractDomains Sim.the_lib;
     ExtractDomainsCSR := fun c =>
       (if String.eqb (x509.CSR_CommonName c) "" then []
        else [x509.CSR_CommonName c]) ++ x509.CSR_DNSNames c;
     GetCertificateMainDomain := GetCertificateMainDomain Sim.the_lib;
     GetTargetedDomain := GetTargetedDomain Sim.the_lib |}.

Definition nameless_request : ObtainForCSRRequest.t :=
  {| ObtainForCSRRequest.CSR := Some nameless_csr;
     ObtainForCSRRequest.PrivateKey := None;
     ObtainForCSRRequest.NotBefore := 0%Z;
     ObtainForCSRRequest.NotAfter := 0%Z;
     ObtainForCSRRequest.Bundle := true;
     ObtainForCSRRequest.PreferredChain := "";
     ObtainForCSRRequest.Profile := "";
     ObtainForCSRRequest.AlwaysDeactivateAuthorizations := false;
     ObtainForCSRRequest.ReplacesCertID := "" |}.

End Sim2.

(** ** Vocabulary of the statements *)

(** The calls up to and including [Solve], from world [w]: the order is
    created, its authorizations are fetched, and the solver answers [solved]
    leaving the world [w3]. *)
Definition reaches_Solve {W : Type} (E : Env W) (domains : list string)
  (orderOpts : api.OrderOptions) (w : W) (order : acme.ExtendedOrder)
  (authz : list acme.Authorization) (solved : option error) (w3 : W) : Prop :=
  exists w1 w2,
    Orders_NewWithOptions E domains orderOpts w = (Ok order, w1)
    /\ core_getAuthorizations E order w1 = (Ok authz, w2)
    /\ resolver_Solve E authz w2 = (solved, w3).

Definition solve_events (domains : list string) (orderOpts : api.OrderOptions)
  (order : acme.ExtendedOrder) (authz : list acme.Authorization) : list Event :=
  [EvNewOrder domains orderOpts; EvGetAuthorizations order; EvSolve authz].

(** The deactivation calls made for [order] when asked to. *)
Definition deactivations (order : acme.ExtendedOrder) (requested : bool)
  : list Event :=
  if requested then map EvDeactivate (acme.Authorizations order) else [].

(** [r'] is [r] up to the chain fields that [checkResponse] assigns. *)
Definition same_identity (r r' : Resource) : Prop :=
  Domain r' = Domain r /\ PrivateKey r' = PrivateKey r /\ CSR r' = CSR r.

(** The Resource holds the chain stored in [certs] under its own URL, and
    its two URL fields agree. *)
Definition chain_of (certs : gmap string acme.RawCertificate) (r : Resource)
  : Prop :=
  CertStableURL r = CertURL r
  /\ Certificate r = acme.Cert (default_entry certs (CertURL r))
  /\ IssuerCertificate r = acme.Issuer (default_entry certs (CertURL r)).

(** ... for a set of chains that the API core has returned. *)
Definition selected {W : Type} (E : Env W) (r : Resource) : Prop :=
  exists url bundle w w' certs,
    Certificates_GetAll E url bundle w = (Ok certs, w') /\ chain_of certs r.

(** The topmost certificate of the candidate's issuer chain is issued by
    [preferredChain]. *)
Definition top_issuer_matches (L : Lib) (preferredChain : string)
  (cert : acme.RawCertificate) : Prop :=
  exists chain topCert,
    ParsePEMBundle L (acme.Issuer cert) = Ok chain
    /\ last chain = Some topCert
    /\ x509.Issuer_CommonName topCert = preferredChain.

(** The test [hasPreferredChain] makes, where the issuer bytes parse. *)
Definition top_issuer_matchesb (L : Lib) (preferredChain : string)
  (cert : acme.RawCertificate) : bool :=
  match ParsePEMBundle L (acme.Issuer cert) with
  | Ok chain =>
      match last chain with
      | Some topCert =>
          String.eqb (x509.Issuer_CommonName topCert) preferredChain
      | None => false
      end
  | Err _ => false
  end.

(** The candidate's issuer bytes parse to a chain that has a topmost entry. *)
Definition issuer_parses (L : Lib) (cert : acme.RawCertificate) : Prop :=
  exists chain topCert,
    ParsePEMBundle L (acme.Issuer cert) = Ok chain /\ last chain = Some topCert.

(** What the wait primitive may be called with. *)
Definition wait_event_ok (options : CertifierOptions) (ev : Event) : Prop :=
  match ev with
  | EvWaitFor msg timeout interval =>
      msg = "certificate"
      /\ timeout = (if (0 <? Timeout options)%Z then Timeout options
                    else 30 * time.Second)%Z
      /\ interval = (timeout ÷ 60)%Z
      /\ interval = (timeout / 60)%Z
  | _ => True
  end.



(** C3 as the spec words it, for one call of checkResponse on a valid
    order whose chains are [certs]: the default entry without a preference,
    the one matching candidate, the default entry when none matches, and
    success in each case. *)
Definition chain_selection_claim {W : Type} (L : Lib) (E : Env W)
  (order : acme.ExtendedOrder) (certRes : Resource) (bundle : bool)
  (preferredChain : string) (s : State W)
  (certs : gmap string acme.RawCertificate) : Prop :=
  let dflt := default_entry certs (acme.Certificate order) in
  let kept :=
    Ret (set_chain certRes (acme.Issuer dflt) (acme.Cert dflt)
           (acme.Certificate order), (true, None)) in
  let result := fst (checkResponse L E order certRes bundle preferredChain s) in
  (preferredChain = "" -> result = kept)
  /\ (preferredChain <> "" ->
      forall link cert,
        certs !! link = Some cert ->
        top_issuer_matches L preferredChain cert ->
        (forall link' cert',
            certs !! link' = Some cert' ->
            top_issuer_matches L preferredChain cert' -> link' = link) ->
        result = Ret (set_chain certRes (acme.Issuer cert) (acme.Cert cert) link,
                      (true, None)))
  /\ (preferredChain <> "" ->
      (forall link cert,
          certs !! link = Some cert ->
          ~ top_issuer_matches L preferredChain cert) ->
      result = kept).



(** RenewOptions with other MustStaple and EmailAddresses. *)
Definition with_staple_and_emails (o : RenewOptions.t) (mustStaple : bool)
  (emailAddresses : list string) : RenewOptions.t :=
  {| RenewOptions.NotBefore := RenewOptions.NotBefore o;
     RenewOptions.NotAfter := RenewOptions.NotAfter o;
     RenewOptions.Bundle := RenewOptions.Bundle o;
     RenewOptions.PreferredChain := RenewOptions.PreferredChain o;
     RenewOptions.Profile := RenewOptions.Profile o;
     RenewOptions.AlwaysDeactivateAuthorizations :=
       RenewOptions.AlwaysDeactivateAuthorizations o;
     RenewOptions.MustStaple := mustStaple;
     RenewOptions.EmailAddresses := emailAddresses |}.

(** Every run of [m] only adds events, all of them satisfying [P]. *)
Definition emits {W A : Type} (P : Event -> Prop) (m : M W A) : Prop :=
  forall s o s',
    m s = (o, s') -> exists evs, trace s' = trace s ++ evs /\ Forall P evs.

(** An event that is not a deactivation. *)
Definition no_deactivation (ev : Event) : Prop :=
  match ev with
  | EvDeactivate _ => False
  | _ => True
  end.

(** An event of an issuance that uses the caller's key [key]: no key is
    generated and the CSR is created with [key]. *)
Definition uses_key (key : crypto_PrivateKey) (ev : Event) : Prop :=
  match ev with
  | EvGeneratePrivateKey _ => False
  | EvCreateCSR k _ => k = key
  | _ => True
  end.

(** An event of a CSR-mode issuance: no key is generated, no CSR is created
    and what is finalized is [raw]. *)
Definition csr_mode_event (raw : bytes) (ev : Event) : Prop :=
  match ev with
  | EvGeneratePrivateKey _ => False
  | EvCreateCSR _ _ => False
  | EvUpdateForCSR _ csr => csr = raw
  | _ => True
  end.

(** The request GetOCSP posts to the responder. *)
Definition ocsp_post (server : string) (request : bytes) : NetCall :=
  CallHTTPPost server "application/ocsp-request" request.

(** An event of a run of the deprecated Renew: the order is created with no
    time bounds, profile or replaced certificate, nothing is deactivated, a
    CSR is created with the caller's MustStaple and no email address, and the
    chains are asked for with the caller's [bundle]. *)
Definition renew_event (bundle mustStaple : bool) (ev : Event) : Prop :=
  match ev with
  | EvNewOrder _ opts =>
      opts = {| api.NotBefore := 0%Z; api.NotAfter := 0%Z;
                api.Profile := ""; api.ReplacesCertID := "" |}
  | EvDeactivate _ => False
  | EvCreateCSR _ opts =>
      certcrypto.MustStaple opts = mustStaple
      /\ certcrypto.EmailAddresses opts = []
  | EvCertificatesGetAll _ b => b = bundle
  | _ => True
  end.

(** The state in which the world is [w] and no call has been recorded. *)
Definition at_world {W : Type} (w : W) : State W :=
  {| world := w; trace := [] |}.

(** The result of [m] and the world it leaves depend on the world [m] starts
    in, not on the calls recorded before. *)
Definition natural {W A : Type} (m : M W A) : Prop :=
  forall s,
    fst (m s) = fst (m (at_world (world s)))
    /\ world (snd (m s)) = world (snd (m (at_world (world s)))).

(** The private key getForOrder works with (lines 294-302): the key of the
    request, or else the answer of the key generator. *)
Definition private_key_of {W : Type} (E : Env W) (options : CertifierOptions)
  (request : ObtainRequest.t) (w : W) : result crypto_PrivateKey * W :=
  match ObtainRequest.PrivateKey request with
  | Some privateKey => (Ok privateKey, w)
  | None => GeneratePrivateKey E (KeyType options) w
  end.

(** [e] is the error of a chain selection: the issuer bytes of a candidate
    that the CA returned do not parse, and [e] is the parser's error. *)
Definition chain_selection_error {W : Type} (L : Lib) (E : Env W) (e : error)
  : Prop :=
  exists url bundle w w' certs link cert,
    Certificates_GetAll E url bundle w = (Ok certs, w')
    /\ certs !! link = Some cert
    /\ ParsePEMBundle L (acme.Issuer cert) = Err e.

(** What a failing issuance returns.  The finalize call for [csr] is made in
    world [w]; [result] is what Obtain or ObtainForCSR returns, [authz] the
    authorizations the failure is recorded for, and [stamp] what the caller
    does to a Resource before it returns it.  A finalize error and an error
    of checkResponse on a finalize answer that is already valid come back
    without a Resource; an error of the poll loop comes back with the
    Resource under construction, which is the one built from the finalize
    answer unless the error is that of a chain selection. *)
Definition issuance_failures {W : Type} (L : Lib) (E : Env W)
  (options : CertifierOptions) (domain0 : string) (order : acme.ExtendedOrder)
  (bundle : bool) (csr privateKeyPem : bytes) (preferredChain : string)
  (w : W) (authz : list acme.Authorization) (stamp : Resource -> Resource)
  (result : Outcome (option Resource * option error)) : Prop :=
  let aggregated e := obtainError_Join (add_failures L authz (Some e)) in
  (forall e w1,
      Orders_UpdateForCSR E (acme.Finalize order) csr w = (Err e, w1) ->
      result = Ret (None, aggregated e))
  /\ (forall respOrder w1,
      Orders_UpdateForCSR E (acme.Finalize order) csr w = (Ok respOrder, w1) ->
      let certRes := new_Resource domain0 respOrder privateKeyPem in
      (acme.Status respOrder = acme.StatusValid ->
       forall r' ok e,
         fst (checkResponse L E respOrder certRes bundle preferredChain
                (at_world w1))
         = Ret (r', (ok, Some e)) ->
         result = Ret (None, aggregated e))
      /\ (acme.Status respOrder <> acme.StatusValid ->
          forall r' e,
            fst (wait_For E "certificate" (poll_timeout options)
                   (poll_interval options)
                   (poll_step L E order bundle preferredChain) certRes
                   (at_world w1))
            = Ret (r', Some e) ->
            result = Ret (Some (stamp r'), aggregated e)
            /\ Domain r' = domain0 /\ PrivateKey r' = privateKeyPem
            /\ CSR r' = None
            /\ (r' = certRes
                \/ (preferredChain <> "" /\ chain_selection_error L E e)))).

(** C5's first clause as the spec words it, for a poll step that fetches a
    valid order: the step is a success, it reports done without an error. *)
Definition valid_step_succeeds {W : Type} (L : Lib) (E : Env W)
  (order : acme.ExtendedOrder) (bundle : bool) (preferredChain : string)
  (certRes : Resource) (s : State W) : Prop :=
  forall ord w1,
    Orders_Get E (acme.Location order) (world s) = (Ok ord, w1) ->
    acme.Status ord = acme.StatusValid ->
    exists r' s',
      poll_step L E order bundle preferredChain certRes s
      = (Ret (r', (true, None)), s').

(** The next [n] fetches of the order at [location], from world [w] on, all
    succeed and none of them finds a terminal status. *)
Fixpoint never_terminal {W : Type} (E : Env W) (location : string) (n : nat)
  (w : W) : Prop :=
  match n with
  | O => True
  | S n' =>
      exists ord w',
        Orders_Get E location w = (Ok ord, w')
        /\ acme.Status ord <> acme.StatusValid
        /\ acme.Status ord <> acme.StatusInvalid
        /\ never_terminal E location n' w'
  end.

(** * Properties *)

(** ** sanitizeDomain keeps order and only drops *)

Section SanitizeFacts.
Variable L : Lib.

Lemma sanitize_fold (domains acc : list string) :
  fold_left (sanitize_step L) domains acc
  = acc ++ omap (toASCII_opt L) domains.
Proof.
  revert acc. induction domains as [|d ds IH]; intros acc; simpl.
  - now rewrite app_nil_r.
  - rewrite IH. unfold sanitize_step, toASCII_opt.
    destruct (idna_ToASCII L d); [|reflexivity].
    now rewrite <- app_assoc.
Qed.

Lemma sanitizeDomain_omap (domains : list string) :
  sanitizeDomain L domains = omap (toASCII_opt L) domains.
Proof. unfold sanitizeDomain. now rewrite sanitize_fold. Qed.

Lemma sanitizeDomain_app (l1 l2 : list string) :
  sanitizeDomain L (l1 ++ l2) = sanitizeDomain L l1 ++ sanitizeDomain L l2.
Proof.
  unfold sanitizeDomain. rewrite fold_left_app, !sanitize_fold.
  reflexivity.
Qed.

Lemma sanitizeDomain_singleton (d : string) :
  sanitizeDomain L [d]
  = match idna_ToASCII L d with
    | Ok a => [a]
    | Err _ => []
    end.
Proof.
  unfold sanitizeDomain, sanitize_step. simpl.
  destruct (idna_ToASCII L d); reflexivity.
Qed.

Lemma sanitizeDomain_kept (domains : list string) :
  Forall2 (fun d a => idna_ToASCII L d = Ok a)
    (List.filter (converts L) domains) (sanitizeDomain L domains).
Proof.
  rewrite sanitizeDomain_omap.
  induction domains as [|d ds IH]; simpl; [constructor|].
  unfold converts, toASCII_opt.
  destruct (idna_ToASCII L d) eqn:Hd; simpl; [|exact IH].
  constructor; [exact Hd | exact IH].
Qed.

Lemma sanitizeDomain_length (domains : list string) :
  length (sanitizeDomain L domains) <= length domains.
Proof.
  induction domains as [|d ds IH]; [simpl; lia|].
  change (d :: ds) with ([d] ++ ds). rewrite sanitizeDomain_app, length_app.
  unfold sanitizeDomain at 1. simpl. unfold sanitize_step.
  destruct (idna_ToASCII L d); simpl; lia.
Qed.

Lemma sanitizeDomain_nonempty (domains : list string) :
  (exists d, In d domains /\ converts L d = true) ->
  sanitizeDomain L domains <> [].
Proof.
  intros (d & Hin & Hd). apply in_split in Hin as (l1 & l2 & ->).
  rewrite sanitizeDomain_app.
  change (d :: l2) with ([d] ++ l2). rewrite sanitizeDomain_app.
  unfold converts in Hd. unfold sanitizeDomain at 2. simpl.
  unfold sanitize_step. destruct (idna_ToASCII L d); [|discriminate].
  simpl. now destruct (sanitizeDomain L l1).
Qed.

End SanitizeFacts.

(** C7. For every list of domains, [sanitizeDomain] returns the ASCII forms
    of exactly the domains whose conversion succeeds, in their input order:
    the result is the conversions of the sub-list of converting domains (so it
    is never longer than the input), a domain that fails is dropped and the
    domains around it keep their places, and one that converts sits between
    the results of what precedes and what follows it. *)
Theorem sanitizeDomain_order_preserving (L : Lib) (domains : list string) :
  sanitizeDomain L domains = omap (toASCII_opt L) domains
  /\ Forall2 (fun d a => idna_ToASCII L d = Ok a)
       (List.filter (converts L) domains) (sanitizeDomain L domains)
  /\ sublist (List.filter (converts L) domains) domains
  /\ length (sanitizeDomain L domains) <= length domains
  /\ (forall before d after,
        domains = before ++ d :: after ->
        match idna_ToASCII L d with
        | Err _ =>
            sanitizeDomain L domains
            = sanitizeDomain L before ++ sanitizeDomain L after
        | Ok a =>
            sanitizeDomain L domains
            = sanitizeDomain L before ++ a :: sanitizeDomain L after
        end).
Proof.
  split; [apply sanitizeDomain_omap|].
  split; [apply sanitizeDomain_kept|].
  split.
  { induction domains as [|d ds IH]; simpl; [constructor|].
    destruct (converts L d); [now apply sublist_skip | now apply sublist_cons]. }
  split; [apply sanitizeDomain_length|].
  intros before d after ->.
  rewrite sanitizeDomain_app.
  change (d :: after) with ([d] ++ after).
  rewrite sanitizeDomain_app, sanitizeDomain_singleton.
  destruct (idna_ToASCII L d); reflexivity.
Qed.

(** A run of C7: the name with a blank is dropped, the others keep their
    order. *)
Lemma sanitizeDomain_order_preserving_witness :
  sanitizeDomain Sim.the_lib ["example.com"; "bad name"; "www.example.com"]
  = sanitizeDomain Sim.the_lib ["example.com"]
    ++ sanitizeDomain Sim.the_lib ["www.example.com"]
  /\ sanitizeDomain Sim.the_lib ["example.com"; "bad name"; "www.example.com"]
     = ["example.com"; "www.example.com"].
Proof.
  split.
  - exact (proj2 (proj2 (proj2 (proj2
      (sanitizeDomain_order_preserving Sim.the_lib
         ["example.com"; "bad name"; "www.example.com"]))))
      ["example.com"] "bad name" ["www.example.com"] eq_refl).
  - reflexivity.
Defined.

(** ** Running the monad *)

Section MonadFacts.
Context {W : Type}.

Lemma bind_Ret {A B : Type} (m : M W A) (k : A -> M W B) s a s1 :
  m s = (Ret a, s1) -> bind m k s = k a s1.
Proof. intros H. unfold bind. now rewrite H. Qed.

Lemma bind_Panic {A B : Type} (m : M W A) (k : A -> M W B) s site s1 :
  m s = (Panic site, s1) -> bind m k s = (Panic site, s1).
Proof. intros H. unfold bind. now rewrite H. Qed.

Lemma call_run {A : Type} (ev : Event) (f : W -> A * W) s a w' :
  f (world s) = (a, w') ->
  call ev f s = (Ret a, {| world := w'; trace := trace s ++ [ev] |}).
Proof. intros H. unfold call. now rewrite H. Qed.

Lemma call_run_at {A : Type} (ev : Event) (f : W -> A * W) w tr a w' :
  f w = (a, w') ->
  call ev f {| world := w; trace := tr |}
  = (Ret a, {| world := w'; trace := tr ++ [ev] |}).
Proof. intros H. unfold call. cbn [world trace]. now rewrite H. Qed.

End MonadFacts.

(** Rewrites a [call] in head position with its known answer [H]. *)
Ltac step_call H :=
  first [ rewrite (bind_Ret _ _ _ _ _ (call_run _ _ _ _ _ H))
        | rewrite (bind_Ret _ _ _ _ _ (call_run_at _ _ _ _ _ _ H)) ];
  cbv beta iota.

Section PrefixFacts.
Context {W : Type}.

Lemma deactivate_each_run (E : Env W) (authzURLs : list string) s :
  exists w',
    deactivate_each E authzURLs s
    = (Ret tt, {| world := w';
                  trace := trace s ++ map EvDeactivate authzURLs |}).
Proof.
  revert s. induction authzURLs as [|u us IH]; intros s; simpl.
  - exists (world s). unfold ret. rewrite app_nil_r. now destruct s.
  - destruct (Authorizations_Deactivate E u (world s)) as [[] w1] eqn:Hd.
    step_call Hd.
    destruct (IH {| world := w1; trace := trace s ++ [EvDeactivate u] |})
      as (w' & Hrun).
    exists w'. rewrite Hrun. simpl. now rewrite <- app_assoc.
Qed.

Lemma deactivateAuthorizations_run (E : Env W) order (force : bool) s :
  exists w',
    deactivateAuthorizations E order force s
    = (Ret tt, {| world := w';
                  trace := trace s ++ deactivations order force |}).
Proof.
  unfold deactivateAuthorizations, deactivations. destruct force.
  - apply deactivate_each_run.
  - exists (world s). unfold ret. rewrite app_nil_r. now destruct s.
Qed.

(** Obtain, once its calls up to [Solve] are known. *)
Lemma Obtain_reaches_Solve (L : Lib) (E : Env W) options request s
  order authz solved w3 :
  ObtainRequest.Domains request <> [] ->
  reaches_Solve E (sanitizeDomain L (ObtainRequest.Domains request))
    (Obtain_orderOpts request) (world s) order authz solved w3 ->
  Obtain L E options request s
  = (match solved with
     | Some err =>
         u <- deactivateAuthorizations E order
                (ObtainRequest.AlwaysDeactivateAuthorizations request) ;
         ret (None, Some err)
     | None =>
         '(cert, err) <- getForOrder L E options
                           (sanitizeDomain L (ObtainRequest.Domains request))
                           order request ;
         u <- (if ObtainRequest.AlwaysDeactivateAuthorizations request
               then deactivateAuthorizations E order true
               else ret tt) ;
         ret (cert, obtainError_Join (add_failures L authz err))
     end)
      {| world := w3;
         trace := trace s
                  ++ solve_events
                       (sanitizeDomain L (ObtainRequest.Domains request))
                       (Obtain_orderOpts request) order authz |}.
Proof.
  intros Hne (w1 & w2 & Hnew & Hauthz & Hsolve).
  assert (Hlen : (length (ObtainRequest.Domains request) =? 0)%nat = false)
    by (destruct (ObtainRequest.Domains request); [contradiction|reflexivity]).
  unfold Obtain. rewrite Hlen. cbv beta iota zeta.
  step_call Hnew. unfold getAuthorizations at 1.
  step_call Hauthz.
  step_call Hsolve.
  unfold solve_events. cbn [world trace]. rewrite <- !app_assoc. reflexivity.
Qed.

Lemma ObtainForCSR_reaches_Solve (L : Lib) (E : Env W) options request csr s
  order authz solved w3 :
  ObtainForCSRRequest.CSR request = Some csr ->
  reaches_Solve E (ExtractDomainsCSR L csr) (ObtainForCSR_orderOpts request)
    (world s) order authz solved w3 ->
  ObtainForCSR L E options request s
  = (match solved with
     | Some err =>
         u <- deactivateAuthorizations E order
                (ObtainForCSRRequest.AlwaysDeactivateAuthorizations request) ;
         ret (None, Some err)
     | None =>
         '(cert, err) <-
            getForCSR L E options (ExtractDomainsCSR L csr) order
              (ObtainForCSRRequest.Bundle request) (x509.CSR_Raw csr)
              (match ObtainForCSRRequest.PrivateKey request with
               | Some key => PEMEncode L key
               | None => None
               end)
              (ObtainForCSRRequest.PreferredChain request) ;
         u <- (if ObtainForCSRRequest.AlwaysDeactivateAuthorizations request
               then deactivateAuthorizations E order true
               else ret tt) ;
         ret (match cert with
              | Some certRes => Some (set_CSR certRes (PEMEncodeCSR L csr))
              | None => None
              end,
              obtainError_Join (add_failures L authz err))
     end)
      {| world := w3;
         trace := trace s
                  ++ solve_events (ExtractDomainsCSR L csr)
                       (ObtainForCSR_orderOpts request) order authz |}.
Proof.
  intros Hcsr (w1 & w2 & Hnew & Hauthz & Hsolve).
  unfold ObtainForCSR. rewrite Hcsr. cbv beta iota zeta.
  step_call Hnew. unfold getAuthorizations at 1.
  step_call Hauthz.
  step_call Hsolve.
  unfold solve_events. cbn [world trace]. rewrite <- !app_assoc. reflexivity.
Qed.

End PrefixFacts.

(** ** All or nothing when the solver fails *)

(** C1. In every run of [Obtain] or [ObtainForCSR] in which [Solve] returns
    an error, the call returns no Resource together with that very error, and
    the calls it has made are the order creation, the authorization fetch and
    [Solve], followed by one deactivation per authorization of the order
    exactly when [AlwaysDeactivateAuthorizations] is set: nothing is
    finalized and no certificate is fetched. *)
Theorem solve_error_returns_no_resource {W : Type} (L : Lib) (E : Env W)
  (options : CertifierOptions) :
  (forall request s order authz err w3,
      ObtainRequest.Domains request <> [] ->
      reaches_Solve E (sanitizeDomain L (ObtainRequest.Domains request))
        (Obtain_orderOpts request) (world s) order authz (Some err) w3 ->
      exists w',
        Obtain L E options request s
        = (Ret (None, Some err),
           {| world := w';
              trace := trace s
                ++ solve_events (sanitizeDomain L (ObtainRequest.Domains request))
                     (Obtain_orderOpts request) order authz
                ++ deactivations order
                     (ObtainRequest.AlwaysDeactivateAuthorizations request) |}))
  /\ (forall request csr s order authz err w3,
      ObtainForCSRRequest.CSR request = Some csr ->
      reaches_Solve E (ExtractDomainsCSR L csr)
        (ObtainForCSR_orderOpts request) (world s) order authz (Some err) w3 ->
      exists w',
        ObtainForCSR L E options request s
        = (Ret (None, Some err),
           {| world := w';
              trace := trace s
                ++ solve_events (ExtractDomainsCSR L csr)
                     (ObtainForCSR_orderOpts request) order authz
                ++ deactivations order
                     (ObtainForCSRRequest.AlwaysDeactivateAuthorizations
                        request) |})).
Proof.
  split.
  - intros request s order authz err w3 Hne Hreach.
    rewrite (Obtain_reaches_Solve L E options request s _ _ _ _ Hne Hreach).
    match goal with |- context [bind ?m _ ?s0] =>
      destruct (deactivateAuthorizations_run E order
                  (ObtainRequest.AlwaysDeactivateAuthorizations request) s0)
        as (w' & Hd) end.
    exists w'. erewrite bind_Ret by exact Hd.
    unfold ret. cbn [trace]. now rewrite <- app_assoc.
  - intros request csr s order authz err w3 Hcsr Hreach.
    rewrite (ObtainForCSR_reaches_Solve L E options request csr s _ _ _ _
               Hcsr Hreach).
    match goal with |- context [bind ?m _ ?s0] =>
      destruct (deactivateAuthorizations_run E order
                  (ObtainForCSRRequest.AlwaysDeactivateAuthorizations request) s0)
        as (w' & Hd) end.
    exists w'. erewrite bind_Ret by exact Hd.
    unfold ret. cbn [trace]. now rewrite <- app_assoc.
Qed.

(** A run of C1: the solver refuses one of two domains; [Obtain] is asked to
    deactivate, [ObtainForCSR] is not. *)
Lemma solve_error_returns_no_resource_witness :
  (exists w',
      Obtain Sim.the_lib (Sim.env Sim.solver_refuses) (Sim.options 0)
        (Sim.request Sim.two_domains "" true) (Sim.start [])
      = (Ret (None, Some Sim.refusal),
         {| world := w';
            trace :=
              solve_events Sim.two_domains
                (Obtain_orderOpts (Sim.request Sim.two_domains "" true))
                (Sim.order acme.StatusPending Sim.two_domains None)
                [Sim.authorization "example.com";
                 Sim.authorization "www.example.com"]
              ++ [EvDeactivate "https://ca.test/authz/example.com";
                  EvDeactivate "https://ca.test/authz/www.example.com"] |}))
  /\ (exists w',
      ObtainForCSR Sim.the_lib (Sim.env Sim.solver_refuses) (Sim.options 0)
        (Sim.csr_request false) (Sim.start [])
      = (Ret (None, Some Sim.refusal),
         {| world := w';
            trace :=
              solve_events Sim.two_domains
                (ObtainForCSR_orderOpts (Sim.csr_request false))
                (Sim.order acme.StatusPending Sim.two_domains None)
                [Sim.authorization "example.com";
                 Sim.authorization "www.example.com"] |})).
Proof.
  split.
  - apply (proj1 (solve_error_returns_no_resource Sim.the_lib
                    (Sim.env Sim.solver_refuses) (Sim.options 0))
             (Sim.request Sim.two_domains "" true) (Sim.start [])
             (Sim.order acme.StatusPending Sim.two_domains None)
             [Sim.authorization "example.com";
              Sim.authorization "www.example.com"]
             Sim.refusal []).
    + discriminate.
    + exists [], []. repeat split; reflexivity.
  - destruct (proj2 (solve_error_returns_no_resource Sim.the_lib
                    (Sim.env Sim.solver_refuses) (Sim.options 0))
             (Sim.csr_request false) _ (Sim.start [])
             (Sim.order acme.StatusPending Sim.two_domains None)
             [Sim.authorization "example.com";
              Sim.authorization "www.example.com"]
             Sim.refusal [] eq_refl) as (w' & Hrun).
    + exists [], []. repeat split; reflexivity.
    + exists w'. rewrite Hrun. reflexivity.
Defined.

(** ** Inversion of runs and traces *)

Section RunFacts.
Context {W : Type}.

Lemma ret_inv {A : Type} (a : A) (s : State W) o s' :
  ret a s = (o, s') -> o = Ret a /\ s' = s.
Proof. unfold ret. intros H. now inversion H. Qed.

Lemma panic_inv {A : Type} site (s : State W) (o : Outcome A) s' :
  panic site s = (o, s') -> o = Panic site /\ s' = s.
Proof. unfold panic. intros H. now inversion H. Qed.

Lemma peek_inv {A : Type} (f : W -> A) (s : State W) o s' :
  peek f s = (o, s') -> o = Ret (f (world s)) /\ s' = s.
Proof. unfold peek. intros H. now inversion H. Qed.

Lemma call_inv {A : Type} ev (f : W -> A * W) (s : State W) o s' :
  call ev f s = (o, s') ->
  o = Ret (fst (f (world s)))
  /\ s' = {| world := snd (f (world s)); trace := trace s ++ [ev] |}.
Proof.
  unfold call. destruct (f (world s)) as [a w']. intros H. now inversion H.
Qed.

Lemma bind_inv {A B : Type} (m : M W A) (k : A -> M W B) s o s' :
  bind m k s = (o, s') ->
  (exists a s1, m s = (Ret a, s1) /\ k a s1 = (o, s'))
  \/ (exists site, m s = (Panic site, s') /\ o = Panic site).
Proof.
  unfold bind. destruct (m s) as [[a|site] s1]; intros H.
  - left. now exists a, s1.
  - right. exists site. now inversion H.
Qed.

Lemma emits_ret {A : Type} P (a : A) : emits (W:=W) P (ret a).
Proof.
  intros s o s' H. apply ret_inv in H as [_ ->]. exists [].
  now rewrite app_nil_r.
Qed.

Lemma emits_panic {A : Type} P site : emits (W:=W) (A:=A) P (panic site).
Proof.
  intros s o s' H. apply panic_inv in H as [_ ->]. exists [].
  now rewrite app_nil_r.
Qed.

Lemma emits_peek {A : Type} P (f : W -> A) : emits P (peek f).
Proof.
  intros s o s' H. apply peek_inv in H as [_ ->]. exists [].
  now rewrite app_nil_r.
Qed.

Lemma emits_call {A : Type} (P : Event -> Prop) ev (f : W -> A * W) :
  P ev -> emits P (call ev f).
Proof.
  intros HP s o s' H. apply call_inv in H as [_ ->]. exists [ev].
  split; [reflexivity | now constructor].
Qed.

Lemma emits_bind {A B : Type} P (m : M W A) (k : A -> M W B) :
  emits P m -> (forall a, emits P (k a)) -> emits P (bind m k).
Proof.
  intros Hm Hk s o s' H. apply bind_inv in H as [(a & s1 & H1 & H2)|(site & H1 & _)].
  - destruct (Hm _ _ _ H1) as (e1 & T1 & F1).
    destruct (Hk a _ _ _ H2) as (e2 & T2 & F2).
    exists (e1 ++ e2). rewrite T2, T1, <- app_assoc. split; [reflexivity|].
    now apply Forall_app.
  - exact (Hm _ _ _ H1).
Qed.

End RunFacts.

(** Proves [emits P m] along the structure of [m]; the events of the calls
    are left to [tac]. *)
Ltac emits_along tac :=
  repeat first
    [ apply emits_ret
    | apply emits_panic
    | apply emits_peek
    | apply emits_call; [tac]
    | apply emits_bind; [|intros ?]
    | match goal with
      | |- emits _ (match ?x with _ => _ end) => destruct x
      end ].

Section OrchestratorFacts.
Context {W : Type}.
Variable L : Lib.
Variable E : Env W.

Lemma hasPreferredChain_inv issuer preferredChain (s : State W) o s' :
  hasPreferredChain L issuer preferredChain s = (o, s') ->
  s' = s
  /\ match o with
     | Panic site => site = Panic_hasPreferredChain_top
     | Ret (ok, err) =>
         match ParsePEMBundle L issuer with
         | Err e => ok = false /\ err = Some e
         | Ok chain =>
             err = None
             /\ exists topCert,
                 last chain = Some topCert
                 /\ ok = String.eqb (x509.Issuer_CommonName topCert)
                           preferredChain
         end
     end.
Proof.
  unfold hasPreferredChain.
  destruct (ParsePEMBundle L issuer) as [chain|e].
  - destruct (last chain) as [topCert|] eqn:Hlast.
    + destruct (String.eqb _ _) eqn:Heq; intros H; apply ret_inv in H as [-> ->];
        (split; [reflexivity|]); (split; [reflexivity|]);
        exists topCert; now rewrite Heq.
    + intros H. apply panic_inv in H as [-> ->]. now split.
  - intros H. apply ret_inv in H as [-> ->]. now split.
Qed.

Lemma checkResponse_range_inv entries certRes preferredChain (s : State W) o s' :
  checkResponse_range L entries certRes preferredChain s = (o, s') ->
  s' = s
  /\ match o with
     | Panic site => site = Panic_hasPreferredChain_top
     | Ret (r', (done, err)) =>
         if done
         then err = None
              /\ (r' = certRes
                  \/ exists link cert,
                      In (link, cert) entries
                      /\ r' = set_chain certRes (acme.Issuer cert)
                                (acme.Cert cert) link)
         else r' = certRes /\ err <> None
     end.
Proof.
  revert s. induction entries as [|[link cert] rest IH]; intros s; simpl.
  - intros H. apply ret_inv in H as [-> ->]. split; [reflexivity|]. now split; [|left].
  - intros H. apply bind_inv in H as [([ok err] & s1 & H1 & H2)|(site & H1 & ->)].
    + apply hasPreferredChain_inv in H1 as [-> _].
      destruct err as [e|].
      * apply ret_inv in H2 as [-> ->]. split; [reflexivity|]. now split.
      * destruct ok.
        -- apply ret_inv in H2 as [-> ->]. split; [reflexivity|].
           split; [reflexivity|]. right. exists link, cert. split; [now left|reflexivity].
        -- apply IH in H2 as [-> H2]. split; [reflexivity|].
           destruct o as [[r' [done err]]|site]; [|exact H2].
           destruct done; [|exact H2].
           destruct H2 as [-> [->|(l & c & Hin & ->)]]; (split; [reflexivity|]);
             [now left | right; exists l, c; split; [now right | reflexivity]].
    + apply hasPreferredChain_inv in H1 as [-> H1]. now split.
Qed.

Lemma set_chain_identity r issuer cert url :
  same_identity r (set_chain r issuer cert url).
Proof. now repeat split. Qed.

Lemma same_identity_refl r : same_identity r r.
Proof. now repeat split. Qed.

Lemma same_identity_trans r1 r2 r3 :
  same_identity r1 r2 -> same_identity r2 r3 -> same_identity r1 r3.
Proof.
  intros (A1 & A2 & A3) (B1 & B2 & B3). repeat split; congruence.
Qed.

Lemma default_entry_lookup (certs : gmap string acme.RawCertificate) link cert :
  certs !! link = Some cert -> default_entry certs link = cert.
Proof. intros H. unfold default_entry. now rewrite H. Qed.

Lemma map_range_lookup w (certs : gmap string acme.RawCertificate) link cert :
  In (link, cert) (map_range E w certs) <-> certs !! link = Some cert.
Proof.
  rewrite <- list_elem_of_In, (map_range_perm E w certs).
  apply elem_of_map_to_list.
Qed.

Lemma checkResponse_inv order certRes bundle preferredChain (s : State W) o s' :
  checkResponse L E order certRes bundle preferredChain s = (o, s') ->
  match o with
  | Panic site => site = Panic_hasPreferredChain_top
  | Ret (r', (done, err)) =>
      same_identity certRes r'
      /\ (if done then err = None /\ selected E r'
                       /\ acme.Status order = acme.StatusValid
          else (preferredChain = "" -> r' = certRes)
               /\ (acme.Status order = acme.StatusValid -> err <> None))
  end.
Proof.
  unfold checkResponse, checkOrderStatus.
  destruct (String.eqb (acme.Status order) acme.StatusValid) eqn:Hvalid.
  2:{ apply String.eqb_neq in Hvalid.
      destruct (String.eqb (acme.Status order) acme.StatusInvalid);
        intros H; apply ret_inv in H as [-> ->];
        (split; [apply same_identity_refl | now split]). }
  cbv beta iota. cbn [negb].
  intros H. apply bind_inv in H as [(r & s1 & H1 & H2)|(site & H1 & ->)].
  2:{ apply call_inv in H1 as [H1 _]. discriminate. }
  apply call_inv in H1 as [Hr ->]. inversion Hr as [Hr']. clear Hr.
  destruct (Certificates_GetAll E (acme.Certificate order) bundle (world s))
    as [[certs|e] w1] eqn:HG; simpl in Hr'; subst r.
  2:{ apply ret_inv in H2 as [-> ->]. split; [apply same_identity_refl | now split]. }
  assert (Hdef : selected E
            (set_chain certRes
               (acme.Issuer (default_entry certs (acme.Certificate order)))
               (acme.Cert (default_entry certs (acme.Certificate order)))
               (acme.Certificate order))).
  { exists (acme.Certificate order), bundle, (world s), w1, certs.
    split; [exact HG | now repeat split]. }
  apply String.eqb_eq in Hvalid.
  destruct (String.eqb preferredChain "") eqn:Hpref.
  { apply ret_inv in H2 as [-> ->].
    split; [apply set_chain_identity | now repeat split]. }
  apply bind_inv in H2 as [(entries & s2 & H2 & H3)|(site & H2 & ->)].
  2:{ apply peek_inv in H2 as [H2 _]. discriminate. }
  apply peek_inv in H2 as [He ->]. inversion He as [He']. clear He.
  apply checkResponse_range_inv in H3 as [-> H3].
  destruct o as [[r' [done err]]|site]; [|exact H3].
  destruct done.
  - destruct H3 as [-> [->|(link & cert & Hin & ->)]].
    + split; [apply set_chain_identity | now repeat split].
    + split; [now repeat split|]. split; [reflexivity|]. split; [|exact Hvalid].
      subst entries. apply map_range_lookup in Hin.
      exists (acme.Certificate order), bundle, (world s), w1, certs.
      split; [exact HG|]. unfold chain_of. cbn [set_chain CertURL CertStableURL
        Certificate IssuerCertificate].
      rewrite (default_entry_lookup _ _ _ Hin). now repeat split.
  - destruct H3 as [-> Herr]. split; [apply set_chain_identity|].
    split; [intros ->; discriminate | intros _; exact Herr].
Qed.

Lemma poll_step_inv order bundle preferredChain certRes (s : State W) o s' :
  poll_step L E order bundle preferredChain certRes s = (o, s') ->
  match o with
  | Panic site => site = Panic_hasPreferredChain_top
  | Ret (r', (done, err)) =>
      same_identity certRes r'
      /\ (if done then err = None /\ selected E r'
          else preferredChain = "" -> r' = certRes)
  end.
Proof.
  unfold poll_step. intros H.
  apply bind_inv in H as [(r & s1 & H1 & H2)|(site & H1 & ->)].
  2:{ apply call_inv in H1 as [H1 _]. discriminate. }
  destruct r as [ord|errW].
  2:{ apply ret_inv in H2 as [-> ->]. split; [apply same_identity_refl | reflexivity]. }
  apply bind_inv in H2 as [([r' [done errW]] & s2 & H2 & H3)|(site & H2 & ->)].
  2:{ exact (checkResponse_inv _ _ _ _ _ _ _ H2). }
  apply checkResponse_inv in H2 as [Hid H2].
  destruct errW as [e|]; apply ret_inv in H3 as [-> ->]; (split; [exact Hid|]).
  - destruct done; [now destruct H2 | exact (proj1 H2)].
  - destruct done; [now destruct H2 as (_ & ? & _) | exact (proj1 H2)].
Qed.

Lemma wait_loop_inv order bundle preferredChain samples msg certRes
  (s : State W) o s' :
  wait_loop samples msg (poll_step L E order bundle preferredChain) certRes s
  = (o, s') ->
  match o with
  | Panic site => site = Panic_hasPreferredChain_top
  | Ret (r', err) =>
      same_identity certRes r'
      /\ match err with
         | None => selected E r'
         | Some _ => preferredChain = "" -> r' = certRes
         end
  end.
Proof.
  revert certRes s. induction samples as [|n IH]; intros certRes s; simpl.
  - intros H. apply ret_inv in H as [-> ->]. split; [apply same_identity_refl | reflexivity].
  - intros H.
    apply bind_inv in H as [([r1 [stop err]] & s1 & H1 & H2)|(site & H1 & ->)].
    2:{ exact (poll_step_inv _ _ _ _ _ _ _ H1). }
    apply poll_step_inv in H1 as [Hid H1].
    destruct stop.
    + apply ret_inv in H2 as [-> ->]. split; [exact Hid | exact (proj2 H1)].
    + destruct err as [e|].
      * apply ret_inv in H2 as [-> ->]. now split.
      * apply IH in H2. destruct o as [[r' err']|site]; [|exact H2].
        destruct H2 as [Hid' H2]. split; [exact (same_identity_trans _ _ _ Hid Hid')|].
        destruct err'; [|exact H2]. intros Hp. rewrite (H2 Hp). exact (H1 Hp).
Qed.

Lemma wait_For_inv order bundle preferredChain msg timeout interval certRes
  (s : State W) o s' :
  wait_For E msg timeout interval (poll_step L E order bundle preferredChain)
    certRes s = (o, s') ->
  match o with
  | Panic site => site = Panic_hasPreferredChain_top
  | Ret (r', err) =>
      same_identity certRes r'
      /\ match err with
         | None => selected E r'
         | Some _ => preferredChain = "" -> r' = certRes
         end
  end.
Proof.
  unfold wait_For. intros H.
  apply bind_inv in H as [(n & s1 & H1 & H2)|(site & H1 & ->)].
  2:{ apply call_inv in H1 as [H1 _]. discriminate. }
  exact (wait_loop_inv _ _ _ _ _ _ _ _ _ H2).
Qed.

End OrchestratorFacts.

Section PipelineFacts.
Context {W : Type}.
Variable L : Lib.
Variable E : Env W.
Variable options : CertifierOptions.

(** What getForCSR can hand back: on success a Resource holding a selected
    chain; on failure nothing when the finalize call failed or the order was
    already valid, and the Resource under construction otherwise. *)
Lemma getForCSR_inv domains order bundle csr privateKeyPem preferredChain
  (s : State W) o s' :
  getForCSR L E options domains order bundle csr privateKeyPem preferredChain s
  = (o, s') ->
  match o with
  | Panic site =>
      site = Panic_hasPreferredChain_top
      \/ (site = Panic_getForCSR_domains0 /\ domains = [])
  | Ret (cert, err) =>
      match err with
      | None =>
          exists r, cert = Some r /\ selected E r
                    /\ Domain r = hd "" domains
                    /\ PrivateKey r = privateKeyPem /\ CSR r = None
      | Some e =>
          match Orders_UpdateForCSR E (acme.Finalize order) csr (world s) with
          | (Err e0, _) => cert = None /\ e = e0
          | (Ok respOrder, _) =>
              if String.eqb (acme.Status respOrder) acme.StatusValid
              then cert = None
              else exists r,
                  cert = Some r
                  /\ same_identity
                       (new_Resource (hd "" domains) respOrder privateKeyPem) r
                  /\ (preferredChain = "" ->
                      r = new_Resource (hd "" domains) respOrder privateKeyPem)
          end
      end
  end.
Proof.
  unfold getForCSR. intros H.
  apply bind_inv in H as [(r & s1 & H1 & H2)|(site & H1 & ->)].
  2:{ apply call_inv in H1 as [H1 _]. discriminate. }
  apply call_inv in H1 as [Hr ->]. inversion Hr as [Hr']. clear Hr.
  destruct (Orders_UpdateForCSR E (acme.Finalize order) csr (world s))
    as [[respOrder|e0] w1]; simpl in Hr'; subst r.
  2:{ apply ret_inv in H2 as [-> ->]. now split. }
  destruct domains as [|domain0 rest].
  { apply panic_inv in H2 as [-> ->]. right. now split. }
  cbv zeta in H2. cbn [hd].
  set (certRes := new_Resource domain0 respOrder privateKeyPem) in *.
  assert (Hpoll : forall r0 s0,
    same_identity certRes r0 ->
    (preferredChain = "" -> r0 = certRes) ->
    bind (wait_For E "certificate" (poll_timeout options)
            (poll_timeout options ÷ 60)%Z
            (poll_step L E order bundle preferredChain) r0)
      (fun x => let '(certRes', err) := x in ret (Some certRes', err)) s0
    = (o, s') ->
    match o with
    | Panic site =>
        site = Panic_hasPreferredChain_top
        \/ (site = Panic_getForCSR_domains0 /\ domain0 :: rest = [])
    | Ret (cert, err) =>
        match err with
        | None =>
            exists r, cert = Some r /\ selected E r /\ Domain r = domain0
                      /\ PrivateKey r = privateKeyPem /\ CSR r = None
        | Some e =>
            exists r, cert = Some r /\ same_identity certRes r
                      /\ (preferredChain = "" -> r = certRes)
        end
    end).
  { intros r0 s0 Hid0 Heq0 Hrun.
    apply bind_inv in Hrun as [([r' err] & s2 & Hw & Hret)|(site & Hw & ->)].
    2:{ left. exact (wait_For_inv _ _ _ _ _ _ _ _ _ _ _ _ Hw). }
    apply wait_For_inv in Hw as [Hid Hw]. apply ret_inv in Hret as [-> _].
    pose proof (same_identity_trans _ _ _ Hid0 Hid) as Hid'.
    destruct err as [e|].
    - exists r'. split; [reflexivity|]. split; [exact Hid'|].
      intros Hp. rewrite (Hw Hp). exact (Heq0 Hp).
    - exists r'. destruct Hid' as (D & P & C). now repeat split. }
  destruct (String.eqb (acme.Status respOrder) acme.StatusValid) eqn:Hvalid.
  - apply bind_inv in H2 as [([r' [ok errR]] & s2 & Hc & Hk)|(site & Hc & ->)].
    2:{ left. exact (checkResponse_inv _ _ _ _ _ _ _ _ _ Hc). }
    apply checkResponse_inv in Hc as [Hid Hc].
    destruct errR as [e|].
    { apply ret_inv in Hk as [-> _]. reflexivity. }
    destruct ok.
    + apply ret_inv in Hk as [-> _]. destruct Hc as (_ & Hsel & _).
      exists r'. destruct Hid as (D & P & C). now repeat split.
    + exfalso. apply (proj2 Hc); [now apply String.eqb_eq | reflexivity].
  - apply Hpoll in H2; [|apply same_identity_refl | reflexivity].
    destruct o as [[cert [e|]]|site]; exact H2.
Qed.

Lemma getForOrder_inv domains order request (s : State W) o s' :
  getForOrder L E options domains order request s = (o, s') ->
  match o with
  | Panic site =>
      site = Panic_hasPreferredChain_top
      \/ ((site = Panic_getForOrder_domains0 \/ site = Panic_getForCSR_domains0)
          /\ domains = [])
  | Ret (cert, err) =>
      match err with
      | None =>
          exists r, cert = Some r /\ selected E r
                    /\ Domain r = hd "" domains /\ CSR r = None
      | Some e =>
          match cert with
          | None => True
          | Some r =>
              Domain r = hd "" domains /\ CSR r = None
              /\ (ObtainRequest.PreferredChain request = "" ->
                  Certificate r = None /\ IssuerCertificate r = None
                  /\ CertStableURL r = "")
          end
      end
  end.
Proof.
  unfold getForOrder. intros H.
  apply bind_inv in H as [(k & s1 & H1 & H2)|(site & H1 & ->)].
  2:{ destruct (ObtainRequest.PrivateKey request);
        [apply ret_inv in H1 as [H1 _] | apply call_inv in H1 as [H1 _]];
        discriminate. }
  destruct k as [privateKey|err].
  2:{ apply ret_inv in H2 as [-> ->]. exact I. }
  destruct domains as [|domain0 rest].
  { apply panic_inv in H2 as [-> ->]. right. split; [now left | reflexivity]. }
  cbv zeta in H2.
  apply bind_inv in H2 as [(r & s2 & H2 & H3)|(site & H2 & ->)].
  2:{ apply call_inv in H2 as [H2 _]. discriminate. }
  destruct r as [csr|err].
  2:{ apply ret_inv in H3 as [-> ->]. exact I. }
  apply getForCSR_inv in H3.
  destruct o as [[cert [e|]]|site].
  - destruct cert as [r|]; [|exact I].
    destruct (Orders_UpdateForCSR E (acme.Finalize order) csr (world s2))
      as [[respOrder|e0] w1]; [|now destruct H3].
    destruct (String.eqb (acme.Status respOrder) acme.StatusValid);
      [discriminate|].
    destruct H3 as (r0 & Hr & (D & P & C) & Heq). inversion Hr; subst r0.
    split; [exact D|]. split; [exact C|]. intros Hp. now rewrite (Heq Hp).
  - destruct H3 as (r & -> & Hsel & D & _ & C). exists r. now repeat split.
  - destruct H3 as [->|[-> Hd]]; [now left | discriminate].
Qed.



(** The tail of Obtain and ObtainForCSR: optional deactivation, then the
    result. *)
Lemma finish_inv {A : Type} order (flag : bool) (x : A) (s : State W) o s' :
  bind (if flag then deactivateAuthorizations E order true else ret tt)
    (fun _ => ret x) s = (o, s') ->
  o = Ret x.
Proof.
  intros H. destruct flag.
  - destruct (deactivateAuthorizations_run E order true s) as (w' & Hd).
    rewrite (bind_Ret _ _ _ _ _ Hd) in H. now apply ret_inv in H as [-> _].
  - unfold bind, ret in H. now inversion H.
Qed.

End PipelineFacts.

(** ** Failures after validation *)




(** ** The URLs of a returned Resource *)



(** ** Chain selection *)

Section ChainSelection.
Context {W : Type}.
Variable L : Lib.
Variable E : Env W.

Lemma top_issuer_matches_iff preferredChain cert :
  top_issuer_matches L preferredChain cert
  <-> top_issuer_matchesb L preferredChain cert = true.
Proof.
  unfold top_issuer_matches, top_issuer_matchesb. split.
  - intros (chain & topCert & -> & -> & Hcn). now apply String.eqb_eq.
  - destruct (ParsePEMBundle L (acme.Issuer cert)) as [chain|]; [|discriminate].
    destruct (last chain) as [topCert|] eqn:Hlast; [|discriminate].
    intros Heq. exists chain, topCert.
    split; [reflexivity|]. split; [exact Hlast | now apply String.eqb_eq].
Qed.

(** Where every issuer parses, the range loop stops at the first matching
    entry and otherwise runs to its end; it never fails. *)
Lemma checkResponse_range_run entries certRes preferredChain (s : State W) :
  (forall link cert, In (link, cert) entries -> issuer_parses L cert) ->
  checkResponse_range L entries certRes preferredChain s
  = (Ret (match find (fun e => top_issuer_matchesb L preferredChain (snd e))
                  entries with
          | Some (link, cert) =>
              set_chain certRes (acme.Issuer cert) (acme.Cert cert) link
          | None => certRes
          end, (true, None)), s).
Proof.
  induction entries as [|[link cert] rest IH]; intros Hparse; [reflexivity|].
  cbn [checkResponse_range find snd].
  destruct (Hparse link cert (or_introl eq_refl)) as (chain & topCert & Hp & Hl).
  unfold hasPreferredChain, top_issuer_matchesb at 1. rewrite Hp, Hl.
  destruct (String.eqb (x509.Issuer_CommonName topCert) preferredChain).
  - reflexivity.
  - unfold bind, ret. apply IH. intros l c Hin. apply (Hparse l c). now right.
Qed.

Lemma checkResponse_valid_run order certRes bundle preferredChain
  (s : State W) certs w' :
  acme.Status order = acme.StatusValid ->
  Certificates_GetAll E (acme.Certificate order) bundle (world s)
  = (Ok certs, w') ->
  checkResponse L E order certRes bundle preferredChain s
  = (if String.eqb preferredChain "" then
       ret (set_chain certRes
              (acme.Issuer (default_entry certs (acme.Certificate order)))
              (acme.Cert (default_entry certs (acme.Certificate order)))
              (acme.Certificate order), (true, None))
     else
       checkResponse_range L (map_range E w' certs)
         (set_chain certRes
            (acme.Issuer (default_entry certs (acme.Certificate order)))
            (acme.Cert (default_entry certs (acme.Certificate order)))
            (acme.Certificate order)) preferredChain)
      {| world := w';
         trace := trace s
                  ++ [EvCertificatesGetAll (acme.Certificate order) bundle] |}.
Proof.
  intros Hvalid HG. unfold checkResponse, checkOrderStatus.
  rewrite Hvalid. cbn [String.eqb negb]. rewrite String.eqb_refl.
  cbv beta iota. cbn [negb]. step_call HG. cbv zeta.
  destruct (String.eqb preferredChain ""); reflexivity.
Qed.

End ChainSelection.

(** C3 does not hold as stated.  The alternate chain of this CA has no issuer
    certificates, so its issuer bytes do not parse; no candidate is issued by
    "Root X9".  The claim promises the default entry and success, but
    checkResponse returns the parse error, in either direction of the map
    walk. *)
Lemma chain_selection_counterexample :
  fst (checkResponse Sim.the_lib (Sim.env (Sim.alternate_is_bare false))
         Sim.issued Sim.pending_Resource true "Root X9" (Sim.start []))
  = Ret (set_chain Sim.pending_Resource (bytes_of "CHAIN-X1")
           (bytes_of "LEAF+X1") "https://ca.test/cert/1",
         (false, Some Sim.parse_error))
  /\ fst (checkResponse Sim.the_lib (Sim.env (Sim.alternate_is_bare true))
            Sim.issued Sim.pending_Resource true "Root X9" (Sim.start []))
     = Ret (set_chain Sim.pending_Resource (bytes_of "CHAIN-X1")
              (bytes_of "LEAF+X1") "https://ca.test/cert/1",
            (false, Some Sim.parse_error))
  /\ ~ chain_selection_claim Sim.the_lib
         (Sim.env (Sim.alternate_is_bare false))
         Sim.issued Sim.pending_Resource true "Root X9" (Sim.start [])
         Sim.bare_alternate.
Proof.
  assert (Hrun :
    fst (checkResponse Sim.the_lib (Sim.env (Sim.alternate_is_bare false))
           Sim.issued Sim.pending_Resource true "Root X9" (Sim.start []))
    = Ret (set_chain Sim.pending_Resource (bytes_of "CHAIN-X1")
             (bytes_of "LEAF+X1") "https://ca.test/cert/1",
           (false, Some Sim.parse_error))) by (vm_compute; reflexivity).
  split; [exact Hrun|]. split; [vm_compute; reflexivity|].
  intros (_ & _ & Hnone).
  assert (Hkept : fst (checkResponse Sim.the_lib
                         (Sim.env (Sim.alternate_is_bare false))
                         Sim.issued Sim.pending_Resource true "Root X9"
                         (Sim.start []))
                  = Ret (set_chain Sim.pending_Resource
                           (acme.Issuer (default_entry Sim.bare_alternate
                                           (acme.Certificate Sim.issued)))
                           (acme.Cert (default_entry Sim.bare_alternate
                                         (acme.Certificate Sim.issued)))
                           (acme.Certificate Sim.issued), (true, None))).
  { apply Hnone; [discriminate|].
    intros link cert Hl Hm.
    apply top_issuer_matches_iff in Hm.
    apply elem_of_map_to_list, list_elem_of_In in Hl.
    assert (Hall : forallb
                     (fun e => negb (top_issuer_matchesb Sim.the_lib "Root X9"
                                       (snd e)))
                     (map_to_list Sim.bare_alternate) = true)
      by (vm_compute; reflexivity).
    pose proof (proj1 (forallb_forall _ _) Hall (link, cert) Hl) as Hno.
    cbn [snd] in Hno. rewrite Hm in Hno. discriminate. }
  rewrite Hrun in Hkept. discriminate.
Qed.

(** C3, amended.  For a valid order whose chains the CA returns: without a
    preferred chain the Resource gets the default entry, keyed by the order's
    certificate URL, and checkResponse succeeds.  With a preference, and
    provided the issuer bytes of every candidate parse to a chain with a
    topmost certificate, checkResponse succeeds as well, whatever the order
    of the map walk: if exactly one candidate's topmost issuer certificate is
    issued by the preferred name, that candidate's certificate, issuer bytes
    and URL are stored; if none is, the default entry is kept. *)
Theorem chain_selection {W : Type} (L : Lib) (E : Env W)
  (order : acme.ExtendedOrder) (certRes : Resource) (bundle : bool)
  (preferredChain : string) (s : State W)
  (certs : gmap string acme.RawCertificate) (w' : W) :
  acme.Status order = acme.StatusValid ->
  Certificates_GetAll E (acme.Certificate order) bundle (world s)
  = (Ok certs, w') ->
  let dflt := default_entry certs (acme.Certificate order) in
  let kept :=
    set_chain certRes (acme.Issuer dflt) (acme.Cert dflt)
      (acme.Certificate order) in
  let s' :=
    {| world := w';
       trace := trace s
                ++ [EvCertificatesGetAll (acme.Certificate order) bundle] |} in
  (preferredChain = "" ->
   checkResponse L E order certRes bundle preferredChain s
   = (Ret (kept, (true, None)), s'))
  /\ ((forall link cert, certs !! link = Some cert -> issuer_parses L cert) ->
      preferredChain <> "" ->
      (forall link cert,
          certs !! link = Some cert ->
          top_issuer_matches L preferredChain cert ->
          (forall link' cert',
              certs !! link' = Some cert' ->
              top_issuer_matches L preferredChain cert' -> link' = link) ->
          checkResponse L E order certRes bundle preferredChain s
          = (Ret (set_chain certRes (acme.Issuer cert) (acme.Cert cert) link,
                  (true, None)), s'))
      /\ ((forall link cert,
              certs !! link = Some cert ->
              ~ top_issuer_matches L preferredChain cert) ->
          checkResponse L E order certRes bundle preferredChain s
          = (Ret (kept, (true, None)), s'))).
Proof.
  intros Hvalid HG dflt kept s'.
  pose proof (checkResponse_valid_run L E order certRes bundle preferredChain
                s certs w' Hvalid HG) as Hrun.
  fold dflt in Hrun. fold kept in Hrun. fold s' in Hrun.
  split.
  - intros ->. exact Hrun.
  - intros Hparse Hpref.
    apply String.eqb_neq in Hpref. rewrite Hpref in Hrun.
    rewrite checkResponse_range_run in Hrun.
    2:{ intros l c Hin. apply map_range_lookup in Hin. exact (Hparse l c Hin). }
    rewrite Hrun. clear Hrun.
    destruct (find _ (map_range E w' certs)) as [[l c]|] eqn:Hfind.
    + apply find_some in Hfind as [Hin Hm]. cbn [snd] in Hm.
      apply map_range_lookup in Hin. apply top_issuer_matches_iff in Hm.
      split.
      * intros link cert Hl _ Huniq.
        pose proof (Huniq l c Hin Hm) as ->.
        rewrite Hin in Hl. inversion Hl; subst c. reflexivity.
      * intros Hnone. exfalso. exact (Hnone l c Hin Hm).
    + split; [|reflexivity].
      intros link cert Hl Hm _. exfalso.
      apply (proj2 (map_range_lookup E w' certs link cert)) in Hl.
      apply top_issuer_matches_iff in Hm.
      pose proof (find_none _ _ Hfind (link, cert) Hl) as Hf.
      cbn [snd] in Hf. congruence.
Qed.

(** A run of C3 as amended: of the two chains of the scripted CA only the
    alternate one ends under "Root X2", and it is the one stored. *)
Lemma chain_selection_witness :
  checkResponse Sim.the_lib (Sim.env Sim.happy) Sim.issued
    Sim.pending_Resource true "Root X2" (Sim.start [])
  = (Ret (set_chain Sim.pending_Resource (bytes_of "CHAIN-X2")
            (bytes_of "LEAF+X2") "https://ca.test/cert/1/alt", (true, None)),
     {| world := [];
        trace := [EvCertificatesGetAll "https://ca.test/cert/1" true] |}).
Proof.
  assert (Hx1 : top_issuer_matchesb Sim.the_lib "Root X2"
                  {| acme.Cert := bytes_of "LEAF+X1";
                     acme.Issuer := bytes_of "CHAIN-X1" |} = false)
    by (vm_compute; reflexivity).
  refine (proj1 (proj2 (chain_selection Sim.the_lib (Sim.env Sim.happy)
                          Sim.issued Sim.pending_Resource true "Root X2"
                          (Sim.start []) Sim.two_chains [] eq_refl eq_refl)
                   _ _)
            "https://ca.test/cert/1/alt"
            {| acme.Cert := bytes_of "LEAF+X2";
               acme.Issuer := bytes_of "CHAIN-X2" |} _ _ _).
  - apply map_Forall_insert_2;
      [exists [Sim.root "Root X1"], (Sim.root "Root X1"); split; reflexivity|].
    apply map_Forall_insert_2;
      [exists [Sim.root "Root X2"], (Sim.root "Root X2"); split; reflexivity|].
    apply map_Forall_empty.
  - discriminate.
  - vm_compute. reflexivity.
  - exists [Sim.root "Root X2"], (Sim.root "Root X2"). repeat split; reflexivity.
  - apply (map_Forall_insert_2
             (fun link' cert' =>
                top_issuer_matches Sim.the_lib "Root X2" cert' ->
                link' = "https://ca.test/cert/1/alt")).
    { intros Hm. apply top_issuer_matches_iff in Hm.
      rewrite Hx1 in Hm. discriminate. }
    apply map_Forall_insert_2; [reflexivity|].
    apply map_Forall_empty.
Defined.


(** ** The events of the issuance pipeline *)

Section Emits.
Context {W : Type}.
Variable L : Lib.
Variable E : Env W.
Variable options : CertifierOptions.
Variable P : Event -> Prop.
Hypothesis P_finalize : forall url csr, P (EvUpdateForCSR url csr).
Hypothesis P_wait :
  P (EvWaitFor "certificate" (poll_timeout options)
       (poll_timeout options ÷ 60)%Z).
Hypothesis P_get : forall location, P (EvOrdersGet location).
Hypothesis P_all : forall url bundle, P (EvCertificatesGetAll url bundle).

Lemma emits_hasPreferredChain issuer preferredChain :
  emits (W:=W) P (hasPreferredChain L issuer preferredChain).
Proof. unfold hasPreferredChain. emits_along idtac. Qed.

Lemma emits_checkResponse_range entries certRes preferredChain :
  emits (W:=W) P (checkResponse_range L entries certRes preferredChain).
Proof.
  induction entries as [|[link cert] rest IH]; simpl.
  - apply emits_ret.
  - apply emits_bind; [apply emits_hasPreferredChain|].
    intros [ok err]. destruct err; [apply emits_ret|].
    destruct ok; [apply emits_ret | exact IH].
Qed.

Lemma emits_checkResponse order certRes bundle preferredChain :
  emits P (checkResponse L E order certRes bundle preferredChain).
Proof.
  unfold checkResponse. destruct (checkOrderStatus order) as [valid err].
  destruct err; [apply emits_ret|].
  destruct (negb valid); [apply emits_ret|].
  apply emits_bind; [apply emits_call; apply P_all|].
  intros [certs|e]; [|apply emits_ret]. cbv zeta.
  destruct (String.eqb preferredChain ""); [apply emits_ret|].
  apply emits_bind; [apply emits_peek|].
  intros entries. apply emits_checkResponse_range.
Qed.

Lemma emits_poll_step order bundle preferredChain certRes :
  emits P (poll_step L E order bundle preferredChain certRes).
Proof.
  unfold poll_step.
  apply emits_bind; [apply emits_call; apply P_get|].
  intros [ord|e]; [|apply emits_ret].
  apply emits_bind; [apply emits_checkResponse|].
  intros [r [done [e|]]]; apply emits_ret.
Qed.

Lemma emits_wait_loop order bundle preferredChain samples msg certRes :
  emits P (wait_loop samples msg (poll_step L E order bundle preferredChain)
             certRes).
Proof.
  revert certRes. induction samples as [|n IH]; intros certRes; simpl.
  - apply emits_ret.
  - apply emits_bind; [apply emits_poll_step|].
    intros [r [stop err]]. destruct stop; [apply emits_ret|].
    destruct err; [apply emits_ret | apply IH].
Qed.

Lemma emits_getForCSR domains order bundle csr privateKeyPem preferredChain :
  emits P (getForCSR L E options domains order bundle csr privateKeyPem
             preferredChain).
Proof.
  unfold getForCSR.
  apply emits_bind; [apply emits_call; apply P_finalize|].
  intros [respOrder|e]; [|apply emits_ret].
  destruct domains as [|domain0 rest]; [apply emits_panic|]. cbv zeta.
  assert (Hpoll : forall r,
    emits P
      (bind (wait_For E "certificate" (poll_timeout options)
               (poll_timeout options ÷ 60)%Z
               (poll_step L E order bundle preferredChain) r)
         (fun x => let '(certRes', err) := x in ret (Some certRes', err)))).
  { intros r. apply emits_bind.
    - unfold wait_For. apply emits_bind; [apply emits_call; exact P_wait|].
      intros n. apply emits_wait_loop.
    - intros [r' err]. apply emits_ret. }
  destruct (String.eqb (acme.Status respOrder) acme.StatusValid);
    [|apply Hpoll].
  apply emits_bind; [apply emits_checkResponse|].
  intros [r' [ok [e|]]]; [apply emits_ret|].
  destruct ok; [apply emits_ret | apply Hpoll].
Qed.

End Emits.

Lemma wait_For_run {W S : Type} (E : Env W) msg timeout interval
  (f : S -> M W (S * (bool * option error))) (r : S) (w : W) tr :
  wait_For E msg timeout interval f r {| world := w; trace := tr |}
  = wait_loop (wait_samples E timeout interval w) msg f r
      {| world := w; trace := tr ++ [EvWaitFor msg timeout interval] |}.
Proof. reflexivity. Qed.

(** getForCSR, once the finalize answer is known not to be valid yet: the
    wait primitive is called next. *)
Lemma getForCSR_waits {W : Type} (L : Lib) (E : Env W) options domain0 rest
  order bundle csr privateKeyPem preferredChain (s : State W) respOrder w1 :
  Orders_UpdateForCSR E (acme.Finalize order) csr (world s)
  = (Ok respOrder, w1) ->
  acme.Status respOrder <> acme.StatusValid ->
  exists evs,
    trace (snd (getForCSR L E options (domain0 :: rest) order bundle csr
                  privateKeyPem preferredChain s))
    = trace s
      ++ [EvUpdateForCSR (acme.Finalize order) csr;
          EvWaitFor "certificate" (poll_timeout options)
            (poll_timeout options ÷ 60)%Z]
      ++ evs.
Proof.
  intros Hfin Hvalid. unfold getForCSR. step_call Hfin. cbv zeta.
  apply String.eqb_neq in Hvalid. rewrite Hvalid.
  unfold bind at 1. rewrite wait_For_run.
  match goal with
  | |- context [wait_loop ?n ?msg ?f ?r ?s0] =>
      assert (Hem : emits (fun _ : Event => True) (wait_loop n msg f r))
        by (apply emits_wait_loop; intros; exact I);
      destruct (wait_loop n msg f r s0) as [o s3] eqn:Hloop;
      destruct (Hem _ _ _ Hloop) as (evs & Ht & _)
  end.
  exists evs. cbn [trace] in Ht.
  destruct o as [[r err]|site]; cbn [snd ret]; rewrite Ht, <- !app_assoc;
    reflexivity.
Qed.

(** ** The poll budget *)

Lemma poll_timeout_cases (options : CertifierOptions) :
  poll_timeout options
  = (if (0 <? Timeout options)%Z then Timeout options else 30 * time.Second)%Z
  /\ (0 < poll_timeout options)%Z.
Proof.
  unfold poll_timeout, time.Second, time.Nanosecond.
  destruct (Z.leb_spec (Timeout options) 0), (Z.ltb_spec 0 (Timeout options));
    lia.
Qed.

Lemma wait_event_ok_poll (options : CertifierOptions) :
  wait_event_ok options
    (EvWaitFor "certificate" (poll_timeout options)
       (poll_timeout options ÷ 60)%Z).
Proof.
  destruct (poll_timeout_cases options) as [Ht Hpos].
  cbn [wait_event_ok]. split; [reflexivity|]. split; [exact Ht|].
  split; [reflexivity|]. apply Z.quot_div_nonneg; lia.
Qed.

(** C6. Every call of the wait primitive that [getForCSR] makes carries as
    total timeout [CertifierOptions.Timeout] when that is positive and 30
    seconds otherwise, and as sampling interval that timeout divided by 60;
    and getForCSR does make this call whenever the finalize answer is not
    valid yet. *)
Theorem poll_timeout_and_interval {W : Type} (L : Lib) (E : Env W)
  (options : CertifierOptions) (domains : list string)
  (order : acme.ExtendedOrder) (bundle : bool) (csr privateKeyPem : bytes)
  (preferredChain : string) (s : State W) :
  let timeout :=
    (if (0 <? Timeout options)%Z then Timeout options
     else 30 * time.Second)%Z in
  exists evs,
    trace (snd (getForCSR L E options domains order bundle csr privateKeyPem
                  preferredChain s))
    = trace s ++ evs
    /\ Forall (wait_event_ok options) evs
    /\ (forall respOrder w1,
          Orders_UpdateForCSR E (acme.Finalize order) csr (world s)
          = (Ok respOrder, w1) ->
          acme.Status respOrder <> acme.StatusValid ->
          domains <> [] ->
          In (EvWaitFor "certificate" timeout (timeout / 60)%Z) evs).
Proof.
  intros timeout.
  destruct (getForCSR L E options domains order bundle csr privateKeyPem
              preferredChain s) as [o s'] eqn:Hrun.
  assert (Hem : emits (wait_event_ok options)
                  (getForCSR L E options domains order bundle csr
                     privateKeyPem preferredChain)).
  { apply emits_getForCSR; intros; try exact I. apply wait_event_ok_poll. }
  destruct (Hem _ _ _ Hrun) as (evs & Ht & Hall).
  exists evs. split; [exact Ht|]. split; [exact Hall|].
  intros respOrder w1 Hfin Hvalid Hne.
  destruct domains as [|domain0 rest]; [contradiction|].
  destruct (getForCSR_waits L E options domain0 rest order bundle csr
              privateKeyPem preferredChain s respOrder w1 Hfin Hvalid)
    as (evs' & Ht').
  rewrite Hrun in Ht'. cbn [snd] in *. rewrite Ht in Ht'.
  apply app_inv_head in Ht'. subst evs.
  destruct (poll_timeout_cases options) as [Hcase Hpos].
  right. left. unfold timeout. rewrite <- Hcase. f_equal.
  apply Z.quot_div_nonneg; lia.
Qed.

(** A run of C6 with no timeout configured: the wait is for 30 s, sampled
    every 500 ms. *)
Lemma poll_timeout_and_interval_witness :
  exists evs,
    trace (snd (getForCSR Sim.the_lib (Sim.env Sim.happy) (Sim.options 0)
                  Sim.two_domains Sim.waiting true (bytes_of "CSR-DER")
                  (bytes_of "KEY") "" (Sim.start Sim.happy_polls)))
    = [] ++ evs
    /\ In (EvWaitFor "certificate" 30000000000 500000000) evs.
Proof.
  destruct (poll_timeout_and_interval Sim.the_lib (Sim.env Sim.happy)
              (Sim.options 0) Sim.two_domains Sim.waiting true
              (bytes_of "CSR-DER") (bytes_of "KEY") ""
              (Sim.start Sim.happy_polls)) as (evs & Ht & _ & Hin).
  exists evs. split; [exact Ht|].
  apply (Hin (Sim.order acme.StatusProcessing Sim.two_domains None)
           Sim.happy_polls); [reflexivity | discriminate | discriminate].
Defined.

(** ** CommonName and SAN of the CSR *)

Section SanFacts.
Variable commonName : string.

Lemma san_fold (identifiers : list acme.Identifier) (acc : list string) :
  fold_left (san_step commonName) identifiers acc
  = acc ++ List.filter (fun v => negb (String.eqb v commonName))
             (map acme.Value identifiers).
Proof.
  revert acc. induction identifiers as [|auth rest IH]; intros acc; simpl.
  - now rewrite app_nil_r.
  - rewrite IH. unfold san_step.
    destruct (String.eqb (acme.Value auth) commonName); simpl; [reflexivity|].
    now rewrite <- app_assoc.
Qed.



End SanFacts.





(** ** The poll loop *)

Section PollFacts.
Context {W : Type}.
Variable L : Lib.
Variable E : Env W.







End PollFacts.



(** The three status sequences of the spec's end-to-end scenario 3, with a
    budget of three samples. *)
Example poll_pending_pending_valid :
  fst (wait_loop 3 "certificate"
         (poll_step Sim.the_lib (Sim.env Sim.happy) Sim.waiting true "")
         Sim.pending_Resource
         (Sim.start [Ok Sim.waiting; Ok Sim.waiting; Ok Sim.issued]))
  = Ret (set_chain Sim.pending_Resource (bytes_of "CHAIN-X1")
           (bytes_of "LEAF+X1") "https://ca.test/cert/1", None).
Proof. vm_compute. reflexivity. Qed.

Example poll_pending_invalid :
  fst (wait_loop 3 "certificate"
         (poll_step Sim.the_lib (Sim.env Sim.happy) Sim.waiting true "")
         Sim.pending_Resource (Sim.start [Ok Sim.waiting; Ok Sim.rejected]))
  = Ret (Sim.pending_Resource,
         Some (Errorf_w "invalid order" (Some (ProblemError Sim.problem)))).
Proof. vm_compute. reflexivity. Qed.

Example poll_stays_pending :
  fst (wait_loop 3 "certificate"
         (poll_step Sim.the_lib (Sim.env Sim.happy) Sim.waiting true "")
         Sim.pending_Resource
         (Sim.start [Ok Sim.waiting; Ok Sim.waiting; Ok Sim.waiting;
                     Ok Sim.waiting]))
  = Ret (Sim.pending_Resource, Some (TimeLimitExceeded "certificate")).
Proof. vm_compute. reflexivity. Qed.

(** ** Renewal *)

(** C8. Given a stored certificate whose bundle parses: if its first entry
    is a CA certificate, RenewWithOptions returns an error and makes no call
    at all.  Otherwise, with a non-empty CSR field it decodes that CSR and
    runs ObtainForCSR on it, and the MustStaple and EmailAddresses of the
    options have no influence; with an empty CSR field it runs Obtain on the
    domains extracted from the stored certificate, with the stored private
    key parsed and passed on when there is one. *)
Theorem RenewWithOptions_dispatch {W : Type} (L : Lib) (E : Env W)
  (options : CertifierOptions) (certRes : Resource)
  (ropts : option RenewOptions.t) (x509Cert : x509.Certificate)
  (rest : list x509.Certificate) :
  ParsePEMBundle L (Certificate certRes) = Ok (x509Cert :: rest) ->
  (x509.IsCA x509Cert = true ->
   forall s,
     RenewWithOptions L E options certRes ropts s
     = (Ret (None,
             Some (errors_New
                     ("[" ++ Domain certRes
                      ++ "] Certificate bundle starts with a CA certificate"))),
        s))
  /\ (x509.IsCA x509Cert = false ->
      0 < len_bytes (CSR certRes) ->
      RenewWithOptions L E options certRes ropts
      = match PemDecodeTox509CSR L (CSR certRes) with
        | Err errP => ret (None, Some errP)
        | Ok csr => ObtainForCSR L E options (renew_csr_request csr ropts)
        end
      /\ (forall csr,
            ObtainForCSRRequest.CSR (renew_csr_request csr ropts) = Some csr)
      /\ (forall o mustStaple emailAddresses,
            RenewWithOptions L E options certRes
              (Some (with_staple_and_emails o mustStaple emailAddresses))
            = RenewWithOptions L E options certRes (Some o)))
  /\ (x509.IsCA x509Cert = false ->
      len_bytes (CSR certRes) = 0 ->
      RenewWithOptions L E options certRes ropts
      = match PrivateKey certRes with
        | None =>
            Obtain L E options
              (renew_request (ExtractDomains L x509Cert) None ropts)
        | Some _ =>
            match ParsePEMPrivateKey L (PrivateKey certRes) with
            | Ok key =>
                Obtain L E options
                  (renew_request (ExtractDomains L x509Cert) (Some key) ropts)
            | Err err => ret (None, Some err)
            end
        end
      /\ (forall domains key,
            ObtainRequest.Domains (renew_request domains key ropts) = domains
            /\ ObtainRequest.PrivateKey (renew_request domains key ropts)
               = key)
      /\ (forall domains key o,
            ObtainRequest.MustStaple (renew_request domains key (Some o))
            = RenewOptions.MustStaple o
            /\ ObtainRequest.EmailAddresses
                 (renew_request domains key (Some o))
               = RenewOptions.EmailAddresses o)).
Proof.
  intros Hparse. split; [|split].
  - intros HCA s. unfold RenewWithOptions. rewrite Hparse, HCA. reflexivity.
  - intros HCA Hlen.
    assert (Hltb : (0 <? len_bytes (CSR certRes))%nat = true)
      by now apply Nat.ltb_lt.
    split; [|split].
    + unfold RenewWithOptions. rewrite Hparse, HCA, Hltb. reflexivity.
    + intros csr. now destruct ropts.
    + intros o mustStaple emailAddresses.
      unfold RenewWithOptions. rewrite Hparse, HCA, Hltb. reflexivity.
  - intros HCA Hlen.
    assert (Hltb : (0 <? len_bytes (CSR certRes))%nat = false)
      by (rewrite Hlen; reflexivity).
    split; [|split].
    + unfold RenewWithOptions. rewrite Hparse, HCA, Hltb.
      destruct (PrivateKey certRes); [|reflexivity].
      destruct (ParsePEMPrivateKey L _); reflexivity.
    + intros domains key. now destruct ropts.
    + intros domains key o. now split.
Qed.

(** A run of C8: the stored bundle starts with the root certificate. *)
Lemma RenewWithOptions_dispatch_witness :
  RenewWithOptions Sim.the_lib (Sim.env Sim.happy) (Sim.options 0)
    (Sim.stored "ROOT-ONLY" (bytes_of "KEY") None)
    (Some (Sim.renew_options true)) (Sim.start Sim.happy_polls)
  = (Ret (None,
          Some (errors_New
                  "[example.com] Certificate bundle starts with a CA certificate")),
     Sim.start Sim.happy_polls).
Proof.
  exact (proj1 (RenewWithOptions_dispatch Sim.the_lib (Sim.env Sim.happy)
                  (Sim.options 0)
                  (Sim.stored "ROOT-ONLY" (bytes_of "KEY") None)
                  (Some (Sim.renew_options true)) (Sim.root "Root X1") []
                  eq_refl)
           eq_refl (Sim.start Sim.happy_polls)).
Defined.

(** Renewal of a Resource that carries its CSR, and of one that carries its
    key: both re-enter the issuance flow and obtain the certificate; the
    MustStaple flag only reaches the CSR of the second. *)
Example renew_with_stored_CSR :
  fst (RenewWithOptions Sim.the_lib (Sim.env Sim.happy) (Sim.options 0)
         (Sim.stored "LEAF+X1" None (bytes_of "CSR"))
         (Some (Sim.renew_options true)) (Sim.start Sim.happy_polls))
  = fst (ObtainForCSR Sim.the_lib (Sim.env Sim.happy) (Sim.options 0)
           (Sim.csr_request false) (Sim.start Sim.happy_polls)).
Proof. vm_compute. reflexivity. Qed.

Example renew_with_stored_key :
  In (EvCreateCSR (KeyHandle 7)
        {| certcrypto.Domain := "example.com";
           certcrypto.SAN := ["example.com"; "www.example.com"];
           certcrypto.MustStaple := true;
           certcrypto.EmailAddresses := [] |})
     (firstn 4
        (trace (snd (RenewWithOptions Sim.the_lib (Sim.env Sim.happy)
                       (Sim.options 0)
                       (Sim.stored "LEAF+X1" (bytes_of "KEY") None)
                       (Some (Sim.renew_options true))
                       (Sim.start Sim.happy_polls))))).
Proof.
  assert (H : firstn 4
            (trace (snd (RenewWithOptions Sim.the_lib (Sim.env Sim.happy)
                           (Sim.options 0)
                           (Sim.stored "LEAF+X1" (bytes_of "KEY") None)
                           (Some (Sim.renew_options true))
                           (Sim.start Sim.happy_polls))))
          = [EvNewOrder Sim.two_domains
               {| api.NotBefore := 0; api.NotAfter := 0; api.Profile := "";
                  api.ReplacesCertID := "" |};
             EvGetAuthorizations Sim.waiting;
             EvSolve [Sim.authorization "example.com";
                      Sim.authorization "www.example.com"];
             EvCreateCSR (KeyHandle 7)
               {| certcrypto.Domain := "example.com";
                  certcrypto.SAN := ["example.com"; "www.example.com"];
                  certcrypto.MustStaple := true;
                  certcrypto.EmailAddresses := [] |}])
    by (vm_compute; reflexivity).
  rewrite H. do 3 right. now left.
Qed.

(** ** The first sanitized domain *)

Section Bounds.
Context {W : Type}.
Variable L : Lib.
Variable E : Env W.
Variable options : CertifierOptions.

Lemma deactivateAuthorizations_no_panic {A : Type} order force
  (k : unit -> M W A) (s : State W) site s' :
  bind (deactivateAuthorizations E order force) k s = (Panic site, s') ->
  exists s1, k tt s1 = (Panic site, s').
Proof.
  destruct (deactivateAuthorizations_run E order force s) as (w' & Hd).
  rewrite (bind_Ret _ _ _ _ _ Hd). intros H. eauto.
Qed.

(** Obtain can only panic inside the issuance pipeline. *)
Lemma Obtain_panic_inv request (s : State W) site s' :
  Obtain L E options request s = (Panic site, s') ->
  site = Panic_hasPreferredChain_top
  \/ ((site = Panic_getForOrder_domains0 \/ site = Panic_getForCSR_domains0)
      /\ sanitizeDomain L (ObtainRequest.Domains request) = []).
Proof.
  unfold Obtain.
  destruct (length (ObtainRequest.Domains request) =? 0)%nat.
  { intros H. apply ret_inv in H as [H _]. discriminate. }
  cbv zeta. intros H.
  apply bind_inv in H as [(o & s1 & H1 & H2)|(x & H1 & _)].
  2:{ apply call_inv in H1 as [H1 _]. discriminate. }
  destruct o as [order|e].
  2:{ apply ret_inv in H2 as [H2 _]. discriminate. }
  apply bind_inv in H2 as [(a & s2 & H2 & H3)|(x & H2 & _)].
  2:{ apply call_inv in H2 as [H2 _]. discriminate. }
  destruct a as [authz|e].
  2:{ apply deactivateAuthorizations_no_panic in H3 as (s3 & H3).
      apply ret_inv in H3 as [H3 _]. discriminate. }
  apply bind_inv in H3 as [(so & s3 & H3 & H4)|(x & H3 & _)].
  2:{ apply call_inv in H3 as [H3 _]. discriminate. }
  destruct so as [err|].
  { apply deactivateAuthorizations_no_panic in H4 as (s4 & H4).
    apply ret_inv in H4 as [H4 _]. discriminate. }
  apply bind_inv in H4 as [([cert err] & s4 & H4 & H5)|(x & H4 & Hx)].
  { apply finish_inv in H5. discriminate. }
  inversion Hx; subst x. exact (getForOrder_inv L E options _ _ _ _ _ _ H4).
Qed.

End Bounds.

Lemma sanitizeDomain_none (L : Lib) (domains : list string) :
  (forall d, In d domains -> converts L d = false) ->
  sanitizeDomain L domains = [].
Proof.
  induction domains as [|d ds IH]; intros Hnone; [reflexivity|].
  change (d :: ds) with ([d] ++ ds).
  rewrite sanitizeDomain_app, sanitizeDomain_singleton.
  pose proof (Hnone d (or_introl eq_refl)) as Hd. unfold converts in Hd.
  destruct (idna_ToASCII L d); [discriminate|].
  apply IH. intros d' Hin. apply Hnone. now right.
Qed.

(** C9. Obtain tests for an empty domain list on the raw request only: an
    empty request is refused before any call.  When at least one requested
    domain converts to ASCII, the sanitized list is not empty and neither
    [domains[0]] of getForOrder nor [domains[0]] of getForCSR is out of
    range.  The precondition is needed: when no requested domain converts
    and the calls up to the private key succeed, the sanitized list is empty,
    nothing checks it again, and getForOrder's [domains[0]] panics - as for
    the request that names only "bad name". *)
Theorem first_domain_in_bounds :
  (forall (W : Type) (L : Lib) (E : Env W) options request (s : State W),
      ObtainRequest.Domains request = [] ->
      Obtain L E options request s
      = (Ret (None,
              Some (errors_New "no domains to obtain a certificate for")), s))
  /\ (forall (W : Type) (L : Lib) (E : Env W) options request (s : State W),
      (exists d, In d (ObtainRequest.Domains request) /\ converts L d = true) ->
      sanitizeDomain L (ObtainRequest.Domains request) <> []
      /\ fst (Obtain L E options request s) <> Panic Panic_getForOrder_domains0
      /\ fst (Obtain L E options request s) <> Panic Panic_getForCSR_domains0)
  /\ (forall (W : Type) (L : Lib) (E : Env W) options request (s : State W)
        order authz w3 privateKey w4,
      ObtainRequest.Domains request <> [] ->
      (forall d, In d (ObtainRequest.Domains request) -> converts L d = false) ->
      reaches_Solve E (sanitizeDomain L (ObtainRequest.Domains request))
        (Obtain_orderOpts request) (world s) order authz None w3 ->
      ObtainRequest.PrivateKey request = None ->
      GeneratePrivateKey E (KeyType options) w3 = (Ok privateKey, w4) ->
      fst (Obtain L E options request s) = Panic Panic_getForOrder_domains0)
  /\ fst (Obtain Sim.the_lib (Sim.env Sim.happy) (Sim.options 0)
            (Sim.request Sim.unusable "" false) (Sim.start []))
     = Panic Panic_getForOrder_domains0.
Proof.
  split; [|split; [|split]].
  - intros W L E options request s Hnil. unfold Obtain. now rewrite Hnil.
  - intros W L E options request s Hsome.
    pose proof (sanitizeDomain_nonempty L _ Hsome) as Hne.
    split; [exact Hne|].
    destruct (Obtain L E options request s) as [o s'] eqn:Hrun. cbn [fst].
    split; intros ->;
      apply Obtain_panic_inv in Hrun as [Hrun|[_ Hrun]];
      try discriminate; contradiction.
  - intros W L E options request s order authz w3 privateKey w4
      Hne Hnone Hreach Hkey Hgen.
    assert (Hsan : sanitizeDomain L (ObtainRequest.Domains request) = []).
    { now apply sanitizeDomain_none. }
    rewrite (Obtain_reaches_Solve L E options request s _ _ _ _ Hne Hreach).
    rewrite Hsan. unfold getForOrder. rewrite Hkey.
    unfold bind at 1. unfold bind at 1.
    rewrite (call_run_at _ _ _ _ _ _ Hgen). reflexivity.
  - vm_compute. reflexivity.
Qed.

(** A run of C9: one of the two requested names converts. *)
Lemma first_domain_in_bounds_witness :
  sanitizeDomain Sim.the_lib ["bad name"; "example.com"] <> []
  /\ fst (Obtain Sim.the_lib (Sim.env Sim.happy) (Sim.options 0)
            (Sim.request ["bad name"; "example.com"] "" false)
            (Sim.start Sim.happy_polls))
     <> Panic Panic_getForOrder_domains0
  /\ fst (Obtain Sim.the_lib (Sim.env Sim.happy) (Sim.options 0)
            (Sim.request ["bad name"; "example.com"] "" false)
            (Sim.start Sim.happy_polls))
     <> Panic Panic_getForCSR_domains0.
Proof.
  apply (proj1 (proj2 first_domain_in_bounds) Sim.World Sim.the_lib
           (Sim.env Sim.happy) (Sim.options 0)
           (Sim.request ["bad name"; "example.com"] "" false)
           (Sim.start Sim.happy_polls)).
  exists "example.com". split; [right; now left | reflexivity].
Defined.

(** * Further properties of certificates.go *)

(** ** Revocation *)

Section NetFacts.
Context {W : Type}.

Lemma net_ret_inv {A : Type} (a : A) (s : NetState W) o s' :
  net_ret a s = (o, s') -> o = Done a /\ s' = s.
Proof. unfold net_ret. intros H. now inversion H. Qed.

Lemma net_panic_inv {A : Type} site (s : NetState W) (o : NetOutcome A) s' :
  net_panic site s = (o, s') -> o = Crash site /\ s' = s.
Proof. unfold net_panic. intros H. now inversion H. Qed.

Lemma net_call_inv {A : Type} c (f : W -> A * W) (s : NetState W) o s' :
  net_call c f s = (o, s') ->
  o = Done (fst (f (net_world s)))
  /\ s' = {| net_world := snd (f (net_world s));
             net_calls := net_calls s ++ [c] |}.
Proof.
  unfold net_call. destruct (f (net_world s)) as [a w']. intros H.
  now inversion H.
Qed.

Lemma net_bind_inv {A B : Type} (m : NetM W A) (k : A -> NetM W B) s o s' :
  net_bind m k s = (o, s') ->
  (exists a s1, m s = (Done a, s1) /\ k a s1 = (o, s'))
  \/ (exists site, m s = (Crash site, s') /\ o = Crash site).
Proof.
  unfold net_bind. destruct (m s) as [[a|site] s1]; intros H.
  - left. now exists a, s1.
  - right. exists site. now inversion H.
Qed.

Lemma net_bind_Done {A B : Type} (m : NetM W A) (k : A -> NetM W B) s a s1 :
  m s = (Done a, s1) -> net_bind m k s = k a s1.
Proof. intros H. unfold net_bind. now rewrite H. Qed.

Lemma net_bind_ret {A B : Type} (a : A) (k : A -> NetM W B) (s : NetState W) :
  net_bind (net_ret a) k s = k a s.
Proof. reflexivity. Qed.

Lemma net_call_run {A : Type} c (f : W -> A * W) (s : NetState W) a w' :
  f (net_world s) = (a, w') ->
  net_call c f s
  = (Done a, {| net_world := w'; net_calls := net_calls s ++ [c] |}).
Proof. intros H. unfold net_call. now rewrite H. Qed.

End NetFacts.

(** X1. RevokeWithReason (and so Revoke) returns an error and makes no call
    when the bundle does not parse, and when the first certificate of the
    bundle is a CA certificate. *)
Theorem Revoke_rejects_without_call {W : Type} (L : Lib) (O : OCSPLib)
  (N : NetEnv W) (cert : bytes) (reason : option Z) (s : NetState W) :
  (forall e,
      ParsePEMBundle L cert = Err e ->
      RevokeWithReason L O N cert reason s = (Done (Some e), s)
      /\ Revoke L O N cert s = (Done (Some e), s))
  /\ (forall x509Cert rest,
      ParsePEMBundle L cert = Ok (x509Cert :: rest) ->
      x509.IsCA x509Cert = true ->
      RevokeWithReason L O N cert reason s
      = (Done (Some (errors_New
                       "certificate bundle starts with a CA certificate")), s)
      /\ Revoke L O N cert s
         = (Done (Some (errors_New
                          "certificate bundle starts with a CA certificate")),
            s)).
Proof.
  split.
  - intros e Hp. unfold Revoke, RevokeWithReason. now rewrite Hp.
  - intros c rest Hp HCA. unfold Revoke, RevokeWithReason.
    now rewrite Hp, HCA.
Qed.

Lemma Revoke_rejects_without_call_witness :
  RevokeWithReason SimNet.the_lib SimNet.ocsp_lib SimNet.net
    (bytes_of "ROOT-ONLY") (Some 1%Z) SimNet.start
  = (Done (Some (errors_New
                   "certificate bundle starts with a CA certificate")),
     SimNet.start)
  /\ Revoke SimNet.the_lib SimNet.ocsp_lib SimNet.net (bytes_of "ROOT-ONLY")
       SimNet.start
     = (Done (Some (errors_New
                      "certificate bundle starts with a CA certificate")),
        SimNet.start).
Proof.
  exact (proj2 (Revoke_rejects_without_call SimNet.the_lib SimNet.ocsp_lib
                  SimNet.net (bytes_of "ROOT-ONLY") (Some 1%Z) SimNet.start)
           (Sim.root "Root X1") [] eq_refl eq_refl).
Defined.

(** X2. For a bundle whose first certificate is not a CA certificate,
    RevokeWithReason makes exactly one call: it asks the CA to revoke that
    first certificate, sent as the base64url form of its raw bytes together
    with the reason, and returns the CA's answer.  The other certificates of
    the bundle play no part, and Revoke is the same with no reason. *)
Theorem Revoke_sends_first_certificate {W : Type} (L : Lib) (O : OCSPLib)
  (N : NetEnv W) (cert : bytes) (reason : option Z) (s : NetState W)
  (x509Cert : x509.Certificate) (rest : list x509.Certificate) :
  ParsePEMBundle L cert = Ok (x509Cert :: rest) ->
  x509.IsCA x509Cert = false ->
  let msg r :=
    {| Revoke_Certificate :=
         base64_RawURLEncoding_EncodeToString O (x509.Raw x509Cert);
       Revoke_Reason := r |} in
  RevokeWithReason L O N cert reason s
  = (Done (fst (Certificates_Revoke N (msg reason) (net_world s))),
     {| net_world := snd (Certificates_Revoke N (msg reason) (net_world s));
        net_calls := net_calls s ++ [CallRevoke (msg reason)] |})
  /\ Revoke L O N cert s
     = (Done (fst (Certificates_Revoke N (msg None) (net_world s))),
        {| net_world := snd (Certificates_Revoke N (msg None) (net_world s));
           net_calls := net_calls s ++ [CallRevoke (msg None)] |}).
Proof.
  intros Hp HCA msg. unfold Revoke, RevokeWithReason. rewrite Hp, HCA.
  cbv zeta. fold (msg reason). fold (msg None). unfold net_call.
  destruct (Certificates_Revoke N (msg reason) (net_world s));
    destruct (Certificates_Revoke N (msg None) (net_world s)); now split.
Qed.

Lemma Revoke_sends_first_certificate_witness :
  RevokeWithReason SimNet.the_lib SimNet.ocsp_lib SimNet.net
    (bytes_of "LEAF+X1") (Some 4%Z) SimNet.start
  = (Done None,
     {| net_world := 1;
        net_calls :=
          [CallRevoke {| Revoke_Certificate := "b64:LEAF-DER";
                         Revoke_Reason := Some 4%Z |}] |}).
Proof.
  exact (proj1 (Revoke_sends_first_certificate SimNet.the_lib SimNet.ocsp_lib
                  SimNet.net (bytes_of "LEAF+X1") (Some 4%Z) SimNet.start
                  (Sim.leaf Sim.two_domains) [Sim.root "Root X1"]
                  eq_refl eq_refl)).
Defined.

(** ** OCSP *)

Section OCSPFacts.
Context {W : Type}.
Variable L : Lib.
Variable O : OCSPLib.
Variable N : NetEnv W.

Lemma read_body_inv resp b :
  read_body resp = Ok b ->
  b = Some (Body_data resp)
  /\ (Z.of_nat (length (Body_data resp)) <= maxBodySize)%Z.
Proof.
  unfold read_body.
  destruct (Z.ltb_spec maxBodySize (Z.of_nat (length (Body_data resp))));
    [discriminate|].
  destruct (Body_failure resp); [discriminate|].
  intros Hok. inversion Hok. now split.
Qed.

Lemma fetch_issuer_inv issuedCert certificates (s : NetState W) o s' :
  fetch_issuer O N issuedCert certificates s = (o, s') ->
  exists r,
    o = Done r
    /\ match r with
       | Ok certificates' =>
           exists issuerCert, certificates' = certificates ++ [issuerCert]
       | Err _ => True
       end.
Proof.
  unfold fetch_issuer.
  destruct (IssuingCertificateURL O issuedCert) as [|url0 urls].
  { intros H. apply net_ret_inv in H as [-> _]. eexists. now split. }
  intros H. apply net_bind_inv in H as [(r & s1 & H1 & H2)|(site & H1 & _)].
  2:{ apply net_call_inv in H1 as [H1 _]. discriminate. }
  destruct r as [resp|e].
  2:{ apply net_ret_inv in H2 as [-> _]. eexists. now split. }
  destruct (read_body resp) as [issuerBytes|e].
  2:{ apply net_ret_inv in H2 as [-> _]. eexists. now split. }
  destruct (x509_ParseCertificate O issuerBytes) as [issuerCert|e];
    apply net_ret_inv in H2 as [-> _]; eexists; split; try reflexivity.
  now exists issuerCert.
Qed.

(** What GetOCSP can hand back. *)
Lemma GetOCSP_inv bundle (s : NetState W) o s' :
  GetOCSP L O N bundle s = (o, s') ->
  match o with
  | Crash site =>
      site = Panic_GetOCSP_certificates0
      /\ ParsePEMBundle L bundle = Ok [] /\ s' = s
  | Done (raw, parsed, err) =>
      match err with
      | Some _ => raw = None /\ parsed = None
      | None =>
          exists data res server request calls,
            raw = Some data /\ parsed = Some res
            /\ (Z.of_nat (length data) <= maxBodySize)%Z
            /\ net_calls s' = calls ++ [ocsp_post server request]
      end
  end.
Proof.
  unfold GetOCSP.
  destruct (ParsePEMBundle L bundle) as [certificates|e].
  2:{ intros H. apply net_ret_inv in H as [-> _]. now split. }
  destruct certificates as [|issuedCert others].
  { intros H. apply net_panic_inv in H as [-> ->]. now repeat split. }
  destruct (OCSPServer O issuedCert) as [|ocspServer0 servers].
  { intros H. apply net_ret_inv in H as [-> _]. now split. }
  intros H. apply net_bind_inv in H as [(r & s1 & H1 & H2)|(site & H1 & _)].
  2:{ exfalso. destruct (length (issuedCert :: others) =? 1)%nat.
      - apply fetch_issuer_inv in H1 as (r & Hr & _). discriminate.
      - apply net_ret_inv in H1 as [H1 _]. discriminate. }
  assert (Hsecond : match r with
                    | Ok certificates' =>
                        exists issuerCert,
                          nth_error certificates' 1 = Some issuerCert
                    | Err _ => True
                    end).
  { destruct others as [|second rest]; cbn [length Nat.eqb] in H1.
    - apply fetch_issuer_inv in H1 as (r' & Hr & Hr').
      inversion Hr; subst r'. destruct r as [certificates'|]; [|exact I].
      destruct Hr' as (issuerCert & ->). now exists issuerCert.
    - apply net_ret_inv in H1 as [Hr _]. inversion Hr; subst r.
      now exists second. }
  destruct r as [certificates'|e].
  2:{ apply net_ret_inv in H2 as [-> _]. now split. }
  destruct Hsecond as (issuerCert & Hnth). rewrite Hnth in H2.
  destruct (ocsp_CreateRequest O issuedCert issuerCert) as [ocspReq|e].
  2:{ apply net_ret_inv in H2 as [-> _]. now split. }
  apply net_bind_inv in H2 as [(p & s2 & H2 & H3)|(site & H2 & _)].
  2:{ apply net_call_inv in H2 as [H2 _]. discriminate. }
  apply net_call_inv in H2 as [_ ->].
  destruct p as [resp|e].
  2:{ apply net_ret_inv in H3 as [-> _]. now split. }
  destruct (read_body resp) as [ocspResBytes|e] eqn:Hread.
  2:{ apply net_ret_inv in H3 as [-> _]. now split. }
  destruct (ocsp_ParseResponse O ocspResBytes issuerCert) as [ocspRes|e].
  2:{ apply net_ret_inv in H3 as [-> _]. now split. }
  apply net_ret_inv in H3 as [-> ->].
  apply read_body_inv in Hread as [-> Hlen].
  exists (Body_data resp), ocspRes, ocspServer0, ocspReq, (net_calls s1).
  now repeat split.
Qed.

End OCSPFacts.

(** X3. GetOCSP fails without any network call when the bundle does not
    parse, when the leaf certificate names no OCSP responder, and when the
    bundle holds the leaf alone and the leaf names no issuing-certificate
    URL. *)
Theorem GetOCSP_fails_without_call {W : Type} (L : Lib) (O : OCSPLib)
  (N : NetEnv W) (bundle : bytes) (s : NetState W) :
  (forall e,
      ParsePEMBundle L bundle = Err e ->
      GetOCSP L O N bundle s = (Done (None, None, Some e), s))
  /\ (forall issuedCert rest,
      ParsePEMBundle L bundle = Ok (issuedCert :: rest) ->
      OCSPServer O issuedCert = [] ->
      GetOCSP L O N bundle s
      = (Done (None, None,
               Some (errors_New "no OCSP server specified in cert")), s))
  /\ (forall issuedCert server servers,
      ParsePEMBundle L bundle = Ok [issuedCert] ->
      OCSPServer O issuedCert = server :: servers ->
      IssuingCertificateURL O issuedCert = [] ->
      GetOCSP L O N bundle s
      = (Done (None, None, Some (errors_New "no issuing certificate URL")),
         s)).
Proof.
  split; [|split].
  - intros e Hp. unfold GetOCSP. now rewrite Hp.
  - intros c rest Hp Hs. unfold GetOCSP. now rewrite Hp, Hs.
  - intros c server servers Hp Hs Hu. unfold GetOCSP. rewrite Hp, Hs.
    cbn [length Nat.eqb]. unfold fetch_issuer. rewrite Hu. reflexivity.
Qed.

Lemma GetOCSP_fails_without_call_witness :
  GetOCSP SimNet.the_lib SimNet.ocsp_lib SimNet.net (bytes_of "ORPHAN")
    SimNet.start
  = (Done (None, None, Some (errors_New "no issuing certificate URL")),
     SimNet.start).
Proof.
  exact (proj2 (proj2 (GetOCSP_fails_without_call SimNet.the_lib
                         SimNet.ocsp_lib SimNet.net (bytes_of "ORPHAN")
                         SimNet.start))
           (Sim.leaf ["orphan.example.com"]) "http://ocsp.ca.test" []
           eq_refl eq_refl eq_refl).
Defined.

(** X4. When the bundle holds the leaf and at least one more certificate,
    GetOCSP takes the second certificate as the issuer and never fetches
    one: if the request cannot be built it fails without a call, and
    otherwise its only call is one POST of the request, with content type
    application/ocsp-request, to the first responder the leaf names. *)
Theorem GetOCSP_uses_bundled_issuer {W : Type} (L : Lib) (O : OCSPLib)
  (N : NetEnv W) (bundle : bytes) (s : NetState W)
  (issuedCert issuerCert : x509.Certificate) (rest : list x509.Certificate)
  (server : string) (servers : list string) :
  ParsePEMBundle L bundle = Ok (issuedCert :: issuerCert :: rest) ->
  OCSPServer O issuedCert = server :: servers ->
  match ocsp_CreateRequest O issuedCert issuerCert with
  | Err e => GetOCSP L O N bundle s = (Done (None, None, Some e), s)
  | Ok request =>
      net_calls (snd (GetOCSP L O N bundle s))
      = net_calls s ++ [ocsp_post server request]
      /\ (forall resp w' raw res,
            HTTPClient_Post N server "application/ocsp-request" request
              (net_world s) = (Ok resp, w') ->
            read_body resp = Ok raw ->
            ocsp_ParseResponse O raw issuerCert = Ok res ->
            fst (GetOCSP L O N bundle s) = Done (raw, Some res, None))
  end.
Proof.
  intros Hp Hs. unfold GetOCSP. rewrite Hp, Hs. cbn [length Nat.eqb].
  rewrite !net_bind_ret. cbn [nth_error].
  destruct (ocsp_CreateRequest O issuedCert issuerCert) as [request|e];
    [|reflexivity].
  destruct (HTTPClient_Post N server "application/ocsp-request" request
              (net_world s)) as [p w1] eqn:Hpost.
  rewrite (net_bind_Done _ _ _ _ _ (net_call_run _ _ _ _ _ Hpost)).
  split.
  - destruct p as [resp|e]; [|reflexivity].
    destruct (read_body resp) as [raw|e]; [|reflexivity].
    destruct (ocsp_ParseResponse O raw issuerCert); reflexivity.
  - intros resp w' raw res Hpost' Hread Hparse.
    inversion Hpost'; subst p w'. now rewrite Hread, Hparse.
Qed.

Lemma GetOCSP_uses_bundled_issuer_witness :
  net_calls (snd (GetOCSP SimNet.the_lib SimNet.ocsp_lib SimNet.net
                    (bytes_of "LEAF+X1") SimNet.start))
  = [ocsp_post "http://ocsp.ca.test" (bytes_of "OCSP-REQ")]
  /\ (forall resp w' raw res,
        HTTPClient_Post SimNet.net "http://ocsp.ca.test"
          "application/ocsp-request" (bytes_of "OCSP-REQ") 0 = (Ok resp, w') ->
        read_body resp = Ok raw ->
        ocsp_ParseResponse SimNet.ocsp_lib raw (Sim.root "Root X1") = Ok res ->
        fst (GetOCSP SimNet.the_lib SimNet.ocsp_lib SimNet.net
               (bytes_of "LEAF+X1") SimNet.start)
        = Done (raw, Some res, None)).
Proof.
  exact (GetOCSP_uses_bundled_issuer SimNet.the_lib SimNet.ocsp_lib SimNet.net
           (bytes_of "LEAF+X1") SimNet.start (Sim.leaf Sim.two_domains)
           (Sim.root "Root X1") [] "http://ocsp.ca.test" [] eq_refl eq_refl).
Defined.

(** X5. When the bundle holds the leaf alone, GetOCSP first fetches the
    issuer from the first issuing-certificate URL of the leaf.  If the GET
    fails, if the body is too large or breaks off, or if it is no
    certificate, GetOCSP returns that error and posts nothing; otherwise the
    fetched certificate is the issuer: the request is built for it, posted to
    the first responder, and the response is parsed against it. *)
Theorem GetOCSP_fetches_missing_issuer {W : Type} (L : Lib) (O : OCSPLib)
  (N : NetEnv W) (bundle : bytes) (s : NetState W)
  (issuedCert : x509.Certificate) (server url : string)
  (servers urls : list string) (fetched : result http_Response) (w1 : W) :
  ParsePEMBundle L bundle = Ok [issuedCert] ->
  OCSPServer O issuedCert = server :: servers ->
  IssuingCertificateURL O issuedCert = url :: urls ->
  HTTPClient_Get N url (net_world s) = (fetched, w1) ->
  let s1 :=
    {| net_world := w1; net_calls := net_calls s ++ [CallHTTPGet url] |} in
  let fails e := GetOCSP L O N bundle s = (Done (None, None, Some e), s1) in
  match fetched with
  | Err e => fails e
  | Ok resp =>
      match read_body resp with
      | Err e => fails e
      | Ok issuerBytes =>
          match x509_ParseCertificate O issuerBytes with
          | Err e => fails e
          | Ok issuerCert =>
              match ocsp_CreateRequest O issuedCert issuerCert with
              | Err e => fails e
              | Ok request =>
                  net_calls (snd (GetOCSP L O N bundle s))
                  = net_calls s ++ [CallHTTPGet url; ocsp_post server request]
                  /\ (forall resp' w2 raw res,
                        HTTPClient_Post N server "application/ocsp-request"
                          request w1 = (Ok resp', w2) ->
                        read_body resp' = Ok raw ->
                        ocsp_ParseResponse O raw issuerCert = Ok res ->
                        fst (GetOCSP L O N bundle s)
                        = Done (raw, Some res, None))
              end
          end
      end
  end.
Proof.
  intros Hp Hs Hu Hget s1 fails. unfold fails.
  assert (Hstart : forall K :
      result (list x509.Certificate) ->
      NetM W (bytes * option ocsp_Response * option error),
    net_bind (fetch_issuer O N issuedCert [issuedCert]) K s
    = net_bind
        (match fetched with
         | Err errC => net_ret (Err errC)
         | Ok resp =>
             match read_body resp with
             | Err errC => net_ret (Err errC)
             | Ok issuerBytes =>
                 match x509_ParseCertificate O issuerBytes with
                 | Err errC => net_ret (Err errC)
                 | Ok issuerCert => net_ret (Ok ([issuedCert] ++ [issuerCert]))
                 end
             end
         end) K s1).
  { intros K. unfold fetch_issuer. rewrite Hu. unfold net_bind at 1.
    rewrite (net_bind_Done _ _ _ _ _ (net_call_run _ _ _ _ _ Hget)).
    reflexivity. }
  unfold GetOCSP. rewrite Hp, Hs. cbn [length Nat.eqb]. rewrite Hstart.
  clear Hstart.
  destruct fetched as [resp|e]; [|reflexivity].
  destruct (read_body resp) as [issuerBytes|e]; [|reflexivity].
  destruct (x509_ParseCertificate O issuerBytes) as [issuerCert|e];
    [|reflexivity].
  rewrite net_bind_ret. cbn [app nth_error].
  destruct (ocsp_CreateRequest O issuedCert issuerCert) as [request|e];
    [|reflexivity].
  destruct (HTTPClient_Post N server "application/ocsp-request" request w1)
    as [p w2] eqn:Hpost.
  assert (Hcall : net_call (CallHTTPPost server "application/ocsp-request"
                              request)
                    (HTTPClient_Post N server "application/ocsp-request"
                       request) s1
                  = (Done p, {| net_world := w2;
                                net_calls := net_calls s1
                                             ++ [ocsp_post server request] |}))
    by (apply net_call_run; exact Hpost).
  rewrite (net_bind_Done _ _ _ _ _ Hcall).
  split.
  - unfold s1. cbn [net_calls]. rewrite <- app_assoc.
    destruct p as [resp'|e]; [|reflexivity].
    destruct (read_body resp') as [raw|e]; [|reflexivity].
    destruct (ocsp_ParseResponse O raw issuerCert); reflexivity.
  - intros resp' w2' raw res Hpost' Hread Hparse.
    inversion Hpost'; subst p w2'. now rewrite Hread, Hparse.
Qed.

Lemma GetOCSP_fetches_missing_issuer_witness :
  net_calls (snd (GetOCSP SimNet.the_lib SimNet.ocsp_lib SimNet.net
                    (bytes_of "LEAF") SimNet.start))
  = [CallHTTPGet "http://ca.test/issuer.der";
     ocsp_post "http://ocsp.ca.test" (bytes_of "OCSP-REQ")].
Proof.
  exact (proj1 (GetOCSP_fetches_missing_issuer SimNet.the_lib SimNet.ocsp_lib
                  SimNet.net (bytes_of "LEAF") SimNet.start
                  (Sim.leaf Sim.two_domains) "http://ocsp.ca.test"
                  "http://ca.test/issuer.der" [] []
                  (Ok (SimNet.body "ISSUER-DER")) 1
                  eq_refl eq_refl eq_refl eq_refl)).
Defined.

(** X6. GetOCSP never returns half a result.  With a nil error it returns
    the raw response and the parsed response together, the raw response is
    at most [maxBodySize] bytes long, and the last call made is the POST to
    the responder; with an error both other results are nil. *)
Theorem GetOCSP_all_or_error {W : Type} (L : Lib) (O : OCSPLib) (N : NetEnv W)
  (bundle : bytes) (s : NetState W) raw parsed err s' :
  GetOCSP L O N bundle s = (Done (raw, parsed, err), s') ->
  (err = None ->
   exists data res server request calls,
     raw = Some data /\ parsed = Some res
     /\ (Z.of_nat (length data) <= maxBodySize)%Z
     /\ net_calls s' = calls ++ [ocsp_post server request])
  /\ (err <> None -> raw = None /\ parsed = None).
Proof.
  intros Hrun. apply GetOCSP_inv in Hrun. destruct err as [e|].
  - split; [discriminate | intros _; exact Hrun].
  - split; [intros _; exact Hrun | congruence].
Qed.

Lemma GetOCSP_all_or_error_witness :
  exists data res server request calls,
    bytes_of "OCSP-GOOD" = Some data /\ Some (OCSPResponse 0 1) = Some res
    /\ (Z.of_nat (length data) <= maxBodySize)%Z
    /\ net_calls (snd (GetOCSP SimNet.the_lib SimNet.ocsp_lib SimNet.net
                         (bytes_of "LEAF") SimNet.start))
       = calls ++ [ocsp_post server request].
Proof.
  apply (proj1 (GetOCSP_all_or_error SimNet.the_lib SimNet.ocsp_lib SimNet.net
                  (bytes_of "LEAF") SimNet.start (bytes_of "OCSP-GOOD")
                  (Some (OCSPResponse 0 1)) None
                  (snd (GetOCSP SimNet.the_lib SimNet.ocsp_lib SimNet.net
                          (bytes_of "LEAF") SimNet.start))
                  ltac:(vm_compute; reflexivity))).
  reflexivity.
Defined.

(** X7. In Revoke and in GetOCSP the only index that can be out of range is
    [certificates[0]], when the parser returns an empty list without an
    error; then they panic before any call.  For a bundle that parses to at
    least one certificate neither panics: [certificates[1]],
    [OCSPServer[0]] and [IssuingCertificateURL[0]] are always in range. *)
Theorem Revoke_and_GetOCSP_bounds {W : Type} (L : Lib) (O : OCSPLib)
  (N : NetEnv W) (bundle : bytes) (reason : option Z) (s : NetState W) :
  (ParsePEMBundle L bundle = Ok [] ->
   RevokeWithReason L O N bundle reason s
   = (Crash Panic_Revoke_certificates0, s)
   /\ GetOCSP L O N bundle s = (Crash Panic_GetOCSP_certificates0, s))
  /\ (ParsePEMBundle L bundle <> Ok [] ->
      (exists r, fst (RevokeWithReason L O N bundle reason s) = Done r)
      /\ (exists r, fst (GetOCSP L O N bundle s) = Done r)).
Proof.
  split.
  - intros Hp. unfold RevokeWithReason, GetOCSP. now rewrite Hp.
  - intros Hne. split.
    + unfold RevokeWithReason.
      destruct (ParsePEMBundle L bundle) as [[|c rest]|e];
        [congruence | | eexists; reflexivity].
      destruct (x509.IsCA c); [eexists; reflexivity|].
      unfold net_call.
      destruct (Certificates_Revoke N _ (net_world s)). eexists. reflexivity.
    + destruct (GetOCSP L O N bundle s) as [[r|site] s'] eqn:Hrun.
      * now exists r.
      * apply GetOCSP_inv in Hrun as (_ & Hp & _). contradiction.
Qed.

Lemma Revoke_and_GetOCSP_bounds_witness :
  (exists r,
      fst (RevokeWithReason SimNet.the_lib SimNet.ocsp_lib SimNet.net
             (bytes_of "LEAF") None SimNet.start) = Done r)
  /\ (exists r,
      fst (GetOCSP SimNet.the_lib SimNet.ocsp_lib SimNet.net
             (bytes_of "LEAF") SimNet.start) = Done r).
Proof.
  apply (proj2 (Revoke_and_GetOCSP_bounds SimNet.the_lib SimNet.ocsp_lib
                  SimNet.net (bytes_of "LEAF") None SimNet.start)).
  vm_compute. discriminate.
Defined.

(** ** Early failures of Obtain and ObtainForCSR *)

(** X8. ObtainForCSR without a CSR fails before any call.  When the order
    cannot be created, Obtain and ObtainForCSR return the CA's error after
    that one call: no authorization is fetched and none is deactivated,
    whatever AlwaysDeactivateAuthorizations says. *)
Theorem order_creation_failure {W : Type} (L : Lib) (E : Env W)
  (options : CertifierOptions) :
  (forall request s,
      ObtainForCSRRequest.CSR request = None ->
      ObtainForCSR L E options request s
      = (Ret (None,
              Some (errors_New
                      "cannot obtain resource for CSR: CSR is missing")), s))
  /\ (forall request s e w1,
      ObtainRequest.Domains request <> [] ->
      Orders_NewWithOptions E (sanitizeDomain L (ObtainRequest.Domains request))
        (Obtain_orderOpts request) (world s) = (Err e, w1) ->
      Obtain L E options request s
      = (Ret (None, Some e),
         {| world := w1;
            trace := trace s
                     ++ [EvNewOrder
                           (sanitizeDomain L (ObtainRequest.Domains request))
                           (Obtain_orderOpts request)] |}))
  /\ (forall request csr s e w1,
      ObtainForCSRRequest.CSR request = Some csr ->
      Orders_NewWithOptions E (ExtractDomainsCSR L csr)
        (ObtainForCSR_orderOpts request) (world s) = (Err e, w1) ->
      ObtainForCSR L E options request s
      = (Ret (None, Some e),
         {| world := w1;
            trace := trace s
                     ++ [EvNewOrder (ExtractDomainsCSR L csr)
                           (ObtainForCSR_orderOpts request)] |})).
Proof.
  split; [|split].
  - intros request s Hcsr. unfold ObtainForCSR. now rewrite Hcsr.
  - intros request s e w1 Hne Hnew.
    assert (Hlen : (length (ObtainRequest.Domains request) =? 0)%nat = false)
      by (destruct (ObtainRequest.Domains request); [contradiction|reflexivity]).
    unfold Obtain. rewrite Hlen. cbv beta iota zeta.
    step_call Hnew. reflexivity.
  - intros request csr s e w1 Hcsr Hnew.
    unfold ObtainForCSR. rewrite Hcsr. cbv beta iota zeta.
    step_call Hnew. reflexivity.
Qed.

Lemma order_creation_failure_witness :
  ObtainForCSR Sim.the_lib (Sim.env Sim.happy) (Sim.options 0)
    Sim2.no_csr_request (Sim.start [])
  = (Ret (None,
          Some (errors_New "cannot obtain resource for CSR: CSR is missing")),
     Sim.start []).
Proof.
  exact (proj1 (order_creation_failure Sim.the_lib (Sim.env Sim.happy)
                  (Sim.options 0)) Sim2.no_csr_request (Sim.start []) eq_refl).
Defined.

(** X9. When the authorizations of the new order cannot be fetched, Obtain
    and ObtainForCSR return that error and no Resource: the solver is never
    called and nothing is finalized; the calls made are the order creation,
    the authorization fetch and the clean-up call for the order with
    [force] set to AlwaysDeactivateAuthorizations. *)
Theorem authorization_failure {W : Type} (L : Lib) (E : Env W)
  (options : CertifierOptions) :
  (forall request s order w1 e w2,
      ObtainRequest.Domains request <> [] ->
      Orders_NewWithOptions E (sanitizeDomain L (ObtainRequest.Domains request))
        (Obtain_orderOpts request) (world s) = (Ok order, w1) ->
      core_getAuthorizations E order w1 = (Err e, w2) ->
      exists w',
        Obtain L E options request s
        = (Ret (None, Some e),
           {| world := w';
              trace := trace s
                ++ [EvNewOrder
                      (sanitizeDomain L (ObtainRequest.Domains request))
                      (Obtain_orderOpts request);
                    EvGetAuthorizations order]
                ++ deactivations order
                     (ObtainRequest.AlwaysDeactivateAuthorizations request) |}))
  /\ (forall request csr s order w1 e w2,
      ObtainForCSRRequest.CSR request = Some csr ->
      Orders_NewWithOptions E (ExtractDomainsCSR L csr)
        (ObtainForCSR_orderOpts request) (world s) = (Ok order, w1) ->
      core_getAuthorizations E order w1 = (Err e, w2) ->
      exists w',
        ObtainForCSR L E options request s
        = (Ret (None, Some e),
           {| world := w';
              trace := trace s
                ++ [EvNewOrder (ExtractDomainsCSR L csr)
                      (ObtainForCSR_orderOpts request);
                    EvGetAuthorizations order]
                ++ deactivations order
                     (ObtainForCSRRequest.AlwaysDeactivateAuthorizations
                        request) |})).
Proof.
  split.
  - intros request s order w1 e w2 Hne Hnew Hauthz.
    assert (Hlen : (length (ObtainRequest.Domains request) =? 0)%nat = false)
      by (destruct (ObtainRequest.Domains request); [contradiction|reflexivity]).
    unfold Obtain. rewrite Hlen. cbv beta iota zeta.
    step_call Hnew. unfold getAuthorizations at 1. step_call Hauthz.
    match goal with |- context [bind ?m _ ?s0] =>
      destruct (deactivateAuthorizations_run E order
                  (ObtainRequest.AlwaysDeactivateAuthorizations request) s0)
        as (w' & Hd) end.
    exists w'. rewrite (bind_Ret _ _ _ _ _ Hd). unfold ret. cbn [trace].
    now rewrite <- !app_assoc.
  - intros request csr s order w1 e w2 Hcsr Hnew Hauthz.
    unfold ObtainForCSR. rewrite Hcsr. cbv beta iota zeta.
    step_call Hnew. unfold getAuthorizations at 1. step_call Hauthz.
    match goal with |- context [bind ?m _ ?s0] =>
      destruct (deactivateAuthorizations_run E order
                  (ObtainForCSRRequest.AlwaysDeactivateAuthorizations request)
                  s0) as (w' & Hd) end.
    exists w'. rewrite (bind_Ret _ _ _ _ _ Hd). unfold ret. cbn [trace].
    now rewrite <- !app_assoc.
Qed.

Lemma authorization_failure_witness :
  exists w',
    Obtain Sim.the_lib (Sim.env Sim2.authz_unavailable) (Sim.options 0)
      (Sim.request Sim.two_domains "" true) (Sim.start [])
    = (Ret (None, Some Sim2.unavailable),
       {| world := w';
          trace :=
            [EvNewOrder Sim.two_domains
               (Obtain_orderOpts (Sim.request Sim.two_domains "" true));
             EvGetAuthorizations Sim.waiting]
            ++ [EvDeactivate "https://ca.test/authz/example.com";
                EvDeactivate "https://ca.test/authz/www.example.com"] |}).
Proof.
  exact (proj1 (authorization_failure Sim.the_lib
                  (Sim.env Sim2.authz_unavailable) (Sim.options 0))
           (Sim.request Sim.two_domains "" true) (Sim.start []) Sim.waiting []
           Sim2.unavailable [] ltac:(discriminate) eq_refl eq_refl).
Defined.

(** ** What an issuance calls and what it returns *)

Section IssuanceFacts.
Context {W : Type}.
Variable L : Lib.
Variable E : Env W.
Variable options : CertifierOptions.

Lemma emits_deactivateAuthorizations (P : Event -> Prop) order force :
  (forall url, P (EvDeactivate url)) ->
  emits P (deactivateAuthorizations E order force).
Proof.
  intros HP. unfold deactivateAuthorizations.
  destruct force; [|apply emits_ret].
  induction (acme.Authorizations order) as [|u us IH]; simpl.
  - apply emits_ret.
  - apply emits_bind; [apply emits_call; apply HP | intros _; exact IH].
Qed.

(** As [emits_getForCSR], for a [P] that looks at what is finalized. *)
Lemma emits_getForCSR_exact (P : Event -> Prop) domains order bundle csr
  privateKeyPem preferredChain :
  P (EvUpdateForCSR (acme.Finalize order) csr) ->
  (forall msg timeout interval, P (EvWaitFor msg timeout interval)) ->
  (forall location, P (EvOrdersGet location)) ->
  (forall url b, P (EvCertificatesGetAll url b)) ->
  emits P (getForCSR L E options domains order bundle csr privateKeyPem
             preferredChain).
Proof.
  intros Pfin Pwait Pget Pall. unfold getForCSR.
  apply emits_bind; [apply emits_call; exact Pfin|].
  intros [respOrder|e]; [|apply emits_ret].
  destruct domains as [|domain0 rest]; [apply emits_panic|]. cbv zeta.
  assert (Hcheck : forall ord r,
    emits P (checkResponse L E ord r bundle preferredChain)).
  { intros ord r. apply emits_checkResponse. exact Pall. }
  assert (Hpoll : forall r,
    emits P
      (bind (wait_For E "certificate" (poll_timeout options)
               (poll_timeout options ÷ 60)%Z
               (poll_step L E order bundle preferredChain) r)
         (fun x => let '(certRes', err) := x in ret (Some certRes', err)))).
  { intros r. apply emits_bind.
    - unfold wait_For. apply emits_bind; [apply emits_call; apply Pwait|].
      intros n. apply emits_wait_loop; assumption.
    - intros [r' err]. apply emits_ret. }
  destruct (String.eqb (acme.Status respOrder) acme.StatusValid);
    [|apply Hpoll].
  apply emits_bind; [apply Hcheck|].
  intros [r' [ok [e|]]]; [apply emits_ret|].
  destruct ok; [apply emits_ret | apply Hpoll].
Qed.

Lemma emits_getForOrder_no_deactivation domains order request :
  emits no_deactivation (getForOrder L E options domains order request).
Proof.
  unfold getForOrder. apply emits_bind.
  { destruct (ObtainRequest.PrivateKey request);
      [apply emits_ret | apply emits_call; exact I]. }
  intros [privateKey|e]; [|apply emits_ret].
  destruct domains as [|domain0 rest]; [apply emits_panic|]. cbv zeta.
  apply emits_bind; [apply emits_call; exact I|].
  intros [csr|e]; [|apply emits_ret].
  apply emits_getForCSR_exact; intros; exact I.
Qed.

Lemma bind_ret_l {A B : Type} (a : A) (k : A -> M W B) : bind (ret a) k = k a.
Proof. reflexivity. Qed.

Lemma emits_getForOrder_key domains order request key :
  ObtainRequest.PrivateKey request = Some key ->
  emits (uses_key key) (getForOrder L E options domains order request).
Proof.
  intros Hkey. unfold getForOrder. rewrite Hkey, bind_ret_l.
  destruct domains as [|domain0 rest]; [apply emits_panic|]. cbv zeta.
  apply emits_bind; [apply emits_call; reflexivity|].
  intros [csr|e]; [|apply emits_ret].
  apply emits_getForCSR_exact; intros; exact I.
Qed.

(** The Resource getForCSR hands back, with or without an error, is the one
    it built for the first domain and the key given. *)
Lemma getForCSR_Resource domains order bundle csr privateKeyPem preferredChain
  (s : State W) r err s' :
  getForCSR L E options domains order bundle csr privateKeyPem preferredChain s
  = (Ret (Some r, err), s') ->
  Domain r = hd "" domains /\ PrivateKey r = privateKeyPem /\ CSR r = None.
Proof.
  intros Hrun. apply getForCSR_inv in Hrun. destruct err as [e|].
  - destruct (Orders_UpdateForCSR E (acme.Finalize order) csr (world s))
      as [[respOrder|e0] w1]; [|destruct Hrun; discriminate].
    destruct (String.eqb (acme.Status respOrder) acme.StatusValid);
      [discriminate|].
    destruct Hrun as (r0 & Hr & (D & P & C) & _). inversion Hr; subst r0.
    now repeat split.
  - destruct Hrun as (r0 & Hr & _ & D & P & C). inversion Hr; subst r0.
    now repeat split.
Qed.

Lemma getForOrder_Resource domains order request (s : State W) r err s' :
  getForOrder L E options domains order request s = (Ret (Some r, err), s') ->
  Domain r = hd "" domains /\ CSR r = None
  /\ exists key,
      PrivateKey r = PEMEncode L key
      /\ match ObtainRequest.PrivateKey request with
         | Some k => key = k
         | None =>
             exists w w',
               GeneratePrivateKey E (KeyType options) w = (Ok key, w')
         end.
Proof.
  unfold getForOrder. intros H.
  apply bind_inv in H as [(k & s1 & H1 & H2)|(site & _ & ?)]; [|discriminate].
  destruct k as [privateKey|e].
  2:{ apply ret_inv in H2 as [H2 _]. discriminate. }
  assert (Hkey : match ObtainRequest.PrivateKey request with
                 | Some k => privateKey = k
                 | None =>
                     exists w w',
                       GeneratePrivateKey E (KeyType options) w
                       = (Ok privateKey, w')
                 end).
  { destruct (ObtainRequest.PrivateKey request) as [k|].
    - apply ret_inv in H1 as [H1 _]. now inversion H1.
    - apply call_inv in H1 as [H1 _]. inversion H1 as [H1'].
      exists (world s).
      destruct (GeneratePrivateKey E (KeyType options) (world s)) as [x w'].
      exists w'. simpl in H1'. now subst x. }
  destruct domains as [|domain0 rest].
  { apply panic_inv in H2 as [H2 _]. discriminate. }
  cbv zeta in H2.
  apply bind_inv in H2 as [(c & s2 & H2 & H3)|(site & _ & ?)]; [|discriminate].
  destruct c as [csr|e].
  2:{ apply ret_inv in H3 as [H3 _]. discriminate. }
  apply getForCSR_Resource in H3 as (D & P & C).
  split; [exact D|]. split; [exact C|]. now exists privateKey.
Qed.

(** A Resource that Obtain returns is the one getForOrder returned. *)
Lemma Obtain_Resource_inv request (s : State W) r err s' :
  Obtain L E options request s = (Ret (Some r, err), s') ->
  exists order s3 err0 s4,
    getForOrder L E options (sanitizeDomain L (ObtainRequest.Domains request))
      order request s3 = (Ret (Some r, err0), s4).
Proof.
  unfold Obtain.
  destruct (length (ObtainRequest.Domains request) =? 0)%nat.
  { intros H. apply ret_inv in H as [H _]. discriminate. }
  cbv zeta. intros H.
  apply bind_inv in H as [(o & s1 & H1 & H2)|(x & _ & ?)]; [|discriminate].
  destruct o as [order|e].
  2:{ apply ret_inv in H2 as [H2 _]. discriminate. }
  apply bind_inv in H2 as [(a & s2 & H2 & H3)|(x & _ & ?)]; [|discriminate].
  destruct a as [authz|e].
  { apply bind_inv in H3 as [(so & s3 & H3 & H4)|(x & _ & ?)]; [|discriminate].
    destruct so as [e|].
    - apply bind_inv in H4 as [(u & s4 & _ & H5)|(x & _ & ?)]; [|discriminate].
      apply ret_inv in H5 as [H5 _]. discriminate.
    - apply bind_inv in H4 as [([cert err0] & s4 & H4 & H5)|(x & _ & ?)];
        [|discriminate].
      apply finish_inv in H5. inversion H5; subst cert.
      now exists order, s3, err0, s4. }
  apply bind_inv in H3 as [(u & s4 & _ & H5)|(x & _ & ?)]; [|discriminate].
  apply ret_inv in H5 as [H5 _]. discriminate.
Qed.

Lemma emits_Obtain_key request key :
  ObtainRequest.PrivateKey request = Some key ->
  emits (uses_key key) (Obtain L E options request).
Proof.
  intros Hkey. unfold Obtain.
  destruct (length (ObtainRequest.Domains request) =? 0)%nat;
    [apply emits_ret|]. cbv zeta.
  apply emits_bind; [apply emits_call; exact I|].
  intros [order|e]; [|apply emits_ret].
  apply emits_bind; [apply emits_call; exact I|].
  intros [authz|e].
  2:{ apply emits_bind; [|intros _; apply emits_ret].
      apply emits_deactivateAuthorizations. intros; exact I. }
  apply emits_bind; [apply emits_call; exact I|].
  intros [e|].
  { apply emits_bind; [|intros _; apply emits_ret].
    apply emits_deactivateAuthorizations. intros; exact I. }
  apply emits_bind; [now apply emits_getForOrder_key|].
  intros [cert err]. apply emits_bind; [|intros _; apply emits_ret].
  destruct (ObtainRequest.AlwaysDeactivateAuthorizations request);
    [|apply emits_ret].
  apply emits_deactivateAuthorizations. intros; exact I.
Qed.

Lemma emits_ObtainForCSR request csr :
  ObtainForCSRRequest.CSR request = Some csr ->
  emits (csr_mode_event (x509.CSR_Raw csr)) (ObtainForCSR L E options request).
Proof.
  intros Hcsr. unfold ObtainForCSR. rewrite Hcsr. cbv zeta.
  apply emits_bind; [apply emits_call; exact I|].
  intros [order|e]; [|apply emits_ret].
  apply emits_bind; [apply emits_call; exact I|].
  intros [authz|e].
  2:{ apply emits_bind; [|intros _; apply emits_ret].
      apply emits_deactivateAuthorizations. intros; exact I. }
  apply emits_bind; [apply emits_call; exact I|].
  intros [e|].
  { apply emits_bind; [|intros _; apply emits_ret].
    apply emits_deactivateAuthorizations. intros; exact I. }
  apply emits_bind.
  { apply emits_getForCSR_exact; intros; try exact I. reflexivity. }
  intros [cert err]. apply emits_bind; [|intros _; apply emits_ret].
  destruct (ObtainForCSRRequest.AlwaysDeactivateAuthorizations request);
    [|apply emits_ret].
  apply emits_deactivateAuthorizations. intros; exact I.
Qed.

(** A Resource that ObtainForCSR returns is the one getForCSR returned, with
    the CSR stamped on it. *)
Lemma ObtainForCSR_Resource_inv request (s : State W) r err s' :
  ObtainForCSR L E options request s = (Ret (Some r, err), s') ->
  exists csr order s3 r0 err0 s4,
    ObtainForCSRRequest.CSR request = Some csr
    /\ r = set_CSR r0 (PEMEncodeCSR L csr)
    /\ getForCSR L E options (ExtractDomainsCSR L csr) order
         (ObtainForCSRRequest.Bundle request) (x509.CSR_Raw csr)
         (match ObtainForCSRRequest.PrivateKey request with
          | Some key => PEMEncode L key
          | None => None
          end)
         (ObtainForCSRRequest.PreferredChain request) s3
       = (Ret (Some r0, err0), s4).
Proof.
  unfold ObtainForCSR.
  destruct (ObtainForCSRRequest.CSR request) as [csr|].
  2:{ intros H. apply ret_inv in H as [H _]. discriminate. }
  cbv zeta. intros H.
  apply bind_inv in H as [(o & s1 & H1 & H2)|(x & _ & ?)]; [|discriminate].
  destruct o as [order|e].
  2:{ apply ret_inv in H2 as [H2 _]. discriminate. }
  apply bind_inv in H2 as [(a & s2 & H2 & H3)|(x & _ & ?)]; [|discriminate].
  destruct a as [authz|e].
  { apply bind_inv in H3 as [(so & s3 & H3 & H4)|(x & _ & ?)]; [|discriminate].
    destruct so as [e|].
    - apply bind_inv in H4 as [(u & s4 & _ & H5)|(x & _ & ?)]; [|discriminate].
      apply ret_inv in H5 as [H5 _]. discriminate.
    - apply bind_inv in H4 as [([cert err0] & s4 & H4 & H5)|(x & _ & ?)];
        [|discriminate].
      apply finish_inv in H5. inversion H5 as [[Hc He]].
      destruct cert as [r0|]; [|discriminate]. inversion Hc.
      exists csr, order, s3, r0, err0, s4. now repeat split. }
  apply bind_inv in H3 as [(u & s4 & _ & H5)|(x & _ & ?)]; [|discriminate].
  apply ret_inv in H5 as [H5 _]. discriminate.
Qed.

End IssuanceFacts.

(** X10. Once the challenges are solved, Obtain and ObtainForCSR deactivate
    nothing while the certificate is being issued.  When the issuance
    returns, with or without an error, the clean-up for the order is called
    if and only if AlwaysDeactivateAuthorizations is set - so without the
    flag a run makes no deactivation call after validation - and when the
    issuance panics there is no clean-up. *)
Theorem deactivation_after_validation {W : Type} (L : Lib) (E : Env W)
  (options : CertifierOptions) :
  (forall request s order authz w3,
      ObtainRequest.Domains request <> [] ->
      reaches_Solve E (sanitizeDomain L (ObtainRequest.Domains request))
        (Obtain_orderOpts request) (world s) order authz None w3 ->
      exists evs,
        Forall no_deactivation evs
        /\ trace (snd (Obtain L E options request s))
           = trace s
             ++ solve_events (sanitizeDomain L (ObtainRequest.Domains request))
                  (Obtain_orderOpts request) order authz
             ++ evs
             ++ match fst (Obtain L E options request s) with
                | Ret _ =>
                    deactivations order
                      (ObtainRequest.AlwaysDeactivateAuthorizations request)
                | Panic _ => []
                end)
  /\ (forall request csr s order authz w3,
      ObtainForCSRRequest.CSR request = Some csr ->
      reaches_Solve E (ExtractDomainsCSR L csr)
        (ObtainForCSR_orderOpts request) (world s) order authz None w3 ->
      exists evs,
        Forall no_deactivation evs
        /\ trace (snd (ObtainForCSR L E options request s))
           = trace s
             ++ solve_events (ExtractDomainsCSR L csr)
                  (ObtainForCSR_orderOpts request) order authz
             ++ evs
             ++ match fst (ObtainForCSR L E options request s) with
                | Ret _ =>
                    deactivations order
                      (ObtainForCSRRequest.AlwaysDeactivateAuthorizations
                         request)
                | Panic _ => []
                end).
Proof.
  assert (Htail : forall (A : Type) order (flag : bool) (x : A) (s4 : State W),
    exists w',
      bind (if flag then deactivateAuthorizations E order true else ret tt)
        (fun _ => ret x) s4
      = (Ret x, {| world := w';
                   trace := trace s4 ++ deactivations order flag |})).
  { intros A order flag x s4. destruct flag.
    - destruct (deactivateAuthorizations_run E order true s4) as (w' & Hd).
      exists w'. now rewrite (bind_Ret _ _ _ _ _ Hd).
    - exists (world s4). unfold bind, ret, deactivations.
      rewrite app_nil_r. now destruct s4. }
  split.
  - intros request s order authz w3 Hne Hreach.
    rewrite (Obtain_reaches_Solve L E options request s _ _ _ _ Hne Hreach).
    match goal with |- context [bind (getForOrder ?a ?b ?c ?d ?e ?f) _ ?s0] =>
      destruct (getForOrder a b c d e f s0) as [o s4] eqn:Hg;
      destruct (emits_getForOrder_no_deactivation a b c d e f _ _ _ Hg)
        as (evs & Ht & Hall)
    end.
    exists evs. split; [exact Hall|].
    destruct o as [[cert err]|site].
    + rewrite (bind_Ret _ _ _ _ _ Hg).
      destruct (Htail _ order
                  (ObtainRequest.AlwaysDeactivateAuthorizations request)
                  (cert, obtainError_Join (add_failures L authz err)) s4)
        as (w' & Hrun).
      rewrite Hrun. cbn [fst snd trace]. rewrite Ht. cbn [trace].
      now rewrite <- !app_assoc.
    + rewrite (bind_Panic _ _ _ _ _ Hg). cbn [fst snd]. rewrite Ht.
      cbn [trace]. now rewrite app_nil_r, <- !app_assoc.
  - intros request csr s order authz w3 Hcsr Hreach.
    rewrite (ObtainForCSR_reaches_Solve L E options request csr s _ _ _ _
               Hcsr Hreach).
    match goal with
    | |- context [bind (getForCSR ?a ?b ?c ?d ?e ?f ?g ?h ?i) _ ?s0] =>
      destruct (getForCSR a b c d e f g h i s0) as [o s4] eqn:Hg;
      assert (Hem : emits no_deactivation (getForCSR a b c d e f g h i))
        by (apply emits_getForCSR_exact; intros; exact I);
      destruct (Hem _ _ _ Hg) as (evs & Ht & Hall)
    end.
    exists evs. split; [exact Hall|].
    destruct o as [[cert err]|site].
    + rewrite (bind_Ret _ _ _ _ _ Hg).
      destruct (Htail _ order
                  (ObtainForCSRRequest.AlwaysDeactivateAuthorizations request)
                  (match cert with
                   | Some certRes => Some (set_CSR certRes (PEMEncodeCSR L csr))
                   | None => None
                   end, obtainError_Join (add_failures L authz err)) s4)
        as (w' & Hrun).
      rewrite Hrun. cbn [fst snd trace]. rewrite Ht. cbn [trace].
      now rewrite <- !app_assoc.
    + rewrite (bind_Panic _ _ _ _ _ Hg). cbn [fst snd]. rewrite Ht.
      cbn [trace]. now rewrite app_nil_r, <- !app_assoc.
Qed.

Lemma deactivation_after_validation_witness :
  exists evs,
    Forall no_deactivation evs
    /\ trace (snd (Obtain Sim.the_lib (Sim.env Sim.happy) (Sim.options 0)
                     (Sim.request Sim.two_domains "" false)
                     (Sim.start Sim.happy_polls)))
       = trace (Sim.start Sim.happy_polls)
         ++ solve_events Sim.two_domains
              (Obtain_orderOpts (Sim.request Sim.two_domains "" false))
              Sim.waiting
              [Sim.authorization "example.com";
               Sim.authorization "www.example.com"]
         ++ evs
         ++ match fst (Obtain Sim.the_lib (Sim.env Sim.happy) (Sim.options 0)
                         (Sim.request Sim.two_domains "" false)
                         (Sim.start Sim.happy_polls)) with
            | Ret _ => deactivations Sim.waiting false
            | Panic _ => []
            end.
Proof.
  apply (proj1 (deactivation_after_validation Sim.the_lib (Sim.env Sim.happy)
                  (Sim.options 0))
           (Sim.request Sim.two_domains "" false) (Sim.start Sim.happy_polls)
           Sim.waiting
           [Sim.authorization "example.com";
            Sim.authorization "www.example.com"]
           Sim.happy_polls).
  - discriminate.
  - exists Sim.happy_polls, Sim.happy_polls. repeat split; reflexivity.
Defined.

(** X11. Obtain with a private key in the request never generates a key:
    every CSR it creates is signed with the caller's key, and every Resource
    it returns, with or without an error, carries the PEM form of that key.
    Without a key in the request the Resource carries the PEM form of a key
    the generator returned.  In both cases the Resource's Domain is the first
    sanitized domain and its CSR field is empty. *)
Theorem Obtain_private_key {W : Type} (L : Lib) (E : Env W)
  (options : CertifierOptions) (request : ObtainRequest.t) (s : State W) :
  (forall key,
      ObtainRequest.PrivateKey request = Some key ->
      exists evs,
        trace (snd (Obtain L E options request s)) = trace s ++ evs
        /\ Forall (uses_key key) evs)
  /\ (forall r err,
      fst (Obtain L E options request s) = Ret (Some r, err) ->
      Domain r = hd "" (sanitizeDomain L (ObtainRequest.Domains request))
      /\ CSR r = None
      /\ exists key,
          PrivateKey r = PEMEncode L key
          /\ match ObtainRequest.PrivateKey request with
             | Some k => key = k
             | None =>
                 exists w w',
                   GeneratePrivateKey E (KeyType options) w = (Ok key, w')
             end).
Proof.
  split.
  - intros key Hkey.
    destruct (Obtain L E options request s) as [o s'] eqn:Hrun.
    exact (emits_Obtain_key L E options request key Hkey _ _ _ Hrun).
  - intros r err Hfst.
    destruct (Obtain L E options request s) as [o s'] eqn:Hrun.
    cbn [fst] in Hfst. subst o.
    apply Obtain_Resource_inv in Hrun as (order & s3 & err0 & s4 & Hg).
    exact (getForOrder_Resource L E options _ _ _ _ _ _ _ Hg).
Qed.

Lemma Obtain_private_key_witness :
  exists evs,
    trace (snd (Obtain Sim.the_lib (Sim.env Sim.happy) (Sim.options 0)
                  (Sim2.request_with_key true) (Sim.start Sim.happy_polls)))
    = [] ++ evs
    /\ Forall (uses_key (KeyHandle 9)) evs.
Proof.
  exact (proj1 (Obtain_private_key Sim.the_lib (Sim.env Sim.happy)
                  (Sim.options 0) (Sim2.request_with_key true)
                  (Sim.start Sim.happy_polls)) (KeyHandle 9) eq_refl).
Defined.

(** X12. ObtainForCSR neither generates a key nor creates a CSR: what it
    sends to the finalize endpoint is the raw form of the CSR it was given.
    Every Resource it returns, with or without an error, carries the PEM
    form of that CSR, the first domain extracted from it, and the PEM form of
    the request's private key - or no key when the request has none. *)
Theorem ObtainForCSR_keeps_CSR {W : Type} (L : Lib) (E : Env W)
  (options : CertifierOptions) (request : ObtainForCSRRequest.t)
  (csr : x509.CertificateRequest) (s : State W) :
  ObtainForCSRRequest.CSR request = Some csr ->
  (exists evs,
      trace (snd (ObtainForCSR L E options request s)) = trace s ++ evs
      /\ Forall (csr_mode_event (x509.CSR_Raw csr)) evs)
  /\ (forall r err,
      fst (ObtainForCSR L E options request s) = Ret (Some r, err) ->
      CSR r = PEMEncodeCSR L csr
      /\ Domain r = hd "" (ExtractDomainsCSR L csr)
      /\ PrivateKey r
         = match ObtainForCSRRequest.PrivateKey request with
           | Some key => PEMEncode L key
           | None => None
           end).
Proof.
  intros Hcsr. split.
  - destruct (ObtainForCSR L E options request s) as [o s'] eqn:Hrun.
    exact (emits_ObtainForCSR L E options request csr Hcsr _ _ _ Hrun).
  - intros r err Hfst.
    destruct (ObtainForCSR L E options request s) as [o s'] eqn:Hrun.
    cbn [fst] in Hfst. subst o.
    apply ObtainForCSR_Resource_inv in Hrun
      as (csr' & order & s3 & r0 & err0 & s4 & Hcsr' & -> & Hg).
    rewrite Hcsr in Hcsr'. inversion Hcsr'; subst csr'.
    apply getForCSR_Resource in Hg as (D & P & _).
    cbn [set_CSR CSR Domain PrivateKey]. now repeat split.
Qed.

Lemma ObtainForCSR_keeps_CSR_witness :
  exists evs,
    trace (snd (ObtainForCSR Sim.the_lib (Sim.env Sim.happy) (Sim.options 0)
                  (Sim.csr_request true) (Sim.start Sim.happy_polls)))
    = [] ++ evs
    /\ Forall (csr_mode_event (bytes_of "CSR-DER")) evs.
Proof.
  exact (proj1 (ObtainForCSR_keeps_CSR Sim.the_lib (Sim.env Sim.happy)
                  (Sim.options 0) (Sim.csr_request true) _
                  (Sim.start Sim.happy_polls) eq_refl)).
Defined.

(** ** The fast path and the Resource under construction *)



Section ChainFacts.
Context {W : Type}.
Variable L : Lib.
Variable E : Env W.

Lemma checkResponse_range_selects entries certRes preferredChain
  (s : State W) r' s' :
  checkResponse_range L entries certRes preferredChain s
  = (Ret (r', (true, None)), s') ->
  (exists link cert,
      In (link, cert) entries
      /\ top_issuer_matchesb L preferredChain cert = true
      /\ r' = set_chain certRes (acme.Issuer cert) (acme.Cert cert) link)
  \/ (r' = certRes
      /\ forall link cert,
          In (link, cert) entries ->
          top_issuer_matchesb L preferredChain cert = false).
Proof.
  revert s. induction entries as [|[link cert] rest IH]; intros s; simpl.
  - intros H. apply ret_inv in H as [H _]. inversion H. right.
    split; [reflexivity | intros l c []].
  - intros H.
    apply bind_inv in H as [([ok err] & s1 & H1 & H2)|(site & _ & ?)];
      [|discriminate].
    apply hasPreferredChain_inv in H1 as [-> H1].
    unfold top_issuer_matchesb.
    destruct (ParsePEMBundle L (acme.Issuer cert)) as [chain|e] eqn:Hp.
    2:{ destruct H1 as [-> ->]. apply ret_inv in H2 as [H2 _]. discriminate. }
    destruct H1 as (-> & topCert & Hlast & ->).
    destruct (String.eqb (x509.Issuer_CommonName topCert) preferredChain)
      eqn:Heq.
    + apply ret_inv in H2 as [H2 _]. inversion H2. left.
      exists link, cert. split; [now left|]. split; [|reflexivity].
      now rewrite Hp, Hlast.
    + apply IH in H2 as [(l & c & Hin & Hm & ->)|[-> Hnone]].
      * left. exists l, c. split; [now right|]. now split.
      * right. split; [reflexivity|]. intros l c [Hin|Hin].
        -- inversion Hin; subst l c. now rewrite Hp, Hlast.
        -- unfold top_issuer_matchesb in Hnone. exact (Hnone l c Hin).
Qed.

Lemma checkResponse_urls order certRes bundle preferredChain (s : State W)
  r' done err s' :
  checkResponse L E order certRes bundle preferredChain s
  = (Ret (r', (done, err)), s') ->
  r' = certRes \/ CertStableURL r' = CertURL r'.
Proof.
  unfold checkResponse. destruct (checkOrderStatus order) as [valid e0].
  destruct e0 as [e|].
  { intros H. apply ret_inv in H as [H _]. inversion H. now left. }
  destruct (negb valid).
  { intros H. apply ret_inv in H as [H _]. inversion H. now left. }
  intros H. apply bind_inv in H as [(r & s1 & _ & H2)|(site & _ & ?)];
    [|discriminate].
  destruct r as [certs|e].
  2:{ apply ret_inv in H2 as [H2 _]. inversion H2. now left. }
  cbv zeta in H2. destruct (String.eqb preferredChain "").
  { apply ret_inv in H2 as [H2 _]. inversion H2. now right. }
  apply bind_inv in H2 as [(entries & s2 & _ & H3)|(site & _ & ?)];
    [|discriminate].
  apply checkResponse_range_inv in H3 as [_ H3].
  destruct done.
  - destruct H3 as [_ [->|(l & c & _ & ->)]]; now right.
  - destruct H3 as [-> _]. now right.
Qed.

Lemma checkResponse_not_valid order certRes bundle preferredChain
  (s : State W) :
  acme.Status order <> acme.StatusValid ->
  checkResponse L E order certRes bundle preferredChain s
  = (Ret (certRes, (false, snd (checkOrderStatus order))), s).
Proof.
  intros Hv. unfold checkResponse.
  destruct (checkOrderStatus order) as [valid err] eqn:Hst.
  unfold checkOrderStatus in Hst. apply String.eqb_neq in Hv.
  rewrite Hv in Hst.
  destruct (String.eqb (acme.Status order) acme.StatusInvalid);
    inversion Hst; subst; reflexivity.
Qed.

End ChainFacts.

(** X14. checkResponse never touches the Domain, the PrivateKey or the CSR
    of the Resource, and it either leaves the Resource as it is or leaves it
    with CertStableURL equal to CertURL.  For an order that is not valid it
    makes no call and changes nothing; it reports done only for a valid
    order and only without an error. *)
Theorem checkResponse_keeps_Resource {W : Type} (L : Lib) (E : Env W)
  (order : acme.ExtendedOrder) (certRes : Resource) (bundle : bool)
  (preferredChain : string) (s : State W) :
  (forall r' done err s',
      checkResponse L E order certRes bundle preferredChain s
      = (Ret (r', (done, err)), s') ->
      Domain r' = Domain certRes /\ PrivateKey r' = PrivateKey certRes
      /\ CSR r' = CSR certRes
      /\ (r' = certRes \/ CertStableURL r' = CertURL r')
      /\ (done = true -> err = None /\ acme.Status order = acme.StatusValid))
  /\ (acme.Status order <> acme.StatusValid ->
      exists err,
        checkResponse L E order certRes bundle preferredChain s
        = (Ret (certRes, (false, err)), s)
        /\ (err <> None <-> acme.Status order = acme.StatusInvalid)).
Proof.
  split.
  - intros r' done err s' Hrun.
    pose proof (checkResponse_urls L E _ _ _ _ _ _ _ _ _ Hrun) as Hurls.
    apply checkResponse_inv in Hrun as [(D & P & C) Hdone].
    repeat (split; [assumption|]).
    intros ->. now destruct Hdone as (? & _ & ?).
  - intros Hv. exists (snd (checkOrderStatus order)).
    split; [now apply checkResponse_not_valid|].
    unfold checkOrderStatus. apply String.eqb_neq in Hv. rewrite Hv.
    destruct (String.eqb (acme.Status order) acme.StatusInvalid) eqn:Hi;
      cbn [snd].
    + apply String.eqb_eq in Hi. split; [now intros _ | discriminate].
    + apply String.eqb_neq in Hi. split; [congruence | contradiction].
Qed.

Lemma checkResponse_keeps_Resource_witness :
  exists err,
    checkResponse Sim.the_lib (Sim.env Sim.happy) Sim.rejected
      Sim.pending_Resource true "" (Sim.start [])
    = (Ret (Sim.pending_Resource, (false, err)), Sim.start [])
    /\ (err <> None <-> acme.Status Sim.rejected = acme.StatusInvalid).
Proof.
  apply (proj2 (checkResponse_keeps_Resource Sim.the_lib (Sim.env Sim.happy)
                  Sim.rejected Sim.pending_Resource true "" (Sim.start []))).
  discriminate.
Defined.

(** X15. With a preferred chain, a successful checkResponse on a valid order
    stores a candidate whose topmost issuer certificate is issued by the
    preferred name whenever the walk meets one - with several such
    candidates, one of them.  It stores the default entry only when no
    candidate has the preferred issuer. *)
Theorem chain_selection_prefers_match {W : Type} (L : Lib) (E : Env W)
  (order : acme.ExtendedOrder) (certRes : Resource) (bundle : bool)
  (preferredChain : string) (s : State W)
  (certs : gmap string acme.RawCertificate) (w' : W) r' s' :
  acme.Status order = acme.StatusValid ->
  Certificates_GetAll E (acme.Certificate order) bundle (world s)
  = (Ok certs, w') ->
  preferredChain <> "" ->
  checkResponse L E order certRes bundle preferredChain s
  = (Ret (r', (true, None)), s') ->
  (exists link cert,
      certs !! link = Some cert
      /\ top_issuer_matches L preferredChain cert
      /\ r' = set_chain certRes (acme.Issuer cert) (acme.Cert cert) link)
  \/ ((forall link cert,
          certs !! link = Some cert ->
          ~ top_issuer_matches L preferredChain cert)
      /\ r' = set_chain certRes
                (acme.Issuer (default_entry certs (acme.Certificate order)))
                (acme.Cert (default_entry certs (acme.Certificate order)))
                (acme.Certificate order)).
Proof.
  intros Hvalid HG Hpref Hrun.
  rewrite (checkResponse_valid_run L E order certRes bundle preferredChain s
             certs w' Hvalid HG) in Hrun.
  apply String.eqb_neq in Hpref. rewrite Hpref in Hrun.
  apply checkResponse_range_selects in Hrun
    as [(link & cert & Hin & Hm & ->)|[-> Hnone]].
  - left. exists link, cert. apply map_range_lookup in Hin.
    split; [exact Hin|]. split; [now apply top_issuer_matches_iff|reflexivity].
  - right. split; [|reflexivity].
    intros link cert Hl Hm. apply top_issuer_matches_iff in Hm.
    apply (proj2 (map_range_lookup E w' certs link cert)) in Hl.
    rewrite (Hnone link cert Hl) in Hm. discriminate.
Qed.

Lemma chain_selection_prefers_match_witness :
  (exists link cert,
      Sim.two_chains !! link = Some cert
      /\ top_issuer_matches Sim.the_lib "Root X2" cert
      /\ set_chain Sim.pending_Resource (bytes_of "CHAIN-X2")
           (bytes_of "LEAF+X2") "https://ca.test/cert/1/alt"
         = set_chain Sim.pending_Resource (acme.Issuer cert) (acme.Cert cert)
             link)
  \/ ((forall link cert,
          Sim.two_chains !! link = Some cert ->
          ~ top_issuer_matches Sim.the_lib "Root X2" cert)
      /\ set_chain Sim.pending_Resource (bytes_of "CHAIN-X2")
           (bytes_of "LEAF+X2") "https://ca.test/cert/1/alt"
         = set_chain Sim.pending_Resource
             (acme.Issuer (default_entry Sim.two_chains
                             (acme.Certificate Sim.issued)))
             (acme.Cert (default_entry Sim.two_chains
                           (acme.Certificate Sim.issued)))
             (acme.Certificate Sim.issued)).
Proof.
  apply (chain_selection_prefers_match Sim.the_lib (Sim.env Sim.happy)
           Sim.issued Sim.pending_Resource true "Root X2" (Sim.start [])
           Sim.two_chains []
           (set_chain Sim.pending_Resource (bytes_of "CHAIN-X2")
              (bytes_of "LEAF+X2") "https://ca.test/cert/1/alt")
           (snd (checkResponse Sim.the_lib (Sim.env Sim.happy) Sim.issued
                   Sim.pending_Resource true "Root X2" (Sim.start [])))
           eq_refl eq_refl).
  - discriminate.
  - vm_compute. reflexivity.
Defined.

(** ** Renewal: what is kept of the stored Resource *)

Section RenewalFacts.
Context {W : Type}.
Variable L : Lib.
Variable E : Env W.
Variable options : CertifierOptions.
Variable P : Event -> Prop.
Variable bundle : bool.
Hypothesis P_authz : forall order, P (EvGetAuthorizations order).
Hypothesis P_solve : forall authz, P (EvSolve authz).
Hypothesis P_gen : forall keyType, P (EvGeneratePrivateKey keyType).
Hypothesis P_fin : forall url csr, P (EvUpdateForCSR url csr).
Hypothesis P_wait : forall msg timeout interval,
  P (EvWaitFor msg timeout interval).
Hypothesis P_get : forall location, P (EvOrdersGet location).
Hypothesis P_all : forall url, P (EvCertificatesGetAll url bundle).

Lemma emits_checkResponse_b order certRes preferredChain :
  emits P (checkResponse L E order certRes bundle preferredChain).
Proof.
  unfold checkResponse. destruct (checkOrderStatus order) as [valid err].
  destruct err; [apply emits_ret|].
  destruct (negb valid); [apply emits_ret|].
  apply emits_bind; [apply emits_call; apply P_all|].
  intros [certs|e]; [|apply emits_ret]. cbv zeta.
  destruct (String.eqb preferredChain ""); [apply emits_ret|].
  apply emits_bind; [apply emits_peek|].
  intros entries. apply emits_checkResponse_range.
Qed.

Lemma emits_wait_loop_b order preferredChain samples msg certRes :
  emits P (wait_loop samples msg (poll_step L E order bundle preferredChain)
             certRes).
Proof.
  revert certRes. induction samples as [|n IH]; intros certRes; simpl.
  - apply emits_ret.
  - apply emits_bind.
    { unfold poll_step. apply emits_bind; [apply emits_call; apply P_get|].
      intros [ord|e]; [|apply emits_ret].
      apply emits_bind; [apply emits_checkResponse_b|].
      intros [r [done [e|]]]; apply emits_ret. }
    intros [r [stop err]]. destruct stop; [apply emits_ret|].
    destruct err; [apply emits_ret | apply IH].
Qed.

Lemma emits_getForCSR_b domains order csr privateKeyPem preferredChain :
  emits P (getForCSR L E options domains order bundle csr privateKeyPem
             preferredChain).
Proof.
  unfold getForCSR.
  apply emits_bind; [apply emits_call; apply P_fin|].
  intros [respOrder|e]; [|apply emits_ret].
  destruct domains as [|domain0 rest]; [apply emits_panic|]. cbv zeta.
  assert (Hpoll : forall r,
    emits P
      (bind (wait_For E "certificate" (poll_timeout options)
               (poll_timeout options ÷ 60)%Z
               (poll_step L E order bundle preferredChain) r)
         (fun x => let '(certRes', err) := x in ret (Some certRes', err)))).
  { intros r. apply emits_bind.
    - unfold wait_For. apply emits_bind; [apply emits_call; apply P_wait|].
      intros n. apply emits_wait_loop_b.
    - intros [r' err]. apply emits_ret. }
  destruct (String.eqb (acme.Status respOrder) acme.StatusValid);
    [|apply Hpoll].
  apply emits_bind; [apply emits_checkResponse_b|].
  intros [r' [ok [e|]]]; [apply emits_ret|].
  destruct ok; [apply emits_ret | apply Hpoll].
Qed.

Lemma emits_deactivate_if order force :
  (force = true -> forall url, P (EvDeactivate url)) ->
  emits P (deactivateAuthorizations E order force).
Proof.
  intros HP. destruct force.
  - apply emits_deactivateAuthorizations. now apply HP.
  - apply emits_ret.
Qed.

Lemma emits_Obtain_b request :
  ObtainRequest.Bundle request = bundle ->
  P (EvNewOrder (sanitizeDomain L (ObtainRequest.Domains request))
       (Obtain_orderOpts request)) ->
  (ObtainRequest.AlwaysDeactivateAuthorizations request = true ->
   forall url, P (EvDeactivate url)) ->
  (forall key domain san,
      P (EvCreateCSR key
           {| certcrypto.Domain := domain;
              certcrypto.SAN := san;
              certcrypto.MustStaple := ObtainRequest.MustStaple request;
              certcrypto.EmailAddresses :=
                ObtainRequest.EmailAddresses request |})) ->
  emits P (Obtain L E options request).
Proof.
  intros Hb Pnew Pde Pcsr. unfold Obtain.
  destruct (length (ObtainRequest.Domains request) =? 0)%nat;
    [apply emits_ret|]. cbv zeta.
  apply emits_bind; [apply emits_call; exact Pnew|].
  intros [order|e]; [|apply emits_ret].
  apply emits_bind; [apply emits_call; apply P_authz|].
  intros [authz|e].
  2:{ apply emits_bind; [|intros _; apply emits_ret].
      now apply emits_deactivate_if. }
  apply emits_bind; [apply emits_call; apply P_solve|].
  intros [e|].
  { apply emits_bind; [|intros _; apply emits_ret].
    now apply emits_deactivate_if. }
  apply emits_bind.
  { unfold getForOrder. apply emits_bind.
    { destruct (ObtainRequest.PrivateKey request);
        [apply emits_ret | apply emits_call; apply P_gen]. }
    intros [privateKey|e]; [|apply emits_ret].
    destruct (sanitizeDomain L (ObtainRequest.Domains request))
      as [|domain0 rest]; [apply emits_panic|]. cbv zeta.
    apply emits_bind; [apply emits_call; apply Pcsr|].
    intros [csr|e]; [|apply emits_ret].
    rewrite Hb. apply emits_getForCSR_b. }
  intros [cert err]. apply emits_bind; [|intros _; apply emits_ret].
  destruct (ObtainRequest.AlwaysDeactivateAuthorizations request);
    [|apply emits_ret].
  apply emits_deactivateAuthorizations. now apply Pde.
Qed.

Lemma emits_ObtainForCSR_b request :
  ObtainForCSRRequest.Bundle request = bundle ->
  (forall domains, P (EvNewOrder domains (ObtainForCSR_orderOpts request))) ->
  (ObtainForCSRRequest.AlwaysDeactivateAuthorizations request = true ->
   forall url, P (EvDeactivate url)) ->
  emits P (ObtainForCSR L E options request).
Proof.
  intros Hb Pnew Pde. unfold ObtainForCSR.
  destruct (ObtainForCSRRequest.CSR request) as [csr|]; [|apply emits_ret].
  cbv zeta.
  apply emits_bind; [apply emits_call; apply Pnew|].
  intros [order|e]; [|apply emits_ret].
  apply emits_bind; [apply emits_call; apply P_authz|].
  intros [authz|e].
  2:{ apply emits_bind; [|intros _; apply emits_ret].
      now apply emits_deactivate_if. }
  apply emits_bind; [apply emits_call; apply P_solve|].
  intros [e|].
  { apply emits_bind; [|intros _; apply emits_ret].
    now apply emits_deactivate_if. }
  apply emits_bind; [rewrite Hb; apply emits_getForCSR_b|].
  intros [cert err]. apply emits_bind; [|intros _; apply emits_ret].
  destruct (ObtainForCSRRequest.AlwaysDeactivateAuthorizations request);
    [|apply emits_ret].
  apply emits_deactivateAuthorizations. now apply Pde.
Qed.

End RenewalFacts.

Lemma emits_Renew {W : Type} (L : Lib) (E : Env W) (options : CertifierOptions)
  (certRes : Resource) (bundle mustStaple : bool) (preferredChain : string) :
  emits (renew_event bundle mustStaple)
    (Renew L E options certRes bundle mustStaple preferredChain).
Proof.
  unfold Renew, RenewWithOptions.
  destruct (ParsePEMBundle L (Certificate certRes)) as [certificates|e];
    [|apply emits_ret].
  destruct certificates as [|x509Cert rest]; [apply emits_panic|].
  destruct (x509.IsCA x509Cert); [apply emits_ret|].
  destruct (0 <? len_bytes (CSR certRes))%nat.
  - destruct (PemDecodeTox509CSR L (CSR certRes)) as [csr|e];
      [|apply emits_ret].
    apply emits_ObtainForCSR_b with (bundle := bundle);
      try (intros; exact I); try reflexivity.
    discriminate.
  - assert (Hob : forall privateKey,
      emits (renew_event bundle mustStaple)
        (Obtain L E options
           (renew_request (ExtractDomains L x509Cert) privateKey
              (Some {| RenewOptions.NotBefore := 0%Z;
                       RenewOptions.NotAfter := 0%Z;
                       RenewOptions.Bundle := bundle;
                       RenewOptions.PreferredChain := preferredChain;
                       RenewOptions.Profile := "";
                       RenewOptions.AlwaysDeactivateAuthorizations := false;
                       RenewOptions.MustStaple := mustStaple;
                       RenewOptions.EmailAddresses := [] |})))).
    { intros privateKey.
      apply emits_Obtain_b with (bundle := bundle);
        try (intros; exact I); try reflexivity.
      - discriminate.
      - intros; split; reflexivity. }
    destruct (PrivateKey certRes) as [p|]; [|apply Hob].
    destruct (ParsePEMPrivateKey L (Some p)) as [key|e];
      [apply Hob | apply emits_ret].
Qed.

(** X16. A renewal keeps the key material of the stored Resource.  When the
    Resource has a CSR, RenewWithOptions generates no key and creates no CSR:
    it finalizes the stored CSR, and every Resource it returns carries that
    CSR again, its first domain, and no private key.  When the Resource has
    no CSR but a private key, no key is generated, the new CSR is created
    with the stored key, and every Resource returned carries that key and the
    first sanitized domain of the stored certificate. *)
Theorem renewal_key_material {W : Type} (L : Lib) (E : Env W)
  (options : CertifierOptions) (certRes : Resource)
  (ropts : option RenewOptions.t) (x509Cert : x509.Certificate)
  (rest : list x509.Certificate) (s : State W) :
  ParsePEMBundle L (Certificate certRes) = Ok (x509Cert :: rest) ->
  x509.IsCA x509Cert = false ->
  (forall csr,
      0 < len_bytes (CSR certRes) ->
      PemDecodeTox509CSR L (CSR certRes) = Ok csr ->
      (exists evs,
          trace (snd (RenewWithOptions L E options certRes ropts s))
          = trace s ++ evs
          /\ Forall (csr_mode_event (x509.CSR_Raw csr)) evs)
      /\ (forall r err,
          fst (RenewWithOptions L E options certRes ropts s)
          = Ret (Some r, err) ->
          CSR r = PEMEncodeCSR L csr /\ PrivateKey r = None
          /\ Domain r = hd "" (ExtractDomainsCSR L csr)))
  /\ (forall key,
      len_bytes (CSR certRes) = 0 ->
      PrivateKey certRes <> None ->
      ParsePEMPrivateKey L (PrivateKey certRes) = Ok key ->
      (exists evs,
          trace (snd (RenewWithOptions L E options certRes ropts s))
          = trace s ++ evs
          /\ Forall (uses_key key) evs)
      /\ (forall r err,
          fst (RenewWithOptions L E options certRes ropts s)
          = Ret (Some r, err) ->
          PrivateKey r = PEMEncode L key /\ CSR r = None
          /\ Domain r
             = hd "" (sanitizeDomain L (ExtractDomains L x509Cert)))).
Proof.
  intros Hparse HCA. split.
  - intros csr Hlen Hdec.
    assert (Hltb : (0 <? len_bytes (CSR certRes))%nat = true)
      by now apply Nat.ltb_lt.
    assert (Hrun : RenewWithOptions L E options certRes ropts s
                   = ObtainForCSR L E options (renew_csr_request csr ropts) s).
    { unfold RenewWithOptions. now rewrite Hparse, HCA, Hltb, Hdec. }
    rewrite Hrun.
    assert (Hcsr : ObtainForCSRRequest.CSR (renew_csr_request csr ropts)
                   = Some csr) by now destruct ropts.
    assert (Hkey : ObtainForCSRRequest.PrivateKey (renew_csr_request csr ropts)
                   = None) by now destruct ropts.
    destruct (ObtainForCSR L E options (renew_csr_request csr ropts) s)
      as [o s'] eqn:Hob. cbn [fst snd]. split.
    + exact (emits_ObtainForCSR L E options _ csr Hcsr _ _ _ Hob).
    + intros r err ->.
      apply ObtainForCSR_Resource_inv in Hob
        as (csr' & order & s3 & r0 & err0 & s4 & Hcsr' & -> & Hg).
      rewrite Hcsr in Hcsr'. inversion Hcsr'; subst csr'.
      rewrite Hkey in Hg. apply getForCSR_Resource in Hg as (D & Pk & _).
      cbn [set_CSR CSR Domain PrivateKey]. now repeat split.
  - intros key Hlen Hsome Hpk.
    assert (Hltb : (0 <? len_bytes (CSR certRes))%nat = false)
      by (rewrite Hlen; reflexivity).
    assert (Hrun : RenewWithOptions L E options certRes ropts s
                   = Obtain L E options
                       (renew_request (ExtractDomains L x509Cert) (Some key)
                          ropts) s).
    { unfold RenewWithOptions. rewrite Hparse, HCA, Hltb.
      destruct (PrivateKey certRes) as [p|]; [|contradiction].
      now rewrite Hpk. }
    rewrite Hrun.
    assert (Hkey : ObtainRequest.PrivateKey
                     (renew_request (ExtractDomains L x509Cert) (Some key)
                        ropts) = Some key) by now destruct ropts.
    assert (Hdom : ObtainRequest.Domains
                     (renew_request (ExtractDomains L x509Cert) (Some key)
                        ropts) = ExtractDomains L x509Cert)
      by now destruct ropts.
    destruct (Obtain L E options
                (renew_request (ExtractDomains L x509Cert) (Some key) ropts) s)
      as [o s'] eqn:Hob. cbn [fst snd]. split.
    + exact (emits_Obtain_key L E options _ key Hkey _ _ _ Hob).
    + intros r err ->.
      apply Obtain_Resource_inv in Hob as (order & s3 & err0 & s4 & Hg).
      apply getForOrder_Resource in Hg as (D & C & k & Pk & Hk).
      rewrite Hkey in Hk. subst k. rewrite Hdom in D. now repeat split.
Qed.

Lemma renewal_key_material_witness :
  exists evs,
    trace (snd (RenewWithOptions Sim.the_lib (Sim.env Sim.happy)
                  (Sim.options 0)
                  (Sim.stored "LEAF+X1" (bytes_of "KEY") None)
                  (Some (Sim.renew_options false))
                  (Sim.start Sim.happy_polls)))
    = [] ++ evs
    /\ Forall (uses_key (KeyHandle 7)) evs.
Proof.
  refine (proj1 (proj2 (renewal_key_material Sim.the_lib (Sim.env Sim.happy)
                          (Sim.options 0)
                          (Sim.stored "LEAF+X1" (bytes_of "KEY") None)
                          (Some (Sim.renew_options false))
                          (Sim.leaf ["example.com"; "www.example.com"])
                          [Sim.root "Root X1"] (Sim.start Sim.happy_polls)
                          _ _)
                  (KeyHandle 7) _ _ _)).
  - vm_compute. reflexivity.
  - reflexivity.
  - reflexivity.
  - discriminate.
  - vm_compute. reflexivity.
Defined.

(** X17. RenewWithOptions fails before any call when the stored certificate
    does not parse, when the stored CSR does not decode, and when the stored
    private key does not parse: it returns that error with no Resource and
    leaves the state as it was.  A stored certificate that parses to an
    empty list makes [certificates[0]] panic, also before any call. *)
Theorem RenewWithOptions_early_failures {W : Type} (L : Lib) (E : Env W)
  (options : CertifierOptions) (certRes : Resource)
  (ropts : option RenewOptions.t) (s : State W) :
  (forall e,
      ParsePEMBundle L (Certificate certRes) = Err e ->
      RenewWithOptions L E options certRes ropts s = (Ret (None, Some e), s))
  /\ (ParsePEMBundle L (Certificate certRes) = Ok [] ->
      RenewWithOptions L E options certRes ropts s
      = (Panic Panic_Renew_certificates0, s))
  /\ (forall x509Cert rest e,
      ParsePEMBundle L (Certificate certRes) = Ok (x509Cert :: rest) ->
      x509.IsCA x509Cert = false ->
      (0 < len_bytes (CSR certRes) ->
       PemDecodeTox509CSR L (CSR certRes) = Err e ->
       RenewWithOptions L E options certRes ropts s = (Ret (None, Some e), s))
      /\ (len_bytes (CSR certRes) = 0 ->
          PrivateKey certRes <> None ->
          ParsePEMPrivateKey L (PrivateKey certRes) = Err e ->
          RenewWithOptions L E options certRes ropts s
          = (Ret (None, Some e), s))).
Proof.
  split; [|split].
  - intros e Hparse. unfold RenewWithOptions. now rewrite Hparse.
  - intros Hparse. unfold RenewWithOptions. now rewrite Hparse.
  - intros x509Cert rest e Hparse HCA. split.
    + intros Hlen Hdec.
      assert (Hltb : (0 <? len_bytes (CSR certRes))%nat = true)
        by now apply Nat.ltb_lt.
      unfold RenewWithOptions. now rewrite Hparse, HCA, Hltb, Hdec.
    + intros Hlen Hsome Hpk.
      assert (Hltb : (0 <? len_bytes (CSR certRes))%nat = false)
        by (rewrite Hlen; reflexivity).
      unfold RenewWithOptions. rewrite Hparse, HCA, Hltb.
      destruct (PrivateKey certRes) as [p|]; [|contradiction].
      now rewrite Hpk.
Qed.

Lemma RenewWithOptions_early_failures_witness :
  RenewWithOptions Sim.the_lib (Sim.env Sim.happy) (Sim.options 0)
    (Sim.stored "LEAF+X1" (bytes_of "NOKEY") None)
    (Some (Sim.renew_options false)) (Sim.start Sim.happy_polls)
  = (Ret (None, Some (errors_New "unknown PEM block for a private key")),
     Sim.start Sim.happy_polls).
Proof.
  refine (proj2 (proj2 (proj2 (RenewWithOptions_early_failures Sim.the_lib
                                 (Sim.env Sim.happy) (Sim.options 0)
                                 (Sim.stored "LEAF+X1" (bytes_of "NOKEY") None)
                                 (Some (Sim.renew_options false))
                                 (Sim.start Sim.happy_polls)))
                   (Sim.leaf ["example.com"; "www.example.com"])
                   [Sim.root "Root X1"]
                   (errors_New "unknown PEM block for a private key") _ _)
            _ _ _).
  - vm_compute. reflexivity.
  - reflexivity.
  - reflexivity.
  - discriminate.
  - vm_compute. reflexivity.
Defined.

(** X18. The deprecated Renew passes on only bundle, preferredChain and
    mustStaple.  So in every run of Renew the order is created without time
    bounds, profile or replaced certificate, no authorization is deactivated,
    a CSR is created with the caller's mustStaple and no email address, and
    the chains are fetched with the caller's bundle flag; and for a stored
    Resource with a CSR, mustStaple has no influence at all. *)
Theorem Renew_fixed_options {W : Type} (L : Lib) (E : Env W)
  (options : CertifierOptions) (certRes : Resource)
  (bundle mustStaple : bool) (preferredChain : string) (s : State W) :
  (exists evs,
      trace (snd (Renew L E options certRes bundle mustStaple preferredChain s))
      = trace s ++ evs
      /\ Forall (renew_event bundle mustStaple) evs)
  /\ (0 < len_bytes (CSR certRes) ->
      Renew L E options certRes bundle mustStaple preferredChain
      = Renew L E options certRes bundle (negb mustStaple) preferredChain).
Proof.
  split.
  - destruct (Renew L E options certRes bundle mustStaple preferredChain s)
      as [o s'] eqn:Hrun.
    exact (emits_Renew L E options certRes bundle mustStaple preferredChain
             _ _ _ Hrun).
  - intros Hlen.
    assert (Hltb : (0 <? len_bytes (CSR certRes))%nat = true)
      by now apply Nat.ltb_lt.
    unfold Renew, RenewWithOptions. rewrite Hltb. reflexivity.
Qed.

Lemma Renew_fixed_options_witness :
  Renew Sim.the_lib (Sim.env Sim.happy) (Sim.options 0)
    (Sim.stored "LEAF+X1" None (bytes_of "CSR")) true true ""
  = Renew Sim.the_lib (Sim.env Sim.happy) (Sim.options 0)
      (Sim.stored "LEAF+X1" None (bytes_of "CSR")) true (negb true) "".
Proof.
  apply (proj2 (Renew_fixed_options Sim.the_lib (Sim.env Sim.happy)
                  (Sim.options 0) (Sim.stored "LEAF+X1" None (bytes_of "CSR"))
                  true true "" (Sim.start []))).
  simpl. lia.
Defined.

(** ** Get *)

(** X19. Get makes exactly one call, the fetch of the certificate at the
    given URL, whatever comes of it.  A Resource is returned only without an
    error: it holds the certificate and issuer bytes the CA returned, the
    given URL in both URL fields, no private key and no CSR, and as Domain
    the main domain of the first certificate of the parsed bundle.  No
    Resource means an error.  The only panic is [x509Certs[0]] on a bundle
    that parses to an empty list. *)
Theorem Get_one_call {W : Type} (L : Lib) (E : Env W) (url : string)
  (bundle : bool) (s : State W) :
  let answer := Certificates_Get E url bundle (world s) in
  snd (Get L E url bundle s)
  = {| world := snd answer;
       trace := trace s ++ [EvCertificatesGet url bundle] |}
  /\ (forall r err,
      fst (Get L E url bundle s) = Ret (Some r, err) ->
      err = None /\ CertURL r = url /\ CertStableURL r = url
      /\ PrivateKey r = None /\ CSR r = None
      /\ fst answer = Ok (Certificate r, IssuerCertificate r)
      /\ exists x509Cert0 rest,
          ParsePEMBundle L (Certificate r) = Ok (x509Cert0 :: rest)
          /\ GetCertificateMainDomain L x509Cert0 = Ok (Domain r))
  /\ (forall err, fst (Get L E url bundle s) = Ret (None, err) -> err <> None)
  /\ (forall site,
      fst (Get L E url bundle s) = Panic site ->
      site = Panic_Get_x509Certs0
      /\ exists cert issuer,
          fst answer = Ok (cert, issuer) /\ ParsePEMBundle L cert = Ok []).
Proof.
  intros answer. unfold Get, bind, call. fold answer.
  destruct answer as [[[cert issuer]|e] w'] eqn:Hans; cbn [fst snd].
  2:{ unfold ret. cbn [fst snd]. split; [reflexivity|].
      split; [intros r err H; discriminate|].
      split; [intros err H; inversion H; discriminate|].
      intros site H; discriminate. }
  destruct (ParsePEMBundle L cert) as [[|x509Cert0 rest]|e] eqn:Hparse.
  - unfold panic. cbn [fst snd]. split; [reflexivity|].
    split; [intros r err H; discriminate|].
    split; [intros err H; discriminate|].
    intros site H. inversion H. split; [reflexivity|]. now exists cert, issuer.
  - destruct (GetCertificateMainDomain L x509Cert0) as [domain|e] eqn:Hdom;
      unfold ret; cbn [fst snd].
    + split; [reflexivity|].
      split.
      { intros r err H. inversion H; subst r err.
        cbn [CertURL CertStableURL PrivateKey CSR Certificate
             IssuerCertificate Domain].
        repeat (split; [reflexivity|]).
        exists x509Cert0, rest. now split. }
      split; [intros err H; discriminate|].
      intros site H; discriminate.
    + split; [reflexivity|].
      split; [intros r err H; discriminate|].
      split; [intros err H; inversion H; discriminate|].
      intros site H; discriminate.
  - unfold ret. cbn [fst snd]. split; [reflexivity|].
    split; [intros r err H; discriminate|].
    split; [intros err H; inversion H; discriminate|].
    intros site H; discriminate.
Qed.

Lemma Get_one_call_witness :
  None = None :> option error
  /\ CertURL (Sim.stored "LEAF+X1" None None) = "https://ca.test/cert/1"
  /\ CertStableURL (Sim.stored "LEAF+X1" None None) = "https://ca.test/cert/1"
  /\ PrivateKey (Sim.stored "LEAF+X1" None None) = None
  /\ CSR (Sim.stored "LEAF+X1" None None) = None
  /\ fst (Certificates_Get (Sim.env Sim.happy) "https://ca.test/cert/1" true
            (world (Sim.start [])))
     = Ok (Certificate (Sim.stored "LEAF+X1" None None),
           IssuerCertificate (Sim.stored "LEAF+X1" None None))
  /\ exists x509Cert0 rest,
      ParsePEMBundle Sim.the_lib (Certificate (Sim.stored "LEAF+X1" None None))
      = Ok (x509Cert0 :: rest)
      /\ GetCertificateMainDomain Sim.the_lib x509Cert0
         = Ok (Domain (Sim.stored "LEAF+X1" None None)).
Proof.
  apply (proj1 (proj2 (Get_one_call Sim.the_lib (Sim.env Sim.happy)
                         "https://ca.test/cert/1" true (Sim.start [])))
           (Sim.stored "LEAF+X1" None None) None).
  vm_compute. reflexivity.
Defined.

(** ** A CSR that names no domain *)

(** X20. ObtainForCSR does not check that the CSR names a domain.  When the
    list extracted from the CSR is empty and the order, its authorizations,
    the challenges and the finalize call all succeed, [domains[0]] of
    getForCSR panics right after the finalize call: no Resource and no error
    is returned, and no authorization is deactivated, whatever
    AlwaysDeactivateAuthorizations says. *)
Theorem ObtainForCSR_without_names {W : Type} (L : Lib) (E : Env W)
  (options : CertifierOptions) (request : ObtainForCSRRequest.t)
  (csr : x509.CertificateRequest) (s : State W) (order : acme.ExtendedOrder)
  (authz : list acme.Authorization) (w3 : W)
  (respOrder : acme.ExtendedOrder) (w4 : W) :
  ObtainForCSRRequest.CSR request = Some csr ->
  ExtractDomainsCSR L csr = [] ->
  reaches_Solve E [] (ObtainForCSR_orderOpts request) (world s) order authz
    None w3 ->
  Orders_UpdateForCSR E (acme.Finalize order) (x509.CSR_Raw csr) w3
  = (Ok respOrder, w4) ->
  ObtainForCSR L E options request s
  = (Panic Panic_getForCSR_domains0,
     {| world := w4;
        trace := trace s
                 ++ solve_events [] (ObtainForCSR_orderOpts request) order authz
                 ++ [EvUpdateForCSR (acme.Finalize order)
                       (x509.CSR_Raw csr)] |}).
Proof.
  intros Hcsr Hnil Hreach Hfin.
  rewrite <- Hnil in Hreach.
  rewrite (ObtainForCSR_reaches_Solve L E options request csr s _ _ _ _
             Hcsr Hreach).
  rewrite Hnil. unfold getForCSR, bind, call. cbn [world trace].
  rewrite Hfin. unfold panic. now rewrite <- app_assoc.
Qed.

Lemma ObtainForCSR_without_names_witness :
  fst (ObtainForCSR Sim2.strict_lib (Sim.env Sim.happy) (Sim.options 0)
         Sim2.nameless_request (Sim.start []))
  = Panic Panic_getForCSR_domains0.
Proof.
  refine (f_equal fst
            (ObtainForCSR_without_names Sim2.strict_lib (Sim.env Sim.happy)
               (Sim.options 0) Sim2.nameless_request Sim2.nameless_csr
               (Sim.start []) (Sim.order acme.StatusPending [] None)
               [Sim.authorization "example.com";
                Sim.authorization "www.example.com"]
               []
               (Sim.order acme.StatusProcessing
                  ["example.com"; "www.example.com"] None)
               [] eq_refl eq_refl _ eq_refl)).
  exists [], []. repeat split; reflexivity.
Defined.

(** ** The order of the SAN list, and the request limit *)

(** X21. The SAN list of the CSR is the CommonName, when there is one,
    followed by the values of the order's identifiers in the order's own
    sequence, less those equal to the CommonName.  So a CommonName leads the
    list, every entry is the CommonName or an identifier value, and when
    the CommonName is disabled or the first domain is too long the list is
    the identifier values less the empty ones. *)
Theorem SAN_in_identifier_order (options : CertifierOptions)
  (domain0 : string) (identifiers : list acme.Identifier) :
  let commonName := commonName_of options domain0 in
  let san := san_of commonName identifiers in
  let values := map acme.Value identifiers in
  san = (if String.eqb commonName "" then [] else [commonName])
        ++ List.filter (fun v => negb (String.eqb v commonName)) values
  /\ (commonName <> "" -> hd_error san = Some commonName)
  /\ (forall v, In v san -> v = commonName \/ In v values)
  /\ (DisableCommonName options = true \/ 64 < String.length domain0 ->
      san = List.filter (fun v => negb (String.eqb v "")) values).
Proof.
  intros commonName san values.
  assert (Hsan : san
    = (if String.eqb commonName "" then [] else [commonName])
      ++ List.filter (fun v => negb (String.eqb v commonName)) values).
  { unfold san, san_of. now rewrite san_fold. }
  split; [exact Hsan|]. split; [|split].
  - intros Hne. rewrite Hsan. apply String.eqb_neq in Hne. now rewrite Hne.
  - intros v Hin. rewrite Hsan in Hin. apply in_app_or in Hin as [Hin|Hin].
    + destruct (String.eqb commonName ""); [destruct Hin|].
      destruct Hin as [<-|[]]. now left.
    + right. now apply filter_In in Hin as [Hin _].
  - intros Hoff.
    assert (Hcn : commonName = "").
    { unfold commonName, commonName_of. destruct Hoff as [->|Hlong].
      - now rewrite andb_false_r.
      - destruct (Nat.leb_spec (String.length domain0) 64); [lia|].
        reflexivity. }
    rewrite Hsan, Hcn. reflexivity.
Qed.

Lemma SAN_in_identifier_order_witness :
  hd_error (san_of (commonName_of (Sim.options 0) "example.com")
              (acme.Identifiers Sim.waiting))
  = Some (commonName_of (Sim.options 0) "example.com").
Proof.
  apply (proj1 (proj2 (SAN_in_identifier_order (Sim.options 0) "example.com"
                         (acme.Identifiers Sim.waiting)))).
  discriminate.
Defined.

(** X22. The request limit of a new Certifier is always positive: it is the
    configured OverallRequestLimit when that is positive and the default of
    18 otherwise.  The options are stored as given, and building a Certifier
    from options that carry an already computed limit changes nothing. *)
Theorem NewCertifier_request_limit (options : CertifierOptions) :
  let c := NewCertifier options in
  (0 < overallRequestLimit c)%Z
  /\ certifier_options c = options
  /\ ((0 < OverallRequestLimit options)%Z ->
      overallRequestLimit c = OverallRequestLimit options)
  /\ ((OverallRequestLimit options <= 0)%Z ->
      overallRequestLimit c = DefaultOverallRequestLimit)
  /\ overallRequestLimit
       (NewCertifier {| KeyType := KeyType options;
                        Timeout := Timeout options;
                        OverallRequestLimit := overallRequestLimit c;
                        DisableCommonName := DisableCommonName options |})
     = overallRequestLimit c.
Proof.
  cbv zeta. unfold NewCertifier, DefaultOverallRequestLimit.
  cbn [overallRequestLimit certifier_options OverallRequestLimit].
  destruct (Z.leb_spec (OverallRequestLimit options) 0) as [Hle|Hgt].
  - repeat split; intros; try lia; reflexivity.
  - repeat split; intros; try lia; try reflexivity.
    destruct (Z.leb_spec (OverallRequestLimit options) 0); [lia|reflexivity].
Qed.

Lemma NewCertifier_request_limit_witness :
  overallRequestLimit (NewCertifier
                         {| KeyType := "EC256"; Timeout := 0%Z;
                            OverallRequestLimit := (-3)%Z;
                            DisableCommonName := false |})
  = DefaultOverallRequestLimit.
Proof.
  apply (proj1 (proj2 (proj2 (proj2
           (NewCertifier_request_limit
              {| KeyType := "EC256"; Timeout := 0%Z;
                 OverallRequestLimit := (-3)%Z;
                 DisableCommonName := false |}))))).
  simpl. lia.
Defined.
